(** * ebook2audiobookEspeak: the chapter pipeline, embedded and verified

    A shallow embedding of the two conversion pipelines of the repository:
    - [gradio_launch.py]: the chaptered pipeline (EPUB items -> chapter text
      files -> per-sentence synthesis -> chapter WAVs -> M4B with chapter
      markers);
    - [app.py]: the single-file pipeline (ebook -> TXT -> one audio file).

    Conventions of the embedding.
    - A Python [str] is a Rocq [string]; [len] is [String.length].  Texts are
      therefore restricted to code points below 256; the literals of status
      messages hold the bytes of the source's text.
    - A Python [int] is a [Z]; loop counters that only count are [nat].
    - The file system is a finite map from paths to file contents, which
      holds a file as it was written; reading in text mode turns carriage
      returns into line feeds ([Py.universal_newlines]).  The map does not
      record directories: where the code asks whether one exists, the
      answer is a parameter, and making a directory succeeds except for
      the empty name.
    - A call that an exception can leave says how it ends ([Returns] or
      [Raises]) next to the state it leaves.
    - External tools (ebook-convert, espeak-ng, lame, oggenc, ffmpeg) and
      external libraries (the sentence tokenizer, the WAV decoder) are
      parameters: the functions below take their observable results (exit
      status, captured streams, files written) as arguments. *)

From Stdlib Require Import ZArith Ascii String DecimalString Decimal DecimalPos.
From Stdlib Require Import Sorted Permutation.
From stdpp Require Import base list strings gmap.

Local Open Scope string_scope.
Local Open Scope Z_scope.

(** String concatenation computes on literals in the proofs below. *)
#[local] Arguments String.append !s1 s2 : simpl nomatch.

(** ** Python string primitives *)

Module Py.

(** [str(n)] for an integer. *)
Definition str_int (n : Z) : string := NilZero.string_of_int (Z.to_int n).

(** [c.isdigit()] on the ASCII range: what [\d] matches. *)
Definition is_digit (c : ascii) : bool :=
  let n := nat_of_ascii c in (48 <=? n)%nat && (n <=? 57)%nat.

Definition digit_val (c : ascii) : Z := Z.of_nat (nat_of_ascii c) - 48.

(** [int(s)] on a string of decimal digits, most significant first. *)
Fixpoint int_acc (s : string) (acc : Z) : Z :=
  match s with
  | EmptyString => acc
  | String c r => int_acc r (10 * acc + digit_val c)
  end.

Definition int_of_digits (s : string) : Z := int_acc s 0.

(** [s.startswith(p)] *)
Fixpoint startswith (p s : string) : bool :=
  match p, s with
  | EmptyString, _ => true
  | String a p', String b s' => if Ascii.eqb a b then startswith p' s' else false
  | String _ _, EmptyString => false
  end.

(** [s.endswith(p)] *)
Definition endswith (p s : string) : bool :=
  let lp := String.length p in
  let ls := String.length s in
  (lp <=? ls)%nat && String.eqb (substring (ls - lp) lp s) p.

(** [s.find(sub)]: lowest index where [sub] occurs in [s], [-1] if none. *)
Fixpoint find_from (sub s : string) (i : Z) : Z :=
  if startswith sub s then i
  else match s with
       | EmptyString => -1
       | String _ r => find_from sub r (i + 1)
       end.

Definition find (s sub : string) : Z := find_from sub s 0.

(** [s.replace(old, new)] for a non-empty [old]: non-overlapping occurrences,
    leftmost first.  The fuel is the length of [s]; each step consumes at
    least one character. *)
Fixpoint drop (n : nat) (s : string) : string :=
  match n, s with
  | O, _ => s
  | S _, EmptyString => EmptyString
  | S k, String _ r => drop k r
  end.

Fixpoint replace_fuel (fuel : nat) (old new s : string) : string :=
  match fuel with
  | O => s
  | S f =>
      match s with
      | EmptyString => EmptyString
      | String c r =>
          if startswith old s
          then new ++ replace_fuel f old new (drop (String.length old) s)
          else String c (replace_fuel f old new r)
      end
  end.

Definition replace (s old new : string) : string :=
  replace_fuel (String.length s) old new s.

(** Removing every occurrence of one character: [s.replace(c, '')]. *)
Fixpoint remove_char (c : ascii) (s : string) : string :=
  match s with
  | EmptyString => EmptyString
  | String a r => if Ascii.eqb a c then remove_char c r else String a (remove_char c r)
  end.

(** [c.isspace()] below code point 256. *)
Definition is_space (c : ascii) : bool :=
  let n := nat_of_ascii c in
  ((9 <=? n)%nat && (n <=? 13)%nat) || ((28 <=? n)%nat && (n <=? 32)%nat)
  || (n =? 133)%nat || (n =? 160)%nat.

Fixpoint lstrip (s : string) : string :=
  match s with
  | EmptyString => EmptyString
  | String c r => if is_space c then lstrip r else s
  end.

Fixpoint rstrip (s : string) : string :=
  match s with
  | EmptyString => EmptyString
  | String c r =>
      match rstrip r with
      | EmptyString => if is_space c then EmptyString else String c EmptyString
      | r' => String c r'
      end
  end.

(** [s.strip()] *)
Definition strip (s : string) : string := rstrip (lstrip s).

(** Truthiness of a string: non-empty. *)
Definition truthy (s : string) : bool :=
  match s with EmptyString => false | _ => true end.

(** [sep.join(parts)] *)
Fixpoint join (sep : string) (parts : list string) : string :=
  match parts with
  | [] => EmptyString
  | [p] => p
  | p :: rest => p ++ sep ++ join sep rest
  end.

(** [os.path.join(a, b)] on POSIX. *)
Definition path_join (a b : string) : string :=
  if startswith "/" b then b
  else if negb (truthy a) || endswith "/" a then a ++ b
  else a ++ "/" ++ b.

(** Maximal run of digits at the head of [s], and what follows it. *)
Fixpoint span_digits (s : string) : string * string :=
  match s with
  | EmptyString => (EmptyString, EmptyString)
  | String c r =>
      if is_digit c
      then let '(d, rest) := span_digits r in (String c d, rest)
      else (EmptyString, s)
  end.

(** [re.findall(r'\d+', s)]: the maximal digit runs of [s], left to right.
    [run] holds the digits of the run being read. *)
Fixpoint findall_digits_aux (s : string) (run : string) : list string :=
  match s with
  | EmptyString =>
      match run with EmptyString => [] | _ => [run] end
  | String c r =>
      if is_digit c then findall_digits_aux r (run ++ String c EmptyString)
      else match run with
           | EmptyString => findall_digits_aux r EmptyString
           | _ => run :: findall_digits_aux r EmptyString
           end
  end.

Definition findall_digits (s : string) : list string :=
  findall_digits_aux s EmptyString.

(** [sorted(l, key=key)]: Python's sort is stable, and a stable sort has one
    possible result; it is computed here by stable insertion. *)
Section Sorted.
Context {A : Type} (key : A -> Z).

Fixpoint insert_by (x : A) (l : list A) : list A :=
  match l with
  | [] => [x]
  | y :: r => if key x <=? key y then x :: l else y :: insert_by x r
  end.

Definition sorted (l : list A) : list A := foldr insert_by [] l.

(** The order [sorted] establishes. *)
Definition key_le (a b : A) : Prop := key a <= key b.
End Sorted.

(** Every occurrence of [a] in [l] stands before every occurrence of [b]. *)
Definition stands_before {A : Type} (l : list A) (a b : A) : Prop :=
  forall i j : nat, l !! i = Some a -> l !! j = Some b -> (i < j)%nat.

(** Every character of [s] is a decimal digit. *)
Fixpoint all_digits (s : string) : bool :=
  match s with
  | EmptyString => true
  | String c r => is_digit c && all_digits r
  end.

(** No character of [s] is a decimal digit. *)
Fixpoint no_digits (s : string) : bool :=
  match s with
  | EmptyString => true
  | String c r => negb (is_digit c) && no_digits r
  end.

(** [s] is empty or starts with a character that is not a digit. *)
Definition digit_free_head (s : string) : bool :=
  match s with
  | EmptyString => true
  | String c _ => negb (is_digit c)
  end.

(** The newline character. *)
Definition nl : string := String "010"%char EmptyString.

(** [c in s] for a character. *)
Fixpoint has_char (c : ascii) (s : string) : bool :=
  match s with
  | EmptyString => false
  | String a r => Ascii.eqb a c || has_char c r
  end.

(** [sub] occurs in [s] at index [k]. *)
Definition occurs_at (s sub : string) (k : nat) : Prop :=
  (k <= String.length s)%nat /\ startswith sub (drop k s) = true.

(** [pos] is what a first-match search of [sub] in [s] answers: the lowest
    index where [sub] occurs, or [-1] when it occurs nowhere. *)
Definition first_match (s sub : string) (pos : Z) : Prop :=
  (pos = -1 /\ forall k : nat, ~ occurs_at s sub k)
  \/ (0 <= pos /\ occurs_at s sub (Z.to_nat pos)
      /\ forall j : nat, (j < Z.to_nat pos)%nat -> ~ occurs_at s sub j).

(** [s.rfind(c)] for a character: the highest index, [-1] if none. *)
Fixpoint rfind_aux (c : ascii) (s : string) (i best : Z) : Z :=
  match s with
  | EmptyString => best
  | String a r => rfind_aux c r (i + 1) (if Ascii.eqb a c then i else best)
  end.

Definition rfind (s : string) (c : ascii) : Z := rfind_aux c s 0 (-1).

(** Every character of [s] is [c]: [s == c * len(s)]. *)
Fixpoint all_char (c : ascii) (s : string) : bool :=
  match s with
  | EmptyString => true
  | String a r => Ascii.eqb a c && all_char c r
  end.

(** [s.rstrip(c)] for a character. *)
Fixpoint rstrip_char (c : ascii) (s : string) : string :=
  match s with
  | EmptyString => EmptyString
  | String a r =>
      match rstrip_char c r with
      | EmptyString => if Ascii.eqb a c then EmptyString else String a EmptyString
      | r' => String a r'
      end
  end.

(** [os.path.dirname(p)] on POSIX: what stands before the last slash,
    without its trailing slashes unless it is made of slashes only. *)
Definition dirname (p : string) : string :=
  let i := rfind p "/"%char + 1 in
  let head := substring 0 (Z.to_nat i) p in
  if truthy head && negb (all_char "/"%char head)
  then rstrip_char "/"%char head else head.

(** What reading a file in text mode makes of its content: a carriage
    return, with the line feed that follows it if there is one, is read as
    one line feed.  Writing in text mode on POSIX changes nothing. *)
Fixpoint universal_newlines (s : string) : string :=
  match s with
  | EmptyString => EmptyString
  | String c r =>
      if Ascii.eqb c "013"%char then
        String "010"%char
          match r with
          | String c' r' => if Ascii.eqb c' "010"%char then universal_newlines r'
                            else universal_newlines r
          | EmptyString => EmptyString
          end
      else String c (universal_newlines r)
  end.

End Py.

(** ** gradio_launch.py: the chaptered pipeline *)

Module GradioLaunch.

Import Py.

(** *** create_chapter_labeled_book / save_chapters_as_text *)

(** ebooklib's item kinds; only [ITEM_DOCUMENT] matters to the segmenter. *)
Definition ITEM_DOCUMENT : Z := 9.

(** An EPUB item as the segmenter sees it: its kind and the plain text that
    [BeautifulSoup(item.get_content(), 'html.parser').get_text()] yields. *)
Record item := { get_type : Z; get_text : string }.

(** The file system: path -> content. *)
Abbreviation fsys := (gmap string string).

Definition write_file (path text : string) (fs : fsys) : fsys :=
  <[path := text]> fs.

Definition append_file (path text : string) (fs : fsys) : fsys :=
  <[path := default EmptyString (fs !! path) ++ text]> fs.

(** [os.path.join(".", "Working_files", "temp_ebook")] *)
Definition temp_ebook_dir : string :=
  path_join (path_join "." "Working_files") "temp_ebook".

(** [f"chapter_{n}.txt"] *)
Definition chapter_txt_name (n : Z) : string := "chapter_" ++ str_int n ++ ".txt".

(** [f"audio_chapter_{chapter_num}.wav"], the name under which
    [convert_chapters_to_audio_espeak] exports a chapter. *)
Definition audio_chapter_name (chapter_num : Z) : string :=
  "audio_chapter_" ++ str_int chapter_num ++ ".wav".

(** [os.path.join(directory, f"chapter_{chapter_counter}.txt")] *)
Definition chapter_path (chapter_counter : nat) : string :=
  path_join temp_ebook_dir (chapter_txt_name (Z.of_nat chapter_counter)).

(** The loop state of [save_chapters_as_text]. *)
Record seg_state := {
  seg_fs : fsys;
  previous_filename : string;
  chapter_counter : nat;
  seg_stdout : list string
}.

(** How a call ends: it returns, or an exception leaves it. *)
Inductive ending := Returns | Raises.

(** [ensure_directory]: the lines it prints; [there] is what
    [os.path.exists(directory_path)] answers.  The map of files does not
    record directories. *)
Definition ensure_directory (directory_path : string) (there : bool) : list string :=
  if there then [] else ["Created directory: " ++ directory_path].

(** The state in which the loop of [save_chapters_as_text] starts, after
    [ensure_directory(directory)]. *)
Definition seg_init (directory_there : bool) (fs : fsys) : seg_state :=
  {| seg_fs := fs; previous_filename := EmptyString; chapter_counter := 0;
     seg_stdout := ensure_directory temp_ebook_dir directory_there |}.

(** One iteration of [for item in book.get_items()]. *)
Definition save_item (st : seg_state) (it : item) : seg_state :=
  if get_type it =? ITEM_DOCUMENT then
    let text := get_text it in
    if truthy (strip text) then
      if (Z.of_nat (String.length text) <? 2300) && truthy (previous_filename st) then
        {| seg_fs := append_file (previous_filename st) (nl ++ text) (seg_fs st);
           previous_filename := previous_filename st;
           chapter_counter := chapter_counter st;
           seg_stdout := seg_stdout st |}
      else
        let fname := chapter_path (chapter_counter st) in
        {| seg_fs := write_file fname text (seg_fs st);
           previous_filename := fname;
           chapter_counter := S (chapter_counter st);
           seg_stdout := seg_stdout st ++ ["Saved chapter: " ++ fname] |}
    else st
  else st.

Definition save_chapters_from (st : seg_state) (items : list item) : seg_state :=
  fold_left save_item items st.

(** [save_chapters_as_text]; [book] is what [epub.read_epub(epub_path)]
    yields, the items of the book, or [None] when it raises: the exception
    then leaves the function, after [ensure_directory]. *)
Definition save_chapters_as_text (directory_there : bool) (fs : fsys)
    (book : option (list item)) : ending * seg_state :=
  match book with
  | Some items => (Returns, save_chapters_from (seg_init directory_there fs) items)
  | None => (Raises, seg_init directory_there fs)
  end.

(** The state the function leaves for a book that was read. *)
Definition segmented (directory_there : bool) (fs : fsys) (items : list item) : seg_state :=
  snd (save_chapters_as_text directory_there fs (Some items)).

(** The segmentation as the specification words it.  An item counts when it
    is a document whose text is not blank; a counting item shorter than the
    threshold is merged into the chapter before it when there is one, and
    starts a new chapter otherwise. *)
Definition counts (it : item) : bool :=
  (get_type it =? ITEM_DOCUMENT) && truthy (strip (get_text it)).

Definition short (it : item) : bool :=
  Z.of_nat (String.length (get_text it)) <? 2300.

Definition merge_into_last (text : string) (chapters : list string) : list string :=
  alter (fun c => c ++ nl ++ text) (List.length chapters - 1)%nat chapters.

Definition segment_item (chapters : list string) (it : item) : list string :=
  if counts it then
    match chapters with
    | [] => [get_text it]
    | _ :: _ => if short it then merge_into_last (get_text it) chapters
                else (chapters ++ [get_text it])%list
    end
  else chapters.

(** The texts of the chapters of a document, in document order. *)
Definition chapters_of (items : list item) : list string :=
  fold_left segment_item items [].

(** The number of merge events: counting items below the threshold that
    have a counting item before them ([seen]: one was met already). *)
Fixpoint merge_events (seen : bool) (items : list item) : nat :=
  match items with
  | [] => 0
  | it :: rest =>
      if counts it
      then (if short it && seen then 1 else 0) + merge_events true rest
      else merge_events seen rest
  end.

(** The merge events of a run, read off the loop: the iterations that take
    the branch that appends to the previous file. *)
Definition appends (st : seg_state) (it : item) : bool :=
  (get_type it =? ITEM_DOCUMENT) && truthy (strip (get_text it))
  && ((Z.of_nat (String.length (get_text it)) <? 2300) && truthy (previous_filename st)).

Fixpoint appended (st : seg_state) (items : list item) : nat :=
  match items with
  | [] => 0
  | it :: rest => (if appends st it then 1 else 0) + appended (save_item st it) rest
  end.

(** The count as the specification states it, over the document items with
    non-empty text: the chapters and the merge events of the run add up to
    their number. *)
Definition nonempty (it : item) : bool :=
  (get_type it =? ITEM_DOCUMENT) && truthy (get_text it).

Definition chapter_count_as_stated (items : list item) : Prop :=
  forall (directory_there : bool) (fs : fsys),
    (chapter_counter (segmented directory_there fs items)
     + appended (seg_init directory_there fs) items
     = List.length (List.filter nonempty items))%nat.

Definition saved_line (k : nat) : string := "Saved chapter: " ++ chapter_path k.

(** The chapter files are created as chapter_base, chapter_(base+1), ...,
    in this order, whatever the file system held before: after the line of
    [ensure_directory], if any, one line is printed for each, in order. *)
Definition indices_from (base : nat) (items : list item) : Prop :=
  forall (directory_there : bool) (fs : fsys),
    let st := segmented directory_there fs items in
    seg_stdout st
    = (ensure_directory temp_ebook_dir directory_there
       ++ map saved_line (seq base (chapter_counter st)))%list.

(** What links the loop state to the chapters segmented so far. *)
Record tracks (directory_there : bool) (fs0 : fsys) (chapters : list string)
    (st : seg_state) : Prop := {
  tr_counter : chapter_counter st = List.length chapters;
  tr_previous : previous_filename st
                = match chapters with
                  | [] => EmptyString
                  | _ :: _ => chapter_path (List.length chapters - 1)
                  end;
  tr_files : forall (k : nat) (c : string),
      chapters !! k = Some c -> seg_fs st !! chapter_path k = Some c;
  tr_others : forall p : string,
      (forall k : nat, (k < List.length chapters)%nat -> p <> chapter_path k) ->
      seg_fs st !! p = fs0 !! p;
  tr_stdout : seg_stdout st
              = (ensure_directory temp_ebook_dir directory_there
                 ++ map saved_line (seq 0 (List.length chapters)))%list
}.

(** *** process_chapter_files: the sentence table *)

Definition CHAPTER_MARK : string := "NEWCHAPTERABC".

Record csv_row := {
  row_text : string;
  start_location : Z;
  end_location : Z;
  is_quote : string;
  speaker : string;
  row_chapter : Z
}.

Section SentenceTable.
(** [nltk.tokenize.sent_tokenize] *)
Variable sent_tokenize : string -> list string.

(** The text that is tokenized and searched: the file content, marked. *)
Definition marked_text (raw : string) : string :=
  if truthy raw then CHAPTER_MARK ++ raw else raw.

Definition sentence_row (text : string) (chapter_number : Z) (sentence : string) : csv_row :=
  let start := find text sentence in
  {| row_text := sentence;
     start_location := start;
     end_location := start + Z.of_nat (String.length sentence);
     is_quote := "True";
     speaker := "Narrator";
     row_chapter := chapter_number |}.

(** The rows written for one chapter file whose content is [raw]. *)
Definition chapter_rows (raw : string) (chapter_number : Z) : list csv_row :=
  let text := marked_text raw in
  map (sentence_row text chapter_number) (sent_tokenize text).

(** Every row of the chapter holds the first-match offsets of its sentence
    in [text]. *)
Definition offsets_into (text raw : string) (chapter_number : Z) : Prop :=
  Forall (fun row =>
            first_match text (row_text row) (start_location row)
            /\ end_location row
               = start_location row + Z.of_nat (String.length (row_text row)))
         (chapter_rows raw chapter_number).
End SentenceTable.

(** A plain sentence splitter, standing for the tokenizer on simple prose: a
    sentence ends at a full stop that a space follows, and the space is
    dropped.  [cur] is the sentence being read. *)
Fixpoint split_sentences_aux (s cur : string) : list string :=
  match s with
  | EmptyString => if truthy cur then [cur] else []
  | String c r =>
      let cur := cur ++ String c EmptyString in
      match r with
      | String c' r' =>
          if Ascii.eqb c "."%char && Ascii.eqb c' " "%char
          then cur :: split_sentences_aux r' EmptyString
          else split_sentences_aux r cur
      | EmptyString => [cur]
      end
  end.

Definition split_sentences (s : string) : list string :=
  split_sentences_aux s EmptyString.

(** *** combine_chapters: the flat text *)

Module Book.
(** [re.search(r'chapter_(\d+)\.txt', filename)], group 1.  At a given
    start the digit run is taken whole: what follows the group is a
    literal dot, which no shorter run can reach. *)
Definition match_chapter_txt_at (s : string) : option string :=
  if startswith "chapter_" s then
    let '(d, rest) := span_digits (drop 8 s) in
    if truthy d && startswith ".txt" rest then Some d else None
  else None.

Fixpoint search_chapter_txt (s : string) : option string :=
  match match_chapter_txt_at s with
  | Some d => Some d
  | None => match s with
            | EmptyString => None
            | String _ r => search_chapter_txt r
            end
  end.

Definition sort_key (filename : string) : Z :=
  match search_chapter_txt filename with
  | Some d => int_of_digits d
  | None => 0
  end.

(** The order in which chapter files are concatenated. *)
Definition sorted_files (listing : list string) : list string :=
  sorted sort_key (List.filter (endswith ".txt") listing).

(** The content written to the output file; [read] is the content of a
    file of the input folder. *)
Definition combine_chapters (read : string -> string) (listing : list string) : string :=
  join (nl ++ CHAPTER_MARK ++ nl) (map read (sorted_files listing)).
End Book.

(** *** External commands

    [subprocess.run(cmd, check=True)] starts the command and raises
    [CalledProcessError] when its exit status is not zero.  The tools are not
    part of the program: an oracle gives the exit status of the [n]-th
    command run (counting from 0) from its argument vector, and the log
    records every command run, in order. *)

Record world := {
  run_log : list (list string);
  stdout : list string
}.

Definition world0 : world := {| run_log := []; stdout := [] |}.

Definition print (line : string) (w : world) : world :=
  {| run_log := run_log w; stdout := stdout w ++ [line] |}.

Section External.
Variable exit_status : nat -> list string -> Z.
(** [str(e)] for the [CalledProcessError] of a command and its status. *)
Variable str_exc : list string -> Z -> string.

Definition subprocess_run (cmd : list string) (w : world) : Z * world :=
  (exit_status (List.length (run_log w)) cmd,
   {| run_log := run_log w ++ [cmd]; stdout := stdout w |}).





(** *** create_m4b_from_chapters *)

(** Truthiness of an optional path ([None] and [''] are false). *)
Definition truthy_opt (o : option string) : bool :=
  match o with Some s => truthy s | None => false end.

Definition cover_args (cover_image : option string) : list string :=
  if truthy_opt cover_image
  then ["-i"; default EmptyString cover_image; "-map"; "0:a"; "-map"; "2:v";
        "-c:v"; "png"; "-disposition:v"; "attached_pic"]
  else ["-map"; "0:a"].

(** The four command lines of [create_m4b], in the order of the source. *)
Definition mux_cmd1 (combined_wav metadata_file : string) (cover_image : option string)
    (output_m4b : string) : list string :=
  ["ffmpeg"; "-i"; combined_wav; "-i"; metadata_file] ++ cover_args cover_image
    ++ ["-map_metadata"; "1"; "-c:a"; "aac"; "-b:a"; "192k"] ++ [output_m4b].

Definition mux_cmd2 (combined_wav : string) (cover_image : option string) : list string :=
  ["ffmpeg"; "-i"; combined_wav] ++ cover_args cover_image ++ ["-c:a"; "aac"; "-b:a"; "192k"].

Definition mux_cmd3 (combined_wav : string) : list string :=
  ["ffmpeg"; "-i"; combined_wav] ++ ["-map"; "0:a"] ++ ["-c:a"; "aac"; "-b:a"; "192k"].

Definition mux_cmd4 (combined_wav output_m4b : string) : list string :=
  ["ffmpeg"; "-i"; combined_wav; "-c:a"; "aac"; "-b:a"; "192k"; output_m4b].

(** [create_m4b].  It starts with
    [os.makedirs(os.path.dirname(output_m4b), exist_ok=True)], which raises
    [FileNotFoundError] for the empty name, that is, for an output path
    without a folder; any other folder is taken to be there or makeable. *)
Definition create_m4b (combined_wav metadata_file : string) (cover_image : option string)
    (output_m4b : string) (w : world) : ending * world :=
  if negb (truthy (dirname output_m4b)) then (Raises, w) else
  let '(rc1, w1) := subprocess_run (mux_cmd1 combined_wav metadata_file cover_image output_m4b) w in
  let w_end :=
    if rc1 =? 0 then w1
    else
      let w1 := print "Metadata adding didn't work trying with only the cover art and no Metadata." w1 in
      let w1 := if truthy_opt cover_image then print "Found Cover art" w1 else w1 in
      let '(rc2, w2) := subprocess_run (mux_cmd2 combined_wav cover_image) w1 in
      if rc2 =? 0 then w2
      else
        let w2 := print "Cover art adding didn't work, trying without any metadata or cover art." w2 in
        (* try: level 3 *)
        let '(rc3, w3) := subprocess_run (mux_cmd3 combined_wav) w2 in
        let w3 := if rc3 =? 0 then w3
                  else print "Failed to create M4B file. Trying to at least save the audio." w3 in
        (* try: level 4, a statement of its own after the try of level 3 *)
        let cmd4 := mux_cmd4 combined_wav output_m4b in
        let '(rc4, w4) := subprocess_run cmd4 w3 in
        if rc4 =? 0 then w4
        else print ("Final attempt failed: " ++ str_exc cmd4 rc4) w4
  in
  (Returns, print ("M4B file created successfully at " ++ output_m4b) w_end).
End External.

Module M4b.
(** [sort_key] of [create_m4b_from_chapters]: the first number in the path. *)
Definition sort_key (chapter_file : string) : Z :=
  match findall_digits chapter_file with
  | n :: _ => int_of_digits n
  | [] => 0
  end.

(** [sorted([os.path.join(input_dir, f) for f in os.listdir(input_dir)
    if f.endswith('.wav')], key=sort_key)] *)
Definition chapter_files (input_dir : string) (listing : list string) : list string :=
  sorted sort_key (map (path_join input_dir) (List.filter (endswith ".wav") listing)).

(** [os.path.join(".", 'Chapter_wav_files')], the directory the pipeline
    passes as [input_dir]. *)
Definition output_audio_directory : string := path_join "." "Chapter_wav_files".

(** pydub's [AudioSegment], as its sequence of sample frames. *)
Definition AudioSegment := list Z.

Section Wav.
(** [AudioSegment.from_wav(path)] and [len(AudioSegment.from_wav(path))],
    the duration in milliseconds. *)
Variable from_wav : string -> AudioSegment.
Variable duration_ms : string -> Z.

Definition combine_wav_files (chapter_files : list string) : AudioSegment :=
  fold_left (fun (combined_audio : AudioSegment) chapter_file =>
               (combined_audio ++ from_wav chapter_file)%list)
            chapter_files [].

(** The body of the loop of [generate_ffmpeg_metadata]; [file] is what
    has been written so far. *)
Fixpoint metadata_loop (chapter_files : list string) (index : nat) (start_time : Z)
    (file : string) : string :=
  match chapter_files with
  | [] => file
  | chapter_file :: rest =>
      let d := duration_ms chapter_file in
      let file := file ++ ("[CHAPTER]" ++ nl ++ "TIMEBASE=1/1000" ++ nl
                           ++ "START=" ++ str_int start_time ++ nl) in
      let file := file ++ ("END=" ++ str_int (start_time + d) ++ nl
                           ++ "title=Chapter " ++ str_int (Z.of_nat index + 1) ++ nl) in
      metadata_loop rest (S index) (start_time + d) file
  end.

Definition generate_ffmpeg_metadata (chapter_files : list string) : string :=
  metadata_loop chapter_files 0 0 (";FFMETADATA1" ++ nl).
End Wav.

(** The chapter markers as the specification words them: the entry of
    chapter [i] (counting from 1) starts at the sum of the durations of the
    chapters before it, ends one duration later, and is titled
    [Chapter i]. *)
Definition total (ds : list Z) : Z := foldr Z.add 0 ds.

Definition marker_entry (start_ms end_ms : Z) (number : Z) : string :=
  "[CHAPTER]" ++ nl ++ "TIMEBASE=1/1000" ++ nl
  ++ "START=" ++ str_int start_ms ++ nl
  ++ "END=" ++ str_int end_ms ++ nl
  ++ "title=Chapter " ++ str_int number ++ nl.

(** The entry of the chapter at position [i] (from 0) of [ds]. *)
Definition marker_at (ds : list Z) (i : nat) : string :=
  let start := total (take i ds) in
  marker_entry start (start + ds !!! i) (Z.of_nat i + 1).

Definition markers (ds : list Z) : list string :=
  map (marker_at ds) (seq 0 (List.length ds)).

Definition concat_str (l : list string) : string := foldr String.append EmptyString l.
End M4b.

(** *** convert_chapters_to_audio_espeak: the sentence loop *)

Definition quote_char : ascii := "034"%char.
Definition apostrophe_char : ascii := "039"%char.

(** [sanitize_sentence]: every double hyphen becomes a space, then every
    double quote and every apostrophe is removed. *)
Definition sanitize_sentence (sentence : string) : string :=
  remove_char apostrophe_char (remove_char quote_char (replace sentence "--" " ")).


Section Synthesis.
(** espeak-ng, as the [n]-th command run: its exit status and the content
    of the file named by [-w] when it ends. *)
Variable espeak_ng : nat -> list string -> Z * string.
Variable str_exc : list string -> Z -> string.
(** The name of the [k]-th temporary file ([tempfile.NamedTemporaryFile]). *)
Variable temp_name : nat -> string.
(** [AudioSegment.from_wav], from the content of the file. *)
Variable from_wav : string -> M4b.AudioSegment.
Variables (speed pitch voice : string).

Definition espeak_cmd (wav text : string) : list string :=
  ["espeak-ng"; "-v"; voice; "-w"; wav; "-s" ++ speed; "-p" ++ pitch; text].

Definition run_espeak (cmd : list string) (w : world) : Z * string * world :=
  (espeak_ng (List.length (run_log w)) cmd,
   {| run_log := run_log w ++ [cmd]; stdout := stdout w |}).

(** The loop state: the world, [combined_audio], and the number of
    temporary files created so far. *)
Record synth := {
  syn_world : world;
  combined_audio : M4b.AudioSegment;
  temp_count : nat
}.

Definition synth0 (w : world) : synth :=
  {| syn_world := w; combined_audio := []; temp_count := 0 |}.

(** The body of [for sentence in sentences]. *)
Definition synth_sentence (st : synth) (sentence : string) : synth :=
  let temp_wav := temp_name (temp_count st) in
  let cmd := espeak_cmd temp_wav sentence in
  let '(rc1, wav1, w1) := run_espeak cmd (syn_world st) in
  let '(success, wav, w) :=
    if rc1 =? 0 then (true, wav1, w1)
    else
      let sanitized_sentence := sanitize_sentence sentence in
      let cmd' := espeak_cmd temp_wav sanitized_sentence in
      let '(rc2, wav2, w2) := run_espeak cmd' w1 in
      if rc2 =? 0
      then (true, wav2, print ("Sanitized sentence used for: " ++ sentence) w2)
      else (false, wav2,
            print ("Error: " ++ str_exc cmd' rc2)
              (print ("Failed to convert sentence to audio: " ++ sentence) w2))
  in
  if success && (0 <? Z.of_nat (String.length wav))
  then {| syn_world := w;
          combined_audio := (combined_audio st ++ from_wav wav)%list;
          temp_count := S (temp_count st) |}
  else {| syn_world := print ("Skipping sentence due to failure or empty WAV: " ++ sentence) w;
          combined_audio := combined_audio st;
          temp_count := S (temp_count st) |}.

(** The audio exported for a chapter whose sentences are [sentences]. *)
Definition convert_sentences (sentences : list string) (w : world) : synth :=
  fold_left synth_sentence sentences (synth0 w).

(** The failure policy as the specification words it.  [kept wav] is what
    a synthesized file adds to the chapter: nothing when it has no byte. *)
Definition kept (wav : string) : M4b.AudioSegment :=
  if 0 <? Z.of_nat (String.length wav) then from_wav wav else [].

(** [sentence_run n k s cmds audio]: handling sentence [s], with [n]
    commands run before and [k] as temporary file, runs [cmds] and adds
    [audio] to the chapter. *)
Inductive sentence_run (n k : nat) (sentence : string)
    : list (list string) -> M4b.AudioSegment -> Prop :=
| first_try_succeeds (wav : string) :
    espeak_ng n (espeak_cmd (temp_name k) sentence) = (0, wav) ->
    sentence_run n k sentence [espeak_cmd (temp_name k) sentence] (kept wav)
| retry_succeeds (rc : Z) (wav1 wav : string) :
    espeak_ng n (espeak_cmd (temp_name k) sentence) = (rc, wav1) ->
    rc <> 0 ->
    espeak_ng (S n) (espeak_cmd (temp_name k) (sanitize_sentence sentence)) = (0, wav) ->
    sentence_run n k sentence
      [espeak_cmd (temp_name k) sentence;
       espeak_cmd (temp_name k) (sanitize_sentence sentence)]
      (kept wav)
| retry_fails (rc1 rc2 : Z) (wav1 wav2 : string) :
    espeak_ng n (espeak_cmd (temp_name k) sentence) = (rc1, wav1) ->
    rc1 <> 0 ->
    espeak_ng (S n) (espeak_cmd (temp_name k) (sanitize_sentence sentence)) = (rc2, wav2) ->
    rc2 <> 0 ->
    sentence_run n k sentence
      [espeak_cmd (temp_name k) sentence;
       espeak_cmd (temp_name k) (sanitize_sentence sentence)]
      [].

(** Every sentence of the chapter is handled, in order, each from the
    point the one before it left. *)
Inductive chapter_run : nat -> nat -> list string
    -> list (list string) -> M4b.AudioSegment -> Prop :=
| chapter_done (n k : nat) : chapter_run n k [] [] []
| chapter_next (n k : nat) (sentence : string) (rest : list string)
    (cmds cmds' : list (list string)) (audio audio' : M4b.AudioSegment) :
    sentence_run n k sentence cmds audio ->
    chapter_run (n + List.length cmds) (S k) rest cmds' audio' ->
    chapter_run n k (sentence :: rest) (cmds ++ cmds')%list (audio ++ audio')%list.
End Synthesis.

End GradioLaunch.

(** ** app.py: the single-file pipeline, from Step 2 on *)

Module App.

Import Py.

(** The four values [convert_ebook_to_audio] returns. *)
Record result := {
  audio_output : option string;
  cover_output : option string;
  status_text : string;
  download_output : option string
}.

(** [subprocess.CalledProcessError] *)
Record CalledProcessError := {
  returncode : Z;
  cmd : list string;
  output : option string;
  stderr : option string
}.

(** What an external process leaves when it ends. *)
Record completed := { exit_code : Z; out_stream : string; err_stream : string }.

(** What the driver does with processes, in order. *)
Inductive proc_event :=
| Run (c : list string)
| Popen (c : list string)
| CloseStdout (c : list string)
| Communicate (c : list string)
| ReadStderr (c : list string)
| Wait (c : list string).

Inductive raised :=
| Called (e : CalledProcessError)
| ValueError (msg : string).

(** The request, with the state Step 1 (cover extraction) leaves. *)
Record request := {
  input_ebook_path : string;
  temp_dir : string;
  base_filename : string;
  voice_code : string;
  output_format : string;
  cover_image_path_final : option string;
  status_updates : list string
}.

(** What the external tools do during the request: how each process ends,
    and the size of each output file afterwards ([None]: no such file). *)
Record tools := {
  ebook_convert : completed;
  txt_size : option Z;
  espeak : completed;
  encoder : completed;
  audio_size : option Z;
  (** Status lines of Step 4 (cover embedding), which catches all its errors. *)
  embed_status : list string
}.

Section Pipeline.
(** [bytes.decode(errors='ignore')] *)
Variable decode : string -> string.

Definition txt_output_path (rq : request) : string :=
  path_join (temp_dir rq) (base_filename rq ++ ".txt").

Definition audio_output_path (rq : request) : string :=
  path_join (temp_dir rq) (base_filename rq ++ "." ++ output_format rq).

Definition failure (rq : request) (msg : string) : result :=
  {| audio_output := None; cover_output := cover_image_path_final rq;
     status_text := msg; download_output := None |}.

Definition cmd_convert (rq : request) : list string :=
  ["ebook-convert"; input_ebook_path rq; txt_output_path rq; "--enable-heuristics"].

(** Step 2.  ebook-convert runs in text mode, so the [stderr] of its
    [CalledProcessError] is a [str]: when it is non-empty the handler's
    [e.stderr.decode] raises [AttributeError], which the outermost handler
    of the function reports. *)
Definition step2 (rq : request) (t : tools) : list proc_event * (result + list string) :=
  let status := (status_updates rq ++ ["Converting ebook to plain text..."])%list in
  let r := ebook_convert t in
  ([Run (cmd_convert rq)],
   if exit_code r =? 0 then
     let status := (status ++ ["✅ Ebook converted to TXT."])%list in
     match txt_size t with
     | Some n =>
         if n =? 0
         then inl (failure rq ("**Error:** Calibre finished, but the output TXT file is missing or empty."
                    ++ nl ++ "This can happen with image-based ebooks (like comics/scans) or DRM-protected files."))
         else inr status
     | None =>
         inl (failure rq ("**Error:** Calibre finished, but the output TXT file is missing or empty."
                    ++ nl ++ "This can happen with image-based ebooks (like comics/scans) or DRM-protected files."))
     end
   else if truthy (err_stream r) then
     inl (failure rq ("**Error:** An unexpected critical error occurred." ++ nl
                      ++ "Check logs for details." ++ nl
                      ++ "'str' object has no attribute 'decode'"))
   else
     inl (failure rq ("**Error:** Calibre conversion failed." ++ nl ++ "```" ++ nl
                      ++ "No stderr" ++ nl ++ "```"))).

Definition cmd_speak (rq : request) : list string :=
  ["espeak-ng"; "-v"; voice_code rq; "-f"; txt_output_path rq].

(** The piped strategy: [espeak-ng --stdout | encoder]. *)
Definition piped (cmd_speak cmd_enc : list string) (t : tools)
    : list proc_event * option raised :=
  ([Popen cmd_speak; Popen cmd_enc; CloseStdout cmd_speak;
    Communicate cmd_enc; ReadStderr cmd_speak; Wait cmd_speak],
   if negb (exit_code (encoder t) =? 0) then
     Some (Called {| returncode := exit_code (encoder t); cmd := cmd_enc;
                     output := Some (out_stream (encoder t));
                     stderr := Some (err_stream (encoder t)) |})
   else if negb (exit_code (espeak t) =? 0) then
     Some (Called {| returncode := exit_code (espeak t); cmd := cmd_speak;
                     output := None;
                     stderr := Some (err_stream (espeak t)) |})
   else None).

(** The [try] body of Step 3. *)
Definition run_audio (rq : request) (t : tools) : list proc_event * option raised :=
  if String.eqb (output_format rq) "wav" then
    let c := (cmd_speak rq ++ ["-w"; audio_output_path rq])%list in
    ([Run c],
     if negb (exit_code (espeak t) =? 0) then
       Some (Called {| returncode := exit_code (espeak t); cmd := c;
                       output := Some (out_stream (espeak t));
                       stderr := Some (err_stream (espeak t)) |})
     else None)
  else if String.eqb (output_format rq) "mp3" then
    piped (cmd_speak rq ++ ["--stdout"])%list ["lame"; "-"; audio_output_path rq] t
  else if String.eqb (output_format rq) "ogg" then
    piped (cmd_speak rq ++ ["--stdout"])%list ["oggenc"; "-o"; audio_output_path rq; "-"] t
  else ([], Some (ValueError ("Unsupported output format: " ++ output_format rq))).

Definition decoded (o : option string) : string :=
  match o with Some b => strip (decode b) | None => EmptyString end.

Definition or_else (a b : string) : string := if truthy a then a else b.

(** The handler of [CalledProcessError] in Step 3. *)
Definition audio_error_message (e : CalledProcessError) : string :=
  let stderr_str := decoded (stderr e) in
  let stdout_str := decoded (output e) in
  let error_details := or_else stderr_str (or_else stdout_str "No output/error captured.") in
  let exit_status_str := "exit status " ++ str_int (returncode e) in
  let cmd_str := join " " (cmd e) in
  "**Error:** Audio generation failed." ++ nl ++ nl
  ++ "**Command:**" ++ nl ++ "```" ++ nl ++ cmd_str ++ nl ++ "```" ++ nl
  ++ "**Exit Status:** " ++ exit_status_str ++ nl ++ nl
  ++ "**Output/Error:**" ++ nl ++ "```" ++ nl ++ error_details ++ nl ++ "```".

Definition step3 (rq : request) (t : tools) (status : list string)
    : list proc_event * (result + list string) :=
  let status := (status ++ ["Converting text to speech..."])%list in
  let '(ev, exn) := run_audio rq t in
  (ev,
   match exn with
   | None => inr (status ++ ["✅ Text converted to audio."])%list
   | Some (Called e) => inl (failure rq (audio_error_message e))
   | Some (ValueError msg) =>
       inl (failure rq ("**Error:** An unexpected error occurred during audio generation:"
                        ++ nl ++ msg))
   end).

(** The check after Step 3: the audio file must exist and hold 1024 bytes. *)
Definition check_audio (rq : request) (t : tools) (status : list string)
    : result + list string :=
  match audio_size t with
  | Some n =>
      if n <? 1024
      then inl (failure rq ("**Error:** Audio output file missing or too small after conversion."
                 ++ nl ++ "Check system logs for `espeak-ng`, `lame`, or `oggenc` or the status box above for errors."))
      else inr status
  | None =>
      inl (failure rq ("**Error:** Audio output file missing or too small after conversion."
                 ++ nl ++ "Check system logs for `espeak-ng`, `lame`, or `oggenc` or the status box above for errors."))
  end.

(** Steps 2 to 5 of [convert_ebook_to_audio]. *)
Definition convert_ebook_to_audio (rq : request) (t : tools) : list proc_event * result :=
  let '(ev2, r2) := step2 rq t in
  match r2 with
  | inl res => (ev2, res)
  | inr status =>
      let '(ev3, r3) := step3 rq t status in
      match r3 with
      | inl res => ((ev2 ++ ev3)%list, res)
      | inr status =>
          match check_audio rq t status with
          | inl res => ((ev2 ++ ev3)%list, res)
          | inr status =>
              let status := (status ++ embed_status t ++ ["✅ Conversion complete!"])%list in
              ((ev2 ++ ev3)%list,
               {| audio_output := Some (audio_output_path rq);
                  cover_output := cover_image_path_final rq;
                  status_text := join nl status;
                  download_output := Some (audio_output_path rq) |})
          end
      end
  end.
End Pipeline.

(** [not os.path.exists(p) or os.path.getsize(p) == 0], on the size of the
    file ([None]: no such file). *)
Definition missing_or_empty (size : option Z) : bool :=
  match size with Some n => n =? 0 | None => true end.

(** [not os.path.exists(p) or os.path.getsize(p) < 1024] *)
Definition missing_or_small (size : option Z) : bool :=
  match size with Some n => n <? 1024 | None => true end.


(** The command line of the encoder of a piped format. *)
Definition cmd_encoder (rq : request) : list string :=
  if String.eqb (output_format rq) "mp3"
  then ["lame"; "-"; audio_output_path rq]
  else ["oggenc"; "-o"; audio_output_path rq; "-"].

End App.

(** ** Normalization in the chaptered pipeline, as the specification states it *)


(** ** Further Python primitives *)

Module PyMore.

Import Py.

(** [sorted(l)] on strings: the order of code points. *)
Fixpoint insert_str (x : string) (l : list string) : list string :=
  match l with
  | [] => [x]
  | y :: r => if String.leb x y then x :: l else y :: insert_str x r
  end.

Definition sorted_str (l : list string) : list string := foldr insert_str [] l.

(** [s.split(sep)] for a one-character separator; [cur] is the piece being
    read. *)
Fixpoint split_aux (sep : ascii) (s cur : string) : list string :=
  match s with
  | EmptyString => [cur]
  | String c r =>
      if Ascii.eqb c sep then cur :: split_aux sep r EmptyString
      else split_aux sep r (cur ++ String c EmptyString)
  end.

Definition split (s : string) (sep : ascii) : list string := split_aux sep s EmptyString.

(** [s.split()]: the maximal runs of characters that are not whitespace. *)
Fixpoint split_ws_aux (s cur : string) : list string :=
  match s with
  | EmptyString => if truthy cur then [cur] else []
  | String c r =>
      if is_space c
      then (if truthy cur then cur :: split_ws_aux r EmptyString
            else split_ws_aux r EmptyString)
      else split_ws_aux r (cur ++ String c EmptyString)
  end.

Definition split_ws (s : string) : list string := split_ws_aux s EmptyString.

(** No character of [s] is whitespace. *)
Fixpoint no_space (s : string) : bool :=
  match s with
  | EmptyString => true
  | String c r => negb (is_space c) && no_space r
  end.

(** Exceptions the modelled code can raise. *)
Inductive exn := IndexError | ValueError.

(** The whitespace [int] drops around a number: tab to carriage return,
    the space, and below code point 256 the two spaces beyond ASCII, NEL
    and the no-break space.  The separators 0x1C to 0x1F, which
    [str.strip] and [str.split] take for whitespace, are not among them. *)
Definition int_space (c : ascii) : bool :=
  let n := nat_of_ascii c in
  ((9 <=? n)%nat && (n <=? 13)%nat) || (n =? 32)%nat || (n =? 133)%nat || (n =? 160)%nat.

Fixpoint int_lstrip (s : string) : string :=
  match s with
  | EmptyString => EmptyString
  | String c r => if int_space c then int_lstrip r else s
  end.

Fixpoint int_rstrip (s : string) : string :=
  match s with
  | EmptyString => EmptyString
  | String c r =>
      match int_rstrip r with
      | EmptyString => if int_space c then EmptyString else String c EmptyString
      | r' => String c r'
      end
  end.

(** [int(s)] for a [str]: surrounding whitespace is dropped, one sign is
    allowed, and the digits may be grouped by single underscores.  File names
    are far below the interpreter's limit on the number of digits. *)
Fixpoint int_digits (s : string) (acc : Z) (after_digit : bool) : option Z :=
  match s with
  | EmptyString => if after_digit then Some acc else None
  | String c r =>
      if is_digit c then int_digits r (10 * acc + digit_val c) true
      else if Ascii.eqb c "_"%char
           then (if after_digit then int_digits r acc false else None)
           else None
  end.

Definition int (s : string) : exn + Z :=
  let body :=
    match int_rstrip (int_lstrip s) with
    | String c r =>
        if Ascii.eqb c "+"%char then int_digits r 0 false
        else if Ascii.eqb c "-"%char then Z.opp <$> int_digits r 0 false
        else int_digits (String c r) 0 false
    | EmptyString => None
    end in
  match body with Some n => inr n | None => inl ValueError end.

(** A small backtracking matcher for the patterns of the program: literal
    text, [(\d+)] (greedy, the one group of the pattern), and [.] (any
    character but a newline). *)
Inductive atom := Lit (text : string) | Digits | AnyChar.

(** The first success of [try j] for [j] from [n] down to 1: a greedy
    repetition gives characters back one at a time. *)
Fixpoint longest_first {R : Type} (try : nat -> option R) (n : nat) : option R :=
  match n with
  | O => None
  | S n' =>
      match try n with
      | Some r => Some r
      | None => longest_first try n'
      end
  end.

Fixpoint match_here (p : list atom) (s : string) (group : option string)
    : option (option string) :=
  match p with
  | [] => Some group
  | Lit text :: p' =>
      if startswith text s then match_here p' (drop (String.length text) s) group else None
  | AnyChar :: p' =>
      match s with
      | String c r => if Ascii.eqb c "010"%char then None else match_here p' r group
      | EmptyString => None
      end
  | Digits :: p' =>
      let d := fst (span_digits s) in
      longest_first (fun j => match_here p' (drop j s) (Some (substring 0 j d)))
                    (String.length d)
  end.

(** [re.search(p, s)]: the match at the leftmost start that has one. *)
Fixpoint search (p : list atom) (s : string) : option (option string) :=
  match match_here p s None with
  | Some g => Some g
  | None => match s with
            | EmptyString => None
            | String _ r => search p r
            end
  end.

(** [os.path.basename(p)] *)
Definition basename (p : string) : string :=
  drop (Z.to_nat (rfind p "/"%char + 1)) p.

(** [os.path.splitext(p)[0]]: the extension starts at the last dot of the
    last component, unless only dots stand before it there. *)
Definition splitext_root (p : string) : string :=
  let sepIndex := rfind p "/"%char in
  let dotIndex := rfind p "."%char in
  if sepIndex <? dotIndex then
    let lead := substring (Z.to_nat (sepIndex + 1)) (Z.to_nat (dotIndex - sepIndex - 1)) p in
    if truthy (remove_char "."%char lead) then substring 0 (Z.to_nat dotIndex) p else p
  else p.

(** [s.rsplit(c, 1)[0]]: what stands before the last [c], all of [s] if
    there is none. *)
Definition rsplit1_head (s : string) (c : ascii) : string :=
  let i := rfind s c in
  if i <? 0 then s else substring 0 (Z.to_nat i) s.

(** [s.lower()] below code point 256. *)
Definition lower_char (c : ascii) : ascii :=
  let n := nat_of_ascii c in
  if ((65 <=? n)%nat && (n <=? 90)%nat)
     || ((192 <=? n)%nat && (n <=? 222)%nat && negb (n =? 215)%nat)
  then ascii_of_nat (n + 32) else c.

Fixpoint lower (s : string) : string :=
  match s with
  | EmptyString => EmptyString
  | String c r => String (lower_char c) (lower r)
  end.

(** [x in l] for strings. *)
Definition str_in (x : string) (l : list string) : bool := existsb (String.eqb x) l.

End PyMore.

(** ** gradio_launch.py: the stages around the chapter pipeline *)

Module Stages.

Import Py PyMore GradioLaunch.

(** The file names of the first [n] chapters, as the segmenter and the
    synthesis name them, in chapter order. *)
Definition chapter_names (n : nat) : list string :=
  map (fun k => chapter_txt_name (Z.of_nat k)) (seq 0 n).

Definition audio_names (n : nat) : list string :=
  map (fun k => audio_chapter_name (Z.of_nat k)) (seq 0 n).

(** *** combine_chapters, as the loop is written *)

(** [for i, filename in enumerate(sorted_files)]: the content is written,
    then the mark unless the file is the last; [n] is [len(sorted_files)]
    and [outfile] what was written so far. *)
Fixpoint combine_loop (read : string -> string) (files : list string) (i : nat) (n : nat)
    (outfile : string) : string :=
  match files with
  | [] => outfile
  | filename :: rest =>
      let outfile := outfile ++ read filename in
      let outfile :=
        if Z.of_nat i <? Z.of_nat n - 1 then outfile ++ (nl ++ CHAPTER_MARK ++ nl)
        else outfile in
      combine_loop read rest (S i) n outfile
  end.

Definition combine_chapters (read : string -> string) (listing : list string) : string :=
  let sorted_files := Book.sorted_files listing in
  combine_loop read sorted_files 0 (List.length sorted_files) EmptyString.

(** *** process_chapter_files, with its loop over the chapter files *)

(** [int(x.split('_')[1].split('.')[0])] *)
Definition chapter_key (x : string) : exn + Z :=
  match split x "_"%char with
  | _ :: second :: _ =>
      match split second "."%char with
      | first :: _ => int first
      | [] => inl IndexError
      end
  | _ => inl IndexError
  end.

(** The keys of [sorted(..., key=...)]: computed for every element, in
    order, before anything is compared. *)
Fixpoint keyed (l : list string) : exn + list (string * Z) :=
  match l with
  | [] => inr []
  | x :: r =>
      match chapter_key x with
      | inl e => inl e
      | inr k =>
          match keyed r with
          | inl e => inl e
          | inr kr => inr ((x, k) :: kr)
          end
      end
  end.

Section SentenceTable.
Variable sent_tokenize : string -> list string.
(** The content of a file of the folder, by its name. *)
Variable read : string -> string.

(** The rows of the files of [chapter_files], in this order. *)
Fixpoint table_rows (chapter_files : list string) : exn + list csv_row :=
  match chapter_files with
  | [] => inr []
  | filename :: rest =>
      if startswith "chapter_" filename && endswith ".txt" filename then
        match chapter_key filename with
        | inl e => inl e
        | inr chapter_number =>
            match table_rows rest with
            | inl e => inl e
            | inr rows =>
                inr (chapter_rows sent_tokenize (read filename) chapter_number ++ rows)%list
            end
        end
      else table_rows rest
  end.

(** The rows written under the header, or the exception that ends the
    function; [listing] is [os.listdir(folder_path)]. *)
Definition process_chapter_files (listing : list string) : exn + list csv_row :=
  match keyed listing with
  | inl e => inl e
  | inr pairs => table_rows (map fst (sorted snd pairs))
  end.
End SentenceTable.

(** *** convert_chapters_to_audio_espeak, with its loop over the files *)

(** [re.search(r"chapter_(\d+).txt", chapter_file)]: the dot of this
    pattern is not escaped. *)
Definition chapter_pattern : list atom := [Lit "chapter_"; Digits; AnyChar; Lit "txt"].

Definition chapter_num (chapter_file : string) : option Z :=
  match search chapter_pattern chapter_file with
  | Some (Some d) => Some (int_of_digits d)
  | _ => None
  end.

(** The path under which the loop exports the audio of a file of the
    chapter folder, if it does. *)
Definition exported_path (output_audio_dir chapter_file : string) : option string :=
  if endswith ".txt" chapter_file
  then (fun n => path_join output_audio_dir (audio_chapter_name n)) <$> chapter_num chapter_file
  else None.

Section Conversion.
Variable espeak_ng : nat -> list string -> Z * string.
Variable str_exc : list string -> Z -> string.
Variable temp_name : nat -> string.
Variable from_wav : string -> M4b.AudioSegment.
Variables (speed pitch voice : string).
Variable sent_tokenize : string -> list string.
(** The content of a file, by its path. *)
Variable read : string -> string.
Variables (chapters_dir output_audio_dir : string).

(** The loop state: the world, the audio files exported so far, and the
    number of temporary files created. *)
Record conv := {
  cv_world : world;
  cv_exported : gmap string M4b.AudioSegment;
  cv_temp : nat
}.

Definition conv0 (w : world) : conv :=
  {| cv_world := w; cv_exported := ∅; cv_temp := 0 |}.

(** The body of [for chapter_file in sorted(os.listdir(chapters_dir))]. *)
Definition convert_chapter_file (st : conv) (chapter_file : string) : conv :=
  if endswith ".txt" chapter_file then
    match chapter_num chapter_file with
    | Some n =>
        let chapter_path := path_join chapters_dir chapter_file in
        let output_file_path := path_join output_audio_dir (audio_chapter_name n) in
        let sentences := sent_tokenize (read chapter_path) in
        let s := fold_left (synth_sentence espeak_ng str_exc temp_name from_wav speed pitch voice)
                   sentences
                   {| syn_world := cv_world st; combined_audio := [];
                      temp_count := cv_temp st |} in
        {| cv_world := print ("Converted chapter " ++ str_int n ++ " to audio.") (syn_world s);
           cv_exported := <[output_file_path := combined_audio s]> (cv_exported st);
           cv_temp := temp_count s |}
    | None =>
        {| cv_world := print ("Skipping file " ++ chapter_file
                               ++ " as it does not match the expected format.") (cv_world st);
           cv_exported := cv_exported st;
           cv_temp := cv_temp st |}
    end
  else st.

Definition convert_chapters_to_audio_espeak (listing : list string) (w : world) : conv :=
  fold_left convert_chapter_file (sorted_str listing) (conv0 w).
End Conversion.

(** *** create_m4b_from_chapters, as a whole *)

(** [extract_metadata_and_cover]: the cover path when ebook-meta exits zero
    and the file is there afterwards ([cover_there]), [None] otherwise. *)
Definition cover_path_of (ebook_path : string) : string :=
  rsplit1_head ebook_path "."%char ++ ".jpg".

Definition extract_metadata_and_cover (exit_status : nat -> list string -> Z)
    (str_exc : list string -> Z -> string) (cover_there : bool)
    (ebook_path : string) (w : world) : option string * world :=
  let cover_path := cover_path_of ebook_path in
  let cmd := ["ebook-meta"; ebook_path; "--get-cover"; cover_path] in
  let '(rc, w1) := subprocess_run exit_status cmd w in
  if rc =? 0 then (if cover_there then Some cover_path else None, w1)
  else (None, print ("Error extracting eBook metadata or cover: " ++ str_exc cmd rc) w1).

(** [os.path.join(output_dir, os.path.splitext(os.path.basename(ebook_file))[0] + '.m4b')] *)
Definition m4b_path (output_dir ebook_file : string) : string :=
  path_join output_dir (splitext_root (basename ebook_file) ++ ".m4b").

(** What [create_m4b_from_chapters] leaves: how it ends, the world, and the
    two files it wrote for ffmpeg (which it removes at its end, when it
    reaches it: an exception of [create_m4b] leaves the function). *)
Record m4b_run := {
  mr_ending : ending;
  mr_world : world;
  mr_chapter_files : list string;
  mr_combined : M4b.AudioSegment;
  mr_metadata : string;
  mr_cover : option string;
  mr_output : string
}.

Definition create_m4b_from_chapters (exit_status : nat -> list string -> Z)
    (str_exc : list string -> Z -> string) (cover_there : bool)
    (from_wav : string -> M4b.AudioSegment) (duration_ms : string -> Z)
    (temp_dir : string) (listing : list string)
    (input_dir ebook_file output_dir : string) (w : world) : m4b_run :=
  let chapter_files := M4b.chapter_files input_dir listing in
  let temp_combined_wav := path_join temp_dir "combined.wav" in
  let metadata_file := path_join temp_dir "metadata.txt" in
  let '(cover_image, w1) :=
    extract_metadata_and_cover exit_status str_exc cover_there ebook_file w in
  let output_m4b := m4b_path output_dir ebook_file in
  let combined := M4b.combine_wav_files from_wav chapter_files in
  let w2 := print ("Combined audio saved to " ++ temp_combined_wav) w1 in
  let metadata := M4b.generate_ffmpeg_metadata duration_ms chapter_files in
  let '(e, w3) := create_m4b exit_status str_exc temp_combined_wav metadata_file
                     cover_image output_m4b w2 in
  {| mr_ending := e; mr_world := w3; mr_chapter_files := chapter_files;
     mr_combined := combined;
     mr_metadata := metadata; mr_cover := cover_image; mr_output := output_m4b |}.

(** *** The voices of the form *)

(** [get_available_voices], from the lines of [espeak-ng --voices]. *)
Definition voice_of_line (line : string) : option (string * string) :=
  match split_ws line with
  | _ :: voice_name :: rest => Some (voice_name, join " " rest)
  | _ => None
  end.

Definition get_available_voices (stdout_lines : list string) : list (string * string) :=
  omap voice_of_line (List.tl stdout_lines).

(** [f"{voice} ({desc})"], an entry of the dropdown. *)
Definition voice_choice (v : string * string) : string :=
  fst v ++ " (" ++ snd v ++ ")".

(** [voice.split()[0]], what [convert_ebook_to_audio] passes to espeak-ng;
    [None]: [IndexError]. *)
Definition voice_code (choice : string) : option string := head (split_ws choice).

(** [list_audiobook_files] *)
Definition list_audiobook_files (audiobook_folder : string) (listing : list string)
    : list string :=
  map (path_join audiobook_folder) (List.filter (endswith ".m4b") listing).

(** [download_audiobooks]; [listing] is [os.listdir] of the folder. *)
Definition audiobook_output_path : string := path_join "." "Audiobooks".

Definition download_audiobooks (listing : list string) : list string :=
  list_audiobook_files audiobook_output_path listing.

End Stages.

(** ** app.py: the request from its first line *)

Module AppRequest.

Import Py PyMore App.

(** The default of the language dropdown. *)
Definition default_voice (voice_choices : list string) : string :=
  if str_in "English (en-US) (en-us)" voice_choices then "English (en-US) (en-us)"
  else if str_in "English (en)" voice_choices then "English (en)"
  else match voice_choices with
       | first :: _ => first
       | [] => "en"
       end.

Section Checks.
(** What [check_command] returns for a command. *)
Variable found : string -> bool.

(** [check_command]; [log] lists the commands looked for so far. *)
Definition check_command (command : string) (log : list string) : bool * list string :=
  (found command, (log ++ [command])%list).

Record checks := {
  calibre_convert_ok : bool;
  calibre_meta_ok : bool;
  espeak_ok : bool;
  lame_ok : bool;
  oggenc_ok : bool;
  checked : list string
}.

Definition run_checks (embed_cover : bool) (output_format : string) : checks :=
  let '(calibre_convert_ok, log) := check_command "ebook-convert" [] in
  let '(calibre_meta_ok, log) :=
    if negb embed_cover then (true, log) else check_command "ebook-meta" log in
  let '(espeak_ok, log) := check_command "espeak-ng" log in
  let '(lame_ok, log) :=
    if negb (String.eqb output_format "mp3") then (true, log) else check_command "lame" log in
  let '(oggenc_ok, log) :=
    if negb (String.eqb output_format "ogg") then (true, log) else check_command "oggenc" log in
  {| calibre_convert_ok := calibre_convert_ok; calibre_meta_ok := calibre_meta_ok;
     espeak_ok := espeak_ok; lame_ok := lame_ok; oggenc_ok := oggenc_ok; checked := log |}.
End Checks.

Definition missing (c : checks) (embed_cover : bool) (output_format : string) : list string :=
  let missing := [] in
  let missing := if negb (calibre_convert_ok c)
                 then (missing ++ ["Calibre ('ebook-convert')"])%list else missing in
  let missing := if negb (calibre_meta_ok c) && embed_cover
                 then (missing ++ ["Calibre ('ebook-meta' for cover art)"])%list else missing in
  let missing := if negb (espeak_ok c)
                 then (missing ++ ["espeak-ng"])%list else missing in
  let missing := if negb (lame_ok c) && String.eqb output_format "mp3"
                 then (missing ++ ["LAME (for MP3)"])%list else missing in
  let missing := if negb (oggenc_ok c) && String.eqb output_format "ogg"
                 then (missing ++ ["oggenc (for OGG)"])%list else missing in
  missing.

(** *** Step 1: the cover *)

(** What Pillow makes of the extracted file. *)
Inductive pil :=
| NotAnImage                      (* IOError, SyntaxError or UnidentifiedImageError *)
| PilError (msg : string)         (* any other exception *)
| Opened (format : option string).

(** [img.convert('RGB').save(new_cover_path, 'JPEG')]: an exception, or the
    size of the file it leaves ([None]: no file). *)
Inductive saved :=
| SaveError (msg : string)
| Saved (size : option Z).

Record cover_tools := {
  ebook_meta : completed;
  cover_size : option Z;
  cover_image : pil;
  converted : saved
}.

(** What Step 1 leaves: an exception that leaves the [try] of the function,
    or the three variables the later steps read. *)
Inductive step1 :=
| Raised (msg : string)
| Extracted (cover_extracted : bool) (cover_image_path_final : option string)
            (status_updates : list string).

Definition cmd_meta (input_ebook_path temp_dir : string) : list string :=
  ["ebook-meta"; input_ebook_path; "--get-cover"; path_join temp_dir "cover.jpg"].

(** [os.path.exists(p) and os.path.getsize(p) > 0] *)
Definition there_and_not_empty (size : option Z) : bool :=
  match size with Some n => 0 <? n | None => false end.

(** Step 1.  ebook-meta runs in text mode, so the [stderr] of its
    [CalledProcessError] is a [str]: when it is non-empty, [e.stderr.decode]
    raises [AttributeError] inside the handler, which no handler of Step 1
    catches. *)
Definition extract_cover (embed_cover meta_ok : bool) (input_ebook_path temp_dir : string)
    (ct : cover_tools) (status_updates : list string) : list proc_event * step1 :=
  if embed_cover && meta_ok then
    let status := (status_updates ++ ["Attempting to extract cover art..."])%list in
    let cover_output_path_temp := path_join temp_dir "cover.jpg" in
    ([Run (cmd_meta input_ebook_path temp_dir)],
     if exit_code (ebook_meta ct) =? 0 then
       if there_and_not_empty (cover_size ct) then
         match cover_image ct with
         | Opened format =>
             let fmt := if truthy (default EmptyString format)
                        then lower (default EmptyString format) else "unknown" in
             if negb (str_in fmt ["jpeg"; "png"]) then
               let new_cover_path := path_join temp_dir "cover_converted.jpg" in
               match converted ct with
               | Saved size =>
                   if there_and_not_empty size
                   then Extracted true (Some new_cover_path)
                          (status ++ ["✅ Cover art extracted and converted to JPG."])%list
                   else Extracted false None
                          (status ++ ["⚠️ Could not convert extracted cover art to JPG. Will skip embedding."])%list
               | SaveError convert_err =>
                   Extracted false None
                     (status ++ [("⚠️ Error converting cover image: " ++ convert_err
                                  ++ ". Will skip embedding.")%string])%list
               end
             else Extracted true (Some cover_output_path_temp)
                    (status ++ ["✅ Cover art extracted successfully."])%list
         | NotAnImage =>
             Extracted false None
               (status ++ ["⚠️ Extracted 'cover' file is not a valid image. Will skip embedding."])%list
         | PilError e =>
             Extracted false None
               (status ++ [("⚠️ An unexpected error occurred during cover extraction: "
                           ++ e)%string])%list
         end
       else Extracted false None
              (status ++ ["ℹ️ No cover art found in the ebook metadata."])%list
     else if truthy (err_stream (ebook_meta ct)) then
       Raised "'str' object has no attribute 'decode'"
     else Extracted false None
            (status ++ ["⚠️ Failed to extract cover art. Error: No stderr"])%list)
  else if embed_cover && negb meta_ok then
    ([], Extracted false None
           (status_updates
            ++ ["ℹ️ Cover art embedding requested, but 'ebook-meta' not found."])%list)
  else ([], Extracted false None status_updates).

(** The command line of a process event. *)
Definition command_of (e : proc_event) : list string :=
  match e with
  | Run c | Popen c | CloseStdout c | Communicate c | ReadStderr c | Wait c => c
  end.

(** *** The whole of convert_ebook_to_audio *)

Section Request.
Variable found : string -> bool.
(** [bytes.decode(errors='ignore')] *)
Variable decode : string -> string.
(** The voices found at startup, display name to code. *)
Variable available_voices : gmap string string.
(** [tempfile.mkdtemp(prefix='ebook_audio_')] *)
Variable temp_dir : string.
(** [Path(p).stem] *)
Variable stem : string -> string.

Definition error (cover : option string) (msg : string) : result :=
  {| audio_output := None; cover_output := cover; status_text := msg;
     download_output := None |}.

(** The request as Steps 2 to 5 see it. *)
Definition request_of (input_ebook_path language_display output_format : string)
    (cover_image_path_final : option string) (status_updates : list string) : request :=
  {| App.input_ebook_path := input_ebook_path;
     App.temp_dir := temp_dir;
     App.base_filename := stem input_ebook_path;
     App.voice_code := default "en" (available_voices !! language_display);
     App.output_format := output_format;
     App.cover_image_path_final := cover_image_path_final;
     App.status_updates := status_updates |}.

Definition missing_message (missing : list string) : string :=
  "**Error:** Missing required command(s):" ++ nl ++ "- " ++ join ", " missing ++ nl ++ nl
  ++ "Please install them and ensure they are in your system PATH.".

Definition critical_message (e : string) : string :=
  "**Error:** An unexpected critical error occurred." ++ nl
  ++ "Check logs for details." ++ nl ++ e.

(** The commands looked for, the processes run, and the four values
    returned; [ebook_file] is the name of the upload, [None] without one.
    Steps 2 to 5 are [App.convert_ebook_to_audio]. *)
Definition convert_ebook_to_audio (ebook_file : option string) (language_display : string)
    (output_format : string) (embed_cover : bool) (ct : cover_tools) (t : tools)
    : list string * list proc_event * result :=
  match ebook_file with
  | None => ([], [], error None "Error: No ebook file provided.")
  | Some input_ebook_path =>
      let c := run_checks found embed_cover output_format in
      let missing := missing c embed_cover output_format in
      if negb (List.length missing =? 0)%nat then
        (checked c, [], error None (missing_message missing))
      else
        let status_updates := ["Conversion started..."] in
        let '(ev1, s1) := extract_cover embed_cover (calibre_meta_ok c) input_ebook_path
                            temp_dir ct status_updates in
        match s1 with
        | Raised e => (checked c, ev1, error None (critical_message e))
        | Extracted cover_extracted cover_image_path_final status_updates =>
            let rq := request_of input_ebook_path language_display output_format
                        cover_image_path_final status_updates in
            let '(ev, res) := App.convert_ebook_to_audio decode rq t in
            (checked c, (ev1 ++ ev)%list, res)
        end
  end.
End Request.

End AppRequest.

(** * The embedding at work on small inputs *)

Example str_int_ex : Py.str_int 0 = "0" /\ Py.str_int 2300 = "2300" /\ Py.str_int (-7) = "-7".
Proof. repeat split. Qed.

Example find_ex : Py.find "abcabc" "ca" = 2 /\ Py.find "abc" "x" = -1 /\ Py.find "abc" EmptyString = 0.
Proof. repeat split. Qed.

Example strip_ex : Py.strip "  a b  " = "a b" /\ Py.strip "   " = EmptyString.
Proof. repeat split. Qed.

Example findall_ex : Py.findall_digits "a12b007c" = ["12"; "007"].
Proof. reflexivity. Qed.

Example sanitize_ex :
  GradioLaunch.sanitize_sentence "it's -- done" = "its   done"
  /\ GradioLaunch.sanitize_sentence "a-'-b" = "a--b".
Proof. repeat split. Qed.

Example sort_key_ex :
  GradioLaunch.Book.sort_key "chapter_10.txt" = 10
  /\ GradioLaunch.Book.sort_key "notes.txt" = 0
  /\ GradioLaunch.M4b.sort_key "./Chapter_wav_files/audio_chapter_2.wav" = 2.
Proof. repeat split. Qed.

Example chapter_files_ex :
  GradioLaunch.M4b.chapter_files GradioLaunch.M4b.output_audio_directory
    ["audio_chapter_10.wav"; "audio_chapter_2.wav"; "cover.jpg"; "audio_chapter_0.wav"]
  = ["./Chapter_wav_files/audio_chapter_0.wav";
     "./Chapter_wav_files/audio_chapter_2.wav";
     "./Chapter_wav_files/audio_chapter_10.wav"].
Proof. reflexivity. Qed.

Example segment_ex :
  let doc := fun text => {| GradioLaunch.get_type := GradioLaunch.ITEM_DOCUMENT;
                            GradioLaunch.get_text := text |} in
  let st := GradioLaunch.segmented false ∅ [doc "Title"; doc "   "; doc "Preface"] in
  GradioLaunch.chapter_counter st = 1%nat
  /\ GradioLaunch.seg_stdout st
     = ["Created directory: ./Working_files/temp_ebook";
        "Saved chapter: ./Working_files/temp_ebook/chapter_0.txt"]
  /\ GradioLaunch.chapters_of [doc "Title"; doc "   "; doc "Preface"]
     = ["Title" ++ Py.nl ++ "Preface"].
Proof. repeat split. Qed.

Example rows_ex :
  map (fun r => (GradioLaunch.row_text r, GradioLaunch.start_location r,
                 GradioLaunch.end_location r))
      (GradioLaunch.chapter_rows GradioLaunch.split_sentences "Hi there. Bye now." 0)
  = [("NEWCHAPTERABCHi there.", 0, 22); ("Bye now.", 23, 31)].
Proof. reflexivity. Qed.

Example create_m4b_first_level_ex :
  GradioLaunch.create_m4b (fun _ _ => 0) (fun _ _ => EmptyString)
    "/tmp/combined.wav" "/tmp/metadata.txt" None "./Audiobooks/book.m4b"
    GradioLaunch.world0
  = (GradioLaunch.Returns,
     {| GradioLaunch.run_log :=
          [["ffmpeg"; "-i"; "/tmp/combined.wav"; "-i"; "/tmp/metadata.txt"; "-map"; "0:a";
            "-map_metadata"; "1"; "-c:a"; "aac"; "-b:a"; "192k"; "./Audiobooks/book.m4b"]];
        GradioLaunch.stdout := ["M4B file created successfully at ./Audiobooks/book.m4b"] |})
  /\ GradioLaunch.create_m4b (fun _ _ => 0) (fun _ _ => EmptyString)
       "/tmp/combined.wav" "/tmp/metadata.txt" None "book.m4b" GradioLaunch.world0
     = (GradioLaunch.Raises, GradioLaunch.world0).
Proof. split; reflexivity. Qed.

Example dirname_ex :
  Py.dirname "./Audiobooks/book.m4b" = "./Audiobooks" /\ Py.dirname "book.m4b" = EmptyString
  /\ Py.dirname "/book.m4b" = "/" /\ Py.dirname "a//b" = "a" /\ Py.dirname "//b" = "//".
Proof. repeat split. Qed.

Example universal_newlines_ex :
  Py.universal_newlines ("a" ++ String "013" (String "010" "b") ++ String "013" "c")
  = "a" ++ Py.nl ++ "b" ++ Py.nl ++ "c".
Proof. reflexivity. Qed.

(** * Facts about the string primitives *)

Section PyFacts.
Import Py.

Ltac eval_digit :=
  match goal with
  | |- context [digit_val ?c] =>
      let v := eval vm_compute in (digit_val c) in change (digit_val c) with v
  end.

Lemma uint_all_digits (d : uint) : all_digits (NilEmpty.string_of_uint d) = true.
Proof. induction d; simpl; auto. Qed.

Lemma int_acc_uint_pos (d : uint) (acc : positive) :
  int_acc (NilEmpty.string_of_uint d) (Z.pos acc) = Z.pos (Pos.of_uint_acc d acc).
Proof.
  revert acc; induction d; intros acc;
    cbn [int_acc NilEmpty.string_of_uint Pos.of_uint_acc]; trivial;
    rewrite <- IHd; f_equal; eval_digit; lia.
Qed.

Lemma int_acc_uint_zero (d : uint) :
  int_acc (NilEmpty.string_of_uint d) 0 = Z.of_N (Pos.of_uint d).
Proof.
  induction d; cbn [int_acc NilEmpty.string_of_uint Pos.of_uint Z.of_N]; trivial;
    rewrite <- int_acc_uint_pos; f_equal.
Qed.

Lemma str_int_pos (p : positive) :
  str_int (Z.pos p) = NilEmpty.string_of_uint (Pos.to_uint p).
Proof.
  unfold str_int; simpl.
  pose proof (DecimalPos.Unsigned.to_uint_nonnil p) as Hnn.
  destruct (Pos.to_uint p); simpl; congruence.
Qed.

(** [int(str(n)) = n] for a natural number. *)
Lemma int_of_str_int (n : Z) : 0 <= n -> int_of_digits (str_int n) = n.
Proof.
  intros Hn. destruct n as [|p|p]; [reflexivity| |lia].
  rewrite str_int_pos. unfold int_of_digits.
  rewrite int_acc_uint_zero, DecimalPos.Unsigned.of_to. reflexivity.
Qed.

Lemma str_int_digits (n : Z) : 0 <= n -> all_digits (str_int n) = true.
Proof.
  intros Hn. destruct n as [|p|p]; [reflexivity| |lia].
  rewrite str_int_pos. apply uint_all_digits.
Qed.

Lemma str_int_truthy (n : Z) : truthy (str_int n) = true.
Proof.
  destruct n as [|p|p]; try reflexivity.
  rewrite str_int_pos.
  pose proof (DecimalPos.Unsigned.to_uint_nonnil p) as Hnn.
  destruct (Pos.to_uint p); simpl; congruence.
Qed.

Lemma str_int_inj (m n : Z) : 0 <= m -> 0 <= n -> str_int m = str_int n -> m = n.
Proof.
  intros Hm Hn E. rewrite <- (int_of_str_int m Hm), <- (int_of_str_int n Hn).
  now rewrite E.
Qed.

Lemma app_assoc_str (a b c : string) : (a ++ b) ++ c = a ++ (b ++ c).
Proof. induction a; simpl; congruence. Qed.

Lemma app_empty_r (a : string) : a ++ EmptyString = a.
Proof. induction a; simpl; congruence. Qed.


Lemma span_digits_app (d rest : string) :
  all_digits d = true -> digit_free_head rest = true ->
  span_digits (d ++ rest) = (d, rest).
Proof.
  intros Hd Hr. induction d as [|c d IH]; simpl in *.
  - destruct rest as [|c r]; simpl in *; trivial.
    destruct (is_digit c); simpl in *; congruence.
  - apply andb_prop in Hd as [Hc Hd]. rewrite Hc, (IH Hd). reflexivity.
Qed.

Lemma findall_skip (p s : string) :
  no_digits p = true ->
  findall_digits_aux (p ++ s) EmptyString = findall_digits_aux s EmptyString.
Proof.
  induction p as [|c p IH]; simpl; intros Hp; trivial.
  apply andb_prop in Hp as [Hc Hp].
  destruct (is_digit c); simpl in *; [congruence | auto].
Qed.

Lemma findall_run (d rest run : string) :
  all_digits d = true ->
  findall_digits_aux (d ++ rest) run = findall_digits_aux rest (run ++ d).
Proof.
  revert run; induction d as [|c d IH]; simpl; intros run Hd.
  - now rewrite app_empty_r.
  - apply andb_prop in Hd as [Hc Hd]. rewrite Hc, IH by trivial.
    now rewrite app_assoc_str.
Qed.

Lemma findall_close (rest run : string) :
  digit_free_head rest = true -> truthy run = true ->
  exists tl, findall_digits_aux rest run = run :: tl.
Proof.
  intros Hr Ht. destruct rest as [|c r]; simpl in *.
  - destruct run; [discriminate | eauto].
  - destruct (is_digit c); [discriminate |].
    destruct run; [discriminate | eauto].
Qed.

(** The first number of a path whose directory part has no digit. *)
Lemma first_number (p rest : string) (n : Z) :
  0 <= n -> no_digits p = true -> digit_free_head rest = true ->
  exists tl, findall_digits (p ++ str_int n ++ rest) = str_int n :: tl.
Proof.
  intros Hn Hp Hr. unfold findall_digits.
  rewrite findall_skip, findall_run by auto using str_int_digits.
  apply findall_close; trivial. apply str_int_truthy.
Qed.

Section SortedFacts.
Context {A : Type} (key : A -> Z).

Lemma insert_by_perm (x : A) (l : list A) : Permutation (insert_by key x l) (x :: l).
Proof.
  induction l as [|y r IH]; simpl; [reflexivity|].
  destruct (key x <=? key y); [reflexivity|].
  rewrite IH. apply perm_swap.
Qed.

Lemma sorted_perm (l : list A) : Permutation (sorted key l) l.
Proof.
  induction l as [|x l IH]; simpl; [reflexivity|].
  rewrite insert_by_perm. now constructor.
Qed.

Lemma insert_by_sorted (x : A) (l : list A) :
  StronglySorted (key_le key) l -> StronglySorted (key_le key) (insert_by key x l).
Proof.
  induction 1 as [|y r Hs IH Hy]; simpl.
  - repeat constructor.
  - destruct (Z.leb_spec (key x) (key y)) as [Hle|Hgt].
    + constructor; [now constructor|].
      constructor; [exact Hle|].
      eapply Forall_impl; [exact Hy|]. unfold key_le; simpl; intros; lia.
    + constructor; [exact IH|].
      eapply Permutation_Forall; [symmetry; apply insert_by_perm|].
      constructor; [unfold key_le; lia | exact Hy].
Qed.

Lemma sorted_sorted (l : list A) : StronglySorted (key_le key) (sorted key l).
Proof.
  induction l as [|x l IH]; simpl; [constructor | now apply insert_by_sorted].
Qed.

(** In a list sorted by key, a smaller key stands at a smaller position. *)
Lemma sorted_positions (l : list A) (i j : nat) (a b : A) :
  StronglySorted (key_le key) l ->
  l !! i = Some a -> l !! j = Some b -> key a < key b -> (i < j)%nat.
Proof.
  intros Hs; revert i j; induction Hs as [|y r Hs IH Hy]; intros i j Hi Hj Hlt.
  - discriminate.
  - destruct i as [|i], j as [|j]; simpl in *.
    + injection Hi as ->; injection Hj as ->; lia.
    + lia.
    + injection Hj as ->.
      apply list_elem_of_lookup_2 in Hi.
      rewrite Forall_forall in Hy. specialize (Hy a Hi).
      unfold key_le in Hy. lia.
    + specialize (IH i j Hi Hj Hlt). lia.
Qed.

Lemma sorted_stands_before (l : list A) (a b : A) :
  key a < key b -> stands_before (sorted key l) a b.
Proof.
  intros Hlt i j Hi Hj.
  exact (sorted_positions _ i j a b (sorted_sorted l) Hi Hj Hlt).
Qed.
End SortedFacts.

Lemma occurs_at_head (s sub : string) : occurs_at s sub 0 <-> startswith sub s = true.
Proof. unfold occurs_at. simpl. split; [tauto | split; [lia | trivial]]. Qed.

Lemma occurs_at_tail (c : ascii) (r sub : string) (k : nat) :
  occurs_at (String c r) sub (S k) <-> occurs_at r sub k.
Proof. unfold occurs_at. simpl. split; intros [H1 H2]; split; trivial; lia. Qed.

Lemma occurs_at_empty (sub : string) (k : nat) :
  occurs_at EmptyString sub k -> startswith sub EmptyString = true.
Proof. intros [H1 H2]. simpl in H1. now replace k with 0%nat in H2 by lia. Qed.

Lemma find_from_spec (sub s : string) (i : Z) :
  (find_from sub s i = -1 /\ forall k : nat, ~ occurs_at s sub k)
  \/ exists k : nat, find_from sub s i = i + Z.of_nat k
                     /\ occurs_at s sub k
                     /\ forall j : nat, (j < k)%nat -> ~ occurs_at s sub j.
Proof.
  revert i; induction s as [|c r IH]; intros i.
  - unfold find_from. destruct (startswith sub EmptyString) eqn:E.
    + right. exists 0%nat. split; [lia|]. split; [now apply occurs_at_head | intros; lia].
    + left. split; [reflexivity|]. intros k Hk. apply occurs_at_empty in Hk. congruence.
  - cbn [find_from]. destruct (startswith sub (String c r)) eqn:E.
    + right. exists 0%nat. split; [lia|]. split; [now apply occurs_at_head | intros; lia].
    + destruct (IH (i + 1)) as [[Hf Hno] | (k & Hf & Hk & Hmin)].
      * left. split; [exact Hf|]. intros [|k] Hk.
        -- apply occurs_at_head in Hk. congruence.
        -- apply occurs_at_tail in Hk. now apply (Hno k).
      * right. exists (S k). split; [lia|]. split; [now apply occurs_at_tail|].
        intros [|j] Hj Hocc.
        -- apply occurs_at_head in Hocc. congruence.
        -- apply occurs_at_tail in Hocc. apply (Hmin j); [lia | exact Hocc].
Qed.

(** [find] answers the first match. *)
Lemma find_first_match (s sub : string) : first_match s sub (find s sub).
Proof.
  unfold first_match, find.
  destruct (find_from_spec sub s 0) as [[Hf Hno] | (k & Hf & Hk & Hmin)].
  - left. auto.
  - right. rewrite Hf, Z.add_0_l, Nat2Z.id. split; [lia | auto].
Qed.

Lemma path_join_plain (a b : string) :
  startswith "/" b = false -> truthy a = true -> endswith "/" a = false ->
  path_join a b = a ++ "/" ++ b.
Proof. unfold path_join. intros -> -> ->. reflexivity. Qed.
End PyFacts.

(** * The order of assembly *)

Section AssemblyOrder.
Import Py GradioLaunch.

Lemma book_sort_key_chapter (n : Z) :
  0 <= n -> Book.sort_key (chapter_txt_name n) = n.
Proof.
  intros Hn. unfold Book.sort_key, chapter_txt_name.
  assert (E : Book.search_chapter_txt ("chapter_" ++ str_int n ++ ".txt")
              = Some (str_int n)).
  { simpl. unfold Book.match_chapter_txt_at. simpl.
    rewrite span_digits_app by auto using str_int_digits.
    now rewrite str_int_truthy. }
  rewrite E. now apply int_of_str_int.
Qed.

Lemma m4b_sort_key_audio (dir : string) (n : Z) :
  0 <= n -> no_digits dir = true -> truthy dir = true -> endswith "/" dir = false ->
  M4b.sort_key (path_join dir (audio_chapter_name n)) = n.
Proof.
  intros Hn Hd Ht He. unfold M4b.sort_key.
  rewrite path_join_plain by (trivial; reflexivity).
  unfold audio_chapter_name.
  replace (dir ++ "/" ++ "audio_chapter_" ++ str_int n ++ ".wav")
    with ((dir ++ "/audio_chapter_") ++ str_int n ++ ".wav")
    by (rewrite app_assoc_str; reflexivity).
  destruct (first_number (dir ++ "/audio_chapter_") ".wav" n) as [tl ->]; trivial.
  - clear -Hd. induction dir as [|c d IH]; simpl in *; [reflexivity|].
    apply andb_prop in Hd as [-> Hd]. simpl. auto.
  - now apply int_of_str_int.
Qed.

(** C6. Chapter artifacts are assembled in the order of the chapter number
    read from the file name by pattern match: the flat text takes the
    chapter files sorted by the number in chapter_N.txt, the audio takes
    the chapter WAVs sorted by the first number of the path, and in both a
    chapter with a smaller number stands before every chapter with a larger
    one (chapter 2 before chapter 10). *)
Theorem assembly_order_numeric (listing : list string) (m n : Z) :
  0 <= m < n ->
  let dir := M4b.output_audio_directory in
  Permutation (Book.sorted_files listing) (List.filter (endswith ".txt") listing)
  /\ StronglySorted (key_le Book.sort_key) (Book.sorted_files listing)
  /\ stands_before (Book.sorted_files listing) (chapter_txt_name m) (chapter_txt_name n)
  /\ Permutation (M4b.chapter_files dir listing)
                 (map (path_join dir) (List.filter (endswith ".wav") listing))
  /\ StronglySorted (key_le M4b.sort_key) (M4b.chapter_files dir listing)
  /\ stands_before (M4b.chapter_files dir listing)
                   (path_join dir (audio_chapter_name m))
                   (path_join dir (audio_chapter_name n)).
Proof.
  intros Hmn dir. unfold Book.sorted_files, M4b.chapter_files.
  repeat split.
  - apply sorted_perm.
  - apply sorted_sorted.
  - apply sorted_stands_before.
    rewrite !book_sort_key_chapter by lia. lia.
  - apply sorted_perm.
  - apply sorted_sorted.
  - apply sorted_stands_before.
    subst dir. rewrite !m4b_sort_key_audio by (trivial; lia). lia.
Qed.
End AssemblyOrder.

Lemma assembly_order_numeric_witness :
  0 <= 2 < 10
  /\ GradioLaunch.Book.sorted_files ["chapter_10.txt"; "chapter_2.txt"; "notes.md"]
     = ["chapter_2.txt"; "chapter_10.txt"]
  /\ Py.stands_before
       (GradioLaunch.Book.sorted_files ["chapter_10.txt"; "chapter_2.txt"; "notes.md"])
       (GradioLaunch.chapter_txt_name 2) (GradioLaunch.chapter_txt_name 10).
Proof.
  split; [lia|]. split; [reflexivity|].
  exact (proj1 (proj2 (proj2
    (assembly_order_numeric ["chapter_10.txt"; "chapter_2.txt"; "notes.md"] 2 10
                            ltac:(lia))))).
Defined.

(** * Chapter markers *)

Section Markers.
Import Py GradioLaunch.
Variable duration_ms : string -> Z.

Lemma two_writes (file : string) (start_ms d : Z) (number : Z) :
  (file ++ ("[CHAPTER]" ++ nl ++ "TIMEBASE=1/1000" ++ nl
            ++ "START=" ++ str_int start_ms ++ nl))
    ++ ("END=" ++ str_int (start_ms + d) ++ nl
        ++ "title=Chapter " ++ str_int number ++ nl)
  = file ++ M4b.marker_entry start_ms (start_ms + d) number.
Proof. unfold M4b.marker_entry. rewrite !app_assoc_str. reflexivity. Qed.

Lemma metadata_loop_markers (files : list string) (index : nat) (start_time : Z)
    (file : string) :
  M4b.metadata_loop duration_ms files index start_time file
  = file ++ M4b.concat_str
      (map (fun i => M4b.marker_entry
                       (start_time + M4b.total (take i (map duration_ms files)))
                       (start_time + M4b.total (take i (map duration_ms files))
                        + map duration_ms files !!! i)
                       (Z.of_nat (index + i) + 1))
           (seq 0 (List.length files))).
Proof.
  revert index start_time file.
  induction files as [|f files IH]; intros index start_time file.
  - simpl. now rewrite app_empty_r.
  - cbn [M4b.metadata_loop]. rewrite IH, two_writes.
    cbn [List.length seq map M4b.concat_str foldr].
    rewrite app_assoc_str. f_equal.
    cbn [take M4b.total foldr]. rewrite Z.add_0_r, Nat.add_0_r.
    change ((duration_ms f :: map duration_ms files) !!! 0%nat) with (duration_ms f).
    f_equal.
    rewrite <- seq_shift, map_map. f_equal.
    apply map_ext; intros i.
    cbn [take M4b.total foldr]. fold (M4b.total (take i (map duration_ms files))).
    change ((duration_ms f :: map duration_ms files) !!! S i)
      with (map duration_ms files !!! i).
    f_equal; [lia | lia | f_equal; lia].
Qed.

(** C5. For chapter files of durations d1..dN, the metadata file holds the
    header and then exactly N chapter entries, the i-th with START the sum
    of the durations before it (0 for the first), END that start plus its
    own duration, and the title Chapter i. *)
Theorem chapter_markers_cumulative (chapter_files : list string) :
  let ds := map duration_ms chapter_files in
  M4b.generate_ffmpeg_metadata duration_ms chapter_files
    = (";FFMETADATA1" ++ nl) ++ M4b.concat_str (M4b.markers ds)
  /\ List.length (M4b.markers ds) = List.length chapter_files
  /\ forall i : nat, (i < List.length chapter_files)%nat ->
       M4b.markers ds !! i
       = Some (M4b.marker_entry (M4b.total (take i ds))
                                (M4b.total (take i ds) + ds !!! i)
                                (Z.of_nat i + 1)).
Proof.
  intros ds. split; [|split].
  - unfold M4b.generate_ffmpeg_metadata. rewrite metadata_loop_markers.
    unfold M4b.markers, M4b.marker_at. subst ds. rewrite length_map.
    reflexivity.
  - unfold M4b.markers. subst ds. now rewrite !length_map, length_seq.
  - intros i Hi. unfold M4b.markers. subst ds.
    rewrite list_lookup_fmap, length_map, lookup_seq_lt by trivial.
    reflexivity.
Qed.
End Markers.

Lemma chapter_markers_cumulative_witness :
  (1 < 2)%nat
  /\ GradioLaunch.M4b.markers [1000; 2500] !! 1%nat
     = Some (GradioLaunch.M4b.marker_entry 1000 3500 2).
Proof.
  split; [lia|].
  exact (proj2 (proj2 (chapter_markers_cumulative
                         (fun f => if String.eqb f "a.wav" then 1000 else 2500)
                         ["a.wav"; "b.wav"]))
               1%nat ltac:(simpl; lia)).
Defined.

(** * The chapter segmenter *)

Section Segmenter.
Import Py GradioLaunch.

Lemma chapter_path_number (k : nat) : M4b.sort_key (chapter_path k) = Z.of_nat k.
Proof.
  unfold M4b.sort_key, chapter_path, chapter_txt_name.
  rewrite path_join_plain by reflexivity.
  replace (temp_ebook_dir ++ "/" ++ "chapter_" ++ str_int (Z.of_nat k) ++ ".txt")
    with ((temp_ebook_dir ++ "/chapter_") ++ str_int (Z.of_nat k) ++ ".txt")
    by reflexivity.
  destruct (first_number (temp_ebook_dir ++ "/chapter_") ".txt" (Z.of_nat k))
    as [tl ->]; try reflexivity; [lia|].
  apply int_of_str_int. lia.
Qed.

Lemma chapter_path_inj (j k : nat) : chapter_path j = chapter_path k -> j = k.
Proof.
  intros E. apply (f_equal M4b.sort_key) in E.
  rewrite !chapter_path_number in E. lia.
Qed.

Lemma chapter_path_truthy (k : nat) : truthy (chapter_path k) = true.
Proof. unfold chapter_path. rewrite path_join_plain by reflexivity. reflexivity. Qed.

Lemma tracks_init (there : bool) (fs0 : fsys) : tracks there fs0 [] (seg_init there fs0).
Proof.
  constructor; simpl; trivial; [intros k c H; discriminate | now rewrite app_nil_r].
Qed.

(** A counting item that is not merged extends the chapters by its text. *)
Lemma segment_item_new (chapters : list string) (it : item) :
  counts it = true ->
  short it && negb (bool_decide (chapters = [])) = false ->
  segment_item chapters it = (chapters ++ [get_text it])%list.
Proof.
  unfold segment_item. intros -> H. destruct chapters as [|c r]; [reflexivity|].
  rewrite andb_false_iff in H. destruct H as [-> | H]; [reflexivity | discriminate].
Qed.

Lemma tracks_step (there : bool) (fs0 : fsys) (chapters : list string) (st : seg_state)
    (it : item) :
  tracks there fs0 chapters st ->
  tracks there fs0 (segment_item chapters it) (save_item st it).
Proof.
  intros [Hc Hp Hf Ho Hs].
  unfold save_item.
  destruct (get_type it =? ITEM_DOCUMENT) eqn:Ed;
    [| unfold segment_item, counts; rewrite Ed; now constructor].
  destruct (truthy (strip (get_text it))) eqn:Et;
    [| unfold segment_item, counts; rewrite Ed, Et; now constructor].
  assert (Hcounts : counts it = true) by (unfold counts; now rewrite Ed, Et).
  fold (short it).
  destruct (short it && truthy (previous_filename st)) eqn:Em.
  - (* merged into the previous chapter *)
    apply andb_prop in Em as [Hshort Hprev].
    destruct chapters as [|c0 r] eqn:Ech; [rewrite Hp in Hprev; discriminate|].
    rewrite <- Ech in *.
    assert (Hlen : (0 < List.length chapters)%nat) by (subst chapters; simpl; lia).
    assert (Hp' : previous_filename st = chapter_path (List.length chapters - 1))
      by (rewrite Hp, Ech; reflexivity).
    assert (Hseg : segment_item chapters it = merge_into_last (get_text it) chapters).
    { unfold segment_item. rewrite Hcounts, Hshort, Ech. reflexivity. }
    rewrite Hseg. unfold merge_into_last.
    constructor; simpl.
    + now rewrite length_alter.
    + rewrite length_alter.
      destruct (alter _ _ chapters) eqn:Ea; [|exact Hp'].
      apply (f_equal List.length) in Ea. rewrite length_alter in Ea. simpl in Ea. lia.
    + intros k c Hk. unfold append_file. rewrite Hp'.
      destruct (decide (k = List.length chapters - 1)%nat) as [->|Hne].
      * rewrite list_lookup_alter_eq in Hk.
        destruct (chapters !! (List.length chapters - 1)%nat) as [old|] eqn:Eo;
          simpl in Hk; [|discriminate].
        injection Hk as <-. rewrite lookup_insert_eq, (Hf _ _ Eo). reflexivity.
      * rewrite list_lookup_alter_ne in Hk by congruence.
        rewrite lookup_insert_ne; [now apply Hf|].
        intros E. apply chapter_path_inj in E. congruence.
    + intros p Hpth. rewrite length_alter in Hpth. unfold append_file.
      rewrite lookup_insert_ne; [now apply Ho|].
      rewrite Hp'. intros E. symmetry in E. revert E. apply Hpth. lia.
    + now rewrite length_alter.
  - (* a new chapter *)
    assert (Hseg : segment_item chapters it = (chapters ++ [get_text it])%list).
    { apply segment_item_new; trivial.
      rewrite andb_false_iff in Em |- *. destruct Em as [Em|Em]; [now left|right].
      rewrite Hp in Em. destruct chapters; [reflexivity|].
      rewrite chapter_path_truthy in Em. discriminate. }
    rewrite Hseg, Hc.
    constructor; simpl.
    + rewrite length_app. simpl. lia.
    + destruct (chapters ++ [get_text it])%list eqn:Ea.
      * apply (f_equal List.length) in Ea. rewrite length_app in Ea. simpl in Ea. lia.
      * rewrite <- Ea, length_app. simpl. f_equal. lia.
    + intros k c Hk. unfold write_file.
      destruct (decide (k = List.length chapters)) as [->|Hne].
      * rewrite lookup_app_r, Nat.sub_diag in Hk by lia. injection Hk as <-.
        now rewrite lookup_insert_eq.
      * assert (k < List.length chapters)%nat.
        { apply lookup_lt_Some in Hk. rewrite length_app in Hk. simpl in Hk. lia. }
        rewrite lookup_app_l in Hk by trivial.
        rewrite lookup_insert_ne; [now apply Hf|].
        intros E. apply chapter_path_inj in E. congruence.
    + intros p Hpth. rewrite length_app in Hpth. simpl in Hpth. unfold write_file.
      rewrite lookup_insert_ne; [apply Ho; intros k Hk; apply Hpth; lia|].
      intros E. symmetry in E. revert E. apply Hpth. lia.
    + rewrite length_app. simpl.
      rewrite Nat.add_1_r, seq_S, map_app, Hs, <- app_assoc. reflexivity.
Qed.

Lemma tracks_run (there : bool) (fs0 : fsys) (items : list item) (chapters : list string)
    (st : seg_state) :
  tracks there fs0 chapters st ->
  tracks there fs0 (fold_left segment_item items chapters) (save_chapters_from st items).
Proof.
  revert chapters st. induction items as [|it items IH]; intros chapters st Ht.
  - exact Ht.
  - simpl. apply IH. now apply tracks_step.
Qed.

(** The segmenter writes the chapters of the document, in document order,
    to chapter_0.txt, chapter_1.txt, ... and touches no other file. *)
Lemma save_chapters_refines (there : bool) (fs0 : fsys) (items : list item) :
  tracks there fs0 (chapters_of items) (segmented there fs0 items).
Proof. apply tracks_run, tracks_init. Qed.

(** C1, amended. The segmenter numbers the chapter files from 0: the files
    are created as chapter_0, chapter_1, ... with no gap, in document
    order, one line being printed for each after the line for the folder,
    and chapter_k holds the k-th chapter of the document. *)
Theorem chapter_indices_contiguous_from_zero (items : list item) :
  indices_from 0 items
  /\ forall (directory_there : bool) (fs : fsys),
       let st := segmented directory_there fs items in
       fst (save_chapters_as_text directory_there fs (Some items)) = Returns
       /\ chapter_counter st = List.length (chapters_of items)
       /\ map (fun k => seg_fs st !! chapter_path k) (seq 0 (chapter_counter st))
          = map Some (chapters_of items).
Proof.
  split.
  - intros there fs st. destruct (save_chapters_refines there fs items) as [Hc _ _ _ Hs].
    subst st. now rewrite Hs, Hc.
  - intros there fs st. destruct (save_chapters_refines there fs items) as [Hc _ Hf _ _].
    fold st in Hc, Hf. split; [reflexivity|]. split; [exact Hc|]. rewrite Hc.
    apply list_eq; intros k. rewrite !list_lookup_fmap.
    destruct (chapters_of items !! k) as [c|] eqn:Ek; simpl.
    + rewrite lookup_seq_lt by (now apply lookup_lt_Some in Ek).
      simpl. now rewrite (Hf _ _ Ek).
    + rewrite lookup_seq_ge; [reflexivity|]. now apply lookup_ge_None in Ek.
Qed.

(** The three ways an iteration can go. *)
Lemma save_item_cases (st : seg_state) (it : item) :
  (counts it = false /\ save_item st it = st)
  \/ (counts it = true /\ short it && truthy (previous_filename st) = true
      /\ chapter_counter (save_item st it) = chapter_counter st
      /\ previous_filename (save_item st it) = previous_filename st)
  \/ (counts it = true /\ short it && truthy (previous_filename st) = false
      /\ chapter_counter (save_item st it) = S (chapter_counter st)
      /\ truthy (previous_filename (save_item st it)) = true).
Proof.
  unfold save_item, counts. fold (short it).
  destruct (get_type it =? ITEM_DOCUMENT); simpl; [|now left].
  destruct (truthy (strip (get_text it))); simpl; [|now left].
  destruct (short it && truthy (previous_filename st)); simpl.
  - right; left. auto.
  - right; right. auto using chapter_path_truthy.
Qed.

Lemma count_from (items : list item) (st : seg_state) :
  (chapter_counter (save_chapters_from st items)
   + merge_events (truthy (previous_filename st)) items
   = chapter_counter st + List.length (List.filter counts items))%nat.
Proof.
  revert st; induction items as [|it items IH]; intros st; [simpl; lia|].
  unfold save_chapters_from in *. cbn [fold_left merge_events List.filter].
  specialize (IH (save_item st it)).
  destruct (save_item_cases st it) as [(Hc & E) | [(Hc & Hm & E1 & E2) | (Hc & Hm & E1 & E2)]];
    rewrite Hc.
  - rewrite E in IH |- *. exact IH.
  - rewrite E1, E2 in IH. apply andb_prop in Hm as Hm'. destruct Hm' as [_ Hp].
    rewrite Hm. rewrite Hp in IH. simpl. lia.
  - rewrite E1, E2 in IH. rewrite Hm. simpl. lia.
Qed.

Lemma skip_not_counting (before : list item) (chapters : list string) :
  Forall (fun x => counts x = false) before ->
  fold_left segment_item before chapters = chapters.
Proof.
  revert chapters; induction before as [|x before IH]; intros chapters Hb; [reflexivity|].
  inversion Hb as [|? ? Hx Hb']; subst. simpl.
  unfold segment_item at 2. rewrite Hx. now apply IH.
Qed.

(** Once a chapter is started its text only grows at the end. *)
Lemma first_chapter_grows (items : list item) (c : string) (r : list string) :
  exists rest r', fold_left segment_item items (c :: r) = (c ++ rest) :: r'.
Proof.
  revert c r; induction items as [|it items IH]; intros c r.
  - exists EmptyString, r. now rewrite app_empty_r.
  - simpl. unfold segment_item at 2.
    destruct (counts it); [|apply IH].
    destruct (short it).
    + destruct r as [|c1 r].
      * change (merge_into_last (get_text it) [c]) with [c ++ nl ++ get_text it].
        destruct (IH (c ++ nl ++ get_text it) []) as (rest & r' & E).
        exists (nl ++ get_text it ++ rest), r'. rewrite E.
        now rewrite !app_assoc_str.
      * assert (E : merge_into_last (get_text it) (c :: c1 :: r)
                    = c :: merge_into_last (get_text it) (c1 :: r)).
        { unfold merge_into_last. simpl. now rewrite Nat.sub_0_r. }
        rewrite E. apply IH.
    + apply IH.
Qed.

Lemma strip_truthy (text : string) : truthy (strip text) = true -> truthy text = true.
Proof. destruct text; [discriminate | reflexivity]. Qed.

Lemma counting_items_have_text (items : list item) :
  (List.length (List.filter counts items)
   <= List.length (List.filter (fun it => truthy (get_text it)) items))%nat.
Proof.
  induction items as [|it items IH]; simpl; [lia|].
  destruct (counts it) eqn:Hc.
  - unfold counts in Hc. apply andb_prop in Hc as [_ Hc].
    rewrite (strip_truthy _ Hc). simpl. lia.
  - destruct (truthy (get_text it)); simpl; lia.
Qed.

(** The merge events of the run are the counting items below the threshold
    that have a counting item before them. *)
Lemma appended_merge_events (items : list item) (st : seg_state) :
  appended st items = merge_events (truthy (previous_filename st)) items.
Proof.
  revert st; induction items as [|it items IH]; intros st; [reflexivity|].
  cbn [appended merge_events]. rewrite IH.
  assert (Ha : appends st it = counts it && (short it && truthy (previous_filename st)))
    by reflexivity.
  rewrite Ha.
  destruct (save_item_cases st it) as [(Hc & E) | [(Hc & Hm & _ & E2) | (Hc & Hm & _ & E2)]];
    rewrite Hc; cbn [andb].
  - now rewrite E.
  - rewrite Hm, E2. apply andb_prop in Hm as [_ ->]. reflexivity.
  - rewrite Hm, E2. reflexivity.
Qed.

Lemma segmented_snoc (there : bool) (fs : fsys) (items : list item) (it : item) :
  segmented there fs (items ++ [it]) = save_item (segmented there fs items) it.
Proof.
  unfold segmented, save_chapters_as_text, save_chapters_from. cbn [snd].
  now rewrite fold_left_app.
Qed.

(** C2, amended. The items that count are the documents whose text is not
    blank.  The number of chapters never exceeds their number, which never
    exceeds the number of items with non-empty text, and is their number
    less the number of merge events of the run; the first of them starts
    the first chapter, chapter_0, whatever its length.  One more item
    leaves everything as it is when its text is blank; is appended, after a
    newline, to the file of the last chapter when it is short and a chapter
    exists; and starts the next chapter file with its text otherwise. *)
Theorem chapter_count_and_merges (directory_there : bool) (fs : fsys) (items : list item) :
  let st := segmented directory_there fs items in
  let nonblank := List.length (List.filter counts items) in
  (chapter_counter st <= nonblank)%nat
  /\ (nonblank <= List.length (List.filter (fun it => truthy (get_text it)) items))%nat
  /\ (chapter_counter st + appended (seg_init directory_there fs) items = nonblank)%nat
  /\ appended (seg_init directory_there fs) items = merge_events false items
  /\ (forall (before : list item) (it : item) (after : list item),
        items = (before ++ it :: after)%list ->
        Forall (fun x => counts x = false) before ->
        counts it = true ->
        (1 <= chapter_counter st)%nat
        /\ chapter_counter (segmented directory_there fs (before ++ [it])) = 1%nat
        /\ exists rest : string,
             seg_fs st !! chapter_path 0 = Some (get_text it ++ rest))
  /\ forall it : item,
       let st' := segmented directory_there fs (items ++ [it]) in
       (counts it = false -> st' = st)
       /\ (counts it = true -> short it = true -> (0 < chapter_counter st)%nat ->
           chapter_counter st' = chapter_counter st
           /\ exists old : string,
                seg_fs st !! chapter_path (chapter_counter st - 1) = Some old
                /\ seg_fs st'
                   = <[chapter_path (chapter_counter st - 1) := old ++ nl ++ get_text it]>
                       (seg_fs st))
       /\ (counts it = true -> short it = false \/ chapter_counter st = 0%nat ->
           chapter_counter st' = S (chapter_counter st)
           /\ seg_fs st' = <[chapter_path (chapter_counter st) := get_text it]> (seg_fs st)).
Proof.
  intros st nonblank.
  pose proof (count_from items (seg_init directory_there fs)) as Hcount.
  cbn [seg_init previous_filename truthy chapter_counter] in Hcount.
  change (save_chapters_from (seg_init directory_there fs) items) with st in Hcount.
  fold nonblank in Hcount.
  pose proof (appended_merge_events items (seg_init directory_there fs)) as Happ.
  cbn [seg_init previous_filename truthy] in Happ.
  split; [lia|]. split; [apply counting_items_have_text|].
  split; [rewrite Happ; exact Hcount|]. split; [exact Happ|]. split.
  - intros before it after -> Hbefore Hit.
    assert (Hone : chapters_of (before ++ [it]) = [get_text it]).
    { unfold chapters_of. rewrite fold_left_app, (skip_not_counting before) by trivial.
      simpl. unfold segment_item. now rewrite Hit. }
    assert (Hall : exists rest r',
               chapters_of (before ++ it :: after) = (get_text it ++ rest) :: r').
    { unfold chapters_of.
      replace (before ++ it :: after)%list with ((before ++ [it]) ++ after)%list
        by (now rewrite <- app_assoc).
      rewrite fold_left_app. fold (chapters_of (before ++ [it])). rewrite Hone.
      apply first_chapter_grows. }
    destruct Hall as (rest & r' & Hall).
    destruct (save_chapters_refines directory_there fs (before ++ it :: after))
      as [Hc _ Hf _ _].
    fold st in Hc, Hf. rewrite Hall in Hc, Hf.
    split; [rewrite Hc; simpl; lia|]. split.
    + destruct (save_chapters_refines directory_there fs (before ++ [it]))
        as [Hc1 _ _ _ _].
      now rewrite Hc1, Hone.
    + exists rest. now apply (Hf 0%nat).
  - intros it st'. subst st'. rewrite segmented_snoc. fold st.
    destruct (save_chapters_refines directory_there fs items) as [Hc Hp Hf _ _].
    fold st in Hc, Hp, Hf.
    assert (Hprev : truthy (previous_filename st) = negb (chapter_counter st =? 0)%nat).
    { rewrite Hp, Hc. destruct (chapters_of items); [reflexivity|].
      now rewrite chapter_path_truthy. }
    unfold save_item, counts. fold (short it). split; [|split].
    + intros Hn. destruct (get_type it =? ITEM_DOCUMENT); [|reflexivity].
      cbn [andb] in Hn. now rewrite Hn.
    + intros Hcnt Hshort Hpos. apply andb_prop in Hcnt as [-> ->].
      rewrite Hshort, Hprev. replace (chapter_counter st =? 0)%nat with false
        by (symmetry; apply Nat.eqb_neq; lia).
      cbn [andb negb chapter_counter seg_fs]. split; [reflexivity|].
      assert (Hlast : exists old, chapters_of items !! (chapter_counter st - 1)%nat = Some old).
      { apply lookup_lt_is_Some. rewrite Hc in *. lia. }
      destruct Hlast as [old Hold]. exists old. split; [now apply Hf|].
      unfold append_file.
      assert (Hpf : previous_filename st = chapter_path (chapter_counter st - 1)).
      { rewrite Hp, Hc. destruct (chapters_of items); [simpl in *; rewrite Hc in Hpos; simpl in Hpos; lia | reflexivity]. }
      rewrite Hpf, (Hf _ _ Hold). reflexivity.
    + intros Hcnt Hnew. apply andb_prop in Hcnt as [-> ->].
      replace (short it && truthy (previous_filename st)) with false.
      * cbn [chapter_counter seg_fs]. split; reflexivity.
      * symmetry. rewrite Hprev. destruct Hnew as [-> | ->]; [reflexivity|].
        now rewrite andb_false_r.
Qed.
End Segmenter.

(** Numbering the chapter files from 1, as the specification states it,
    fails on a one-chapter book: its only chapter file is chapter_0.txt. *)
Lemma chapter_indices_from_one_counterexample :
  ~ GradioLaunch.indices_from 1
      [ {| GradioLaunch.get_type := GradioLaunch.ITEM_DOCUMENT;
           GradioLaunch.get_text := "Once upon a time." |} ].
Proof.
  intros H. specialize (H false ∅). vm_compute in H. discriminate H.
Qed.

(** Counting the items with non-empty text, as the specification states it,
    fails on a document that opens with a blank page: the blank item has
    text but starts no chapter, and nothing is merged. *)
Lemma chapter_count_blank_counterexample :
  ~ GradioLaunch.chapter_count_as_stated
      [ {| GradioLaunch.get_type := GradioLaunch.ITEM_DOCUMENT;
           GradioLaunch.get_text := "   " |};
        {| GradioLaunch.get_type := GradioLaunch.ITEM_DOCUMENT;
           GradioLaunch.get_text := "Title" |} ].
Proof.
  intros H. specialize (H false ∅). vm_compute in H. discriminate H.
Qed.

Lemma chapter_count_and_merges_witness :
  let it := {| GradioLaunch.get_type := GradioLaunch.ITEM_DOCUMENT;
               GradioLaunch.get_text := "Hi." |} in
  let nav := {| GradioLaunch.get_type := 4; GradioLaunch.get_text := "Contents" |} in
  let short_one := {| GradioLaunch.get_type := GradioLaunch.ITEM_DOCUMENT;
                      GradioLaunch.get_text := "Bye." |} in
  (GradioLaunch.counts nav = false /\ GradioLaunch.counts it = true
   /\ GradioLaunch.chapter_counter (GradioLaunch.segmented false ∅ [nav; it]) = 1%nat)
  /\ (GradioLaunch.counts short_one = true /\ GradioLaunch.short short_one = true
      /\ (0 < GradioLaunch.chapter_counter (GradioLaunch.segmented false ∅ [nav; it]))%nat
      /\ GradioLaunch.seg_fs (GradioLaunch.segmented false ∅ ([nav; it] ++ [short_one]))
           !! GradioLaunch.chapter_path 0
         = Some ("Hi." ++ Py.nl ++ "Bye.")).
Proof.
  intros it nav short_one.
  pose proof (chapter_count_and_merges false ∅ [nav; it]) as H. cbv zeta in H.
  destruct H as (_ & _ & _ & _ & Hfirst & Hstep).
  split.
  - split; [reflexivity|]. split; [reflexivity|].
    exact (proj1 (proj2 (Hfirst [nav] it [] eq_refl ltac:(repeat constructor) eq_refl))).
  - assert (Hpos : (0 < GradioLaunch.chapter_counter
                         (GradioLaunch.segmented false ∅ [nav; it]))%nat)
      by (vm_compute; lia).
    split; [reflexivity|]. split; [reflexivity|]. split; [exact Hpos|].
    destruct (proj1 (proj2 (Hstep short_one)) eq_refl eq_refl Hpos)
      as (_ & old & Hold & ->).
    vm_compute in Hold. injection Hold as <-. reflexivity.
Defined.

(** * Final muxing *)

Section Muxing.
Import Py GradioLaunch.
Variable exit_status : nat -> list string -> Z.
Variable str_exc : list string -> Z -> string.
Variables (combined_wav metadata_file output_m4b : string) (cover_image : option string).

(** Without a folder in the output path nothing is run or printed. *)
Lemma create_m4b_raises (w : world) :
  truthy (dirname output_m4b) = false ->
  create_m4b exit_status str_exc combined_wav metadata_file cover_image output_m4b w
  = (Raises, w).
Proof. unfold create_m4b. now intros ->. Qed.

(** The commands [create_m4b] runs, by the exit statuses it meets. *)
Lemma create_m4b_log :
  let c1 := mux_cmd1 combined_wav metadata_file cover_image output_m4b in
  let c2 := mux_cmd2 combined_wav cover_image in
  let c3 := mux_cmd3 combined_wav in
  let c4 := mux_cmd4 combined_wav output_m4b in
  truthy (dirname output_m4b) = true ->
  run_log (snd (create_m4b exit_status str_exc combined_wav metadata_file cover_image
                           output_m4b world0))
  = if exit_status 0%nat c1 =? 0 then [c1]
    else if exit_status 1%nat c2 =? 0 then [c1; c2]
    else [c1; c2; c3; c4].
Proof.
  intros c1 c2 c3 c4 Hdir. unfold create_m4b, subprocess_run. rewrite Hdir. simpl.
  fold c1 c2 c3 c4.
  destruct (exit_status 0%nat c1 =? 0); [reflexivity|].
  destruct (truthy_opt cover_image); simpl;
    (destruct (exit_status 1%nat c2 =? 0); [reflexivity|]); simpl;
    destruct (exit_status 2%nat c3 =? 0); simpl;
    destruct (exit_status 3%nat c4 =? 0); reflexivity.
Qed.

(** C3. The fallback is meant to try each level only after the level before
    it failed.  It does so from level 1 to level 3, but level 4 is a
    statement of its own after the try of level 3: for an output path in a
    folder, with levels 1 and 2 failing and level 3 exiting zero, ffmpeg is
    still run a fourth time, on the output path, without the line that
    announces the last attempt. *)
Theorem create_m4b_level4_runs_after_level3_success :
  let c1 := mux_cmd1 combined_wav metadata_file cover_image output_m4b in
  let c2 := mux_cmd2 combined_wav cover_image in
  let c3 := mux_cmd3 combined_wav in
  let c4 := mux_cmd4 combined_wav output_m4b in
  truthy (dirname output_m4b) = true ->
  exit_status 0%nat c1 <> 0 -> exit_status 1%nat c2 <> 0 -> exit_status 2%nat c3 = 0 ->
  let run := create_m4b exit_status str_exc combined_wav metadata_file cover_image
               output_m4b world0 in
  fst run = Returns
  /\ run_log (snd run) = [c1; c2; c3; c4]
  /\ stdout (snd run)
     = (["Metadata adding didn't work trying with only the cover art and no Metadata."]
        ++ (if truthy_opt cover_image then ["Found Cover art"] else [])
        ++ ["Cover art adding didn't work, trying without any metadata or cover art."]
        ++ (if exit_status 3%nat c4 =? 0 then []
            else [("Final attempt failed: " ++ str_exc c4 (exit_status 3%nat c4))%string])
        ++ [("M4B file created successfully at " ++ output_m4b)%string])%list.
Proof.
  intros c1 c2 c3 c4 Hdir H1 H2 H3 run. subst run.
  unfold create_m4b, subprocess_run. rewrite Hdir. simpl. fold c1 c2 c3 c4.
  apply Z.eqb_neq in H1, H2. rewrite H1.
  destruct (truthy_opt cover_image); simpl; rewrite H2; simpl; rewrite H3; simpl;
    destruct (exit_status 3%nat c4 =? 0); repeat split.
Qed.
End Muxing.

Lemma create_m4b_level4_runs_after_level3_success_witness :
  let exit_status := fun (n : nat) (_ : list string) => if (n =? 2)%nat then 0 else 1 in
  let run := GradioLaunch.create_m4b exit_status (fun _ _ => "exit status 1")
               "/tmp/combined.wav" "/tmp/metadata.txt" (Some "book.jpg")
               "./Audiobooks/book.m4b" GradioLaunch.world0 in
  (Py.truthy (Py.dirname "./Audiobooks/book.m4b") = true
   /\ exit_status 2%nat (GradioLaunch.mux_cmd3 "/tmp/combined.wav") = 0)
  /\ GradioLaunch.run_log (snd run)
     = [GradioLaunch.mux_cmd1 "/tmp/combined.wav" "/tmp/metadata.txt" (Some "book.jpg")
          "./Audiobooks/book.m4b";
        GradioLaunch.mux_cmd2 "/tmp/combined.wav" (Some "book.jpg");
        GradioLaunch.mux_cmd3 "/tmp/combined.wav";
        GradioLaunch.mux_cmd4 "/tmp/combined.wav" "./Audiobooks/book.m4b"].
Proof.
  intros exit_status run. split; [split; reflexivity|].
  exact (proj1 (proj2
    (create_m4b_level4_runs_after_level3_success exit_status (fun _ _ => "exit status 1")
       "/tmp/combined.wav" "/tmp/metadata.txt" "./Audiobooks/book.m4b" (Some "book.jpg")
       eq_refl ltac:(discriminate) ltac:(discriminate) eq_refl))).
Defined.

(** * Sentence synthesis *)

Section SynthesisFacts.
Import Py GradioLaunch.
Variable espeak_ng : nat -> list string -> Z * string.
Variable str_exc : list string -> Z -> string.
Variable temp_name : nat -> string.
Variable from_wav : string -> M4b.AudioSegment.
Variables (speed pitch voice : string).

#[local] Abbreviation step :=
  (synth_sentence espeak_ng str_exc temp_name from_wav speed pitch voice).
#[local] Abbreviation one := (sentence_run espeak_ng temp_name from_wav speed pitch voice).
#[local] Abbreviation many := (chapter_run espeak_ng temp_name from_wav speed pitch voice).





Lemma remove_absent_char (c : ascii) (s : string) :
  has_char c s = false -> remove_char c s = s.
Proof.
  induction s as [|a r IH]; simpl; trivial. intros H.
  apply orb_false_elim in H as [Ha Hr]. now rewrite Ha, IH.
Qed.










End SynthesisFacts.

(** * Sentence offsets *)

Section Offsets.
Import Py GradioLaunch.

(** C9, amended. For every sentence the tokenizer emits for a chapter, the
    recorded start is the first-match position of the sentence in the text
    that was tokenized, which is the chapter's raw text behind the chapter
    mark ([-1] should the sentence not occur in it), and the recorded end
    is the start plus the length of the sentence. *)
Theorem sentence_offsets_first_match (sent_tokenize : string -> list string)
    (raw : string) (chapter_number : Z) :
  offsets_into sent_tokenize (marked_text raw) raw chapter_number
  /\ marked_text raw = (if truthy raw then "NEWCHAPTERABC" ++ raw else raw)
  /\ map row_text (chapter_rows sent_tokenize raw chapter_number)
     = sent_tokenize (marked_text raw).
Proof.
  split; [|split].
  - unfold offsets_into, chapter_rows. apply Forall_forall. intros row Hrow.
    apply list_elem_of_fmap in Hrow as (sentence & -> & _). simpl.
    split; [apply find_first_match | reflexivity].
  - reflexivity.
  - unfold chapter_rows. rewrite map_map. simpl. apply map_id.
Qed.
End Offsets.

(** Offsets into the raw text of the chapter, as the specification states
    them, fail on a two-sentence chapter: the second sentence stands at 10
    in the raw text and is recorded at 23. *)
Lemma sentence_offsets_raw_counterexample :
  ~ GradioLaunch.offsets_into GradioLaunch.split_sentences
      "Hi there. Bye now." "Hi there. Bye now." 0.
Proof.
  unfold GradioLaunch.offsets_into.
  set (rows := GradioLaunch.chapter_rows _ _ _). vm_compute in rows. subst rows.
  intros H. apply Forall_cons in H as [_ H]. apply Forall_cons in H as [[H _] _].
  destruct H as [[H _] | (_ & [Hlen _] & _)]; [discriminate H|].
  vm_compute in Hlen. lia.
Qed.

(** * The single-file pipeline *)

Section AppFacts.
Import Py App.
Variable decode : string -> string.

Lemma step2_fails_iff (rq : request) (t : tools) :
  (exists res, snd (step2 rq t) = inl res)
  <-> (exit_code (ebook_convert t) <> 0 \/ missing_or_empty (txt_size t) = true).
Proof.
  unfold step2, missing_or_empty. simpl.
  destruct (Z.eqb_spec (exit_code (ebook_convert t)) 0) as [E|E].
  - destruct (txt_size t) as [n|].
    + destruct (n =? 0); split.
      * auto.
      * eauto.
      * intros [res H]; discriminate.
      * intros [H|H]; [contradiction | discriminate].
    + split; eauto.
  - destruct (truthy (err_stream (ebook_convert t))); split; eauto.
Qed.

Lemma step2_failure_is_error (rq : request) (t : tools) (res : result) :
  snd (step2 rq t) = inl res ->
  audio_output res = None /\ download_output res = None
  /\ startswith "**Error:**" (status_text res) = true.
Proof.
  unfold step2. simpl.
  destruct (exit_code (ebook_convert t) =? 0).
  - destruct (txt_size t) as [n|]; [destruct (n =? 0)|]; intros H;
      try discriminate; injection H as <-; repeat split.
  - destruct (truthy (err_stream (ebook_convert t))); intros H;
      injection H as <-; repeat split.
Qed.

Lemma step2_events (rq : request) (t : tools) : fst (step2 rq t) = [Run (cmd_convert rq)].
Proof. reflexivity. Qed.

Lemma step3_events (rq : request) (t : tools) (status : list string) :
  fst (step3 decode rq t status) = fst (run_audio rq t).
Proof. unfold step3. now destruct (run_audio rq t). Qed.

Lemma step3_result (rq : request) (t : tools) (status : list string) :
  (snd (run_audio rq t) = None
   /\ snd (step3 decode rq t status)
      = inr (status ++ ["Converting text to speech..."; "✅ Text converted to audio."])%list)
  \/ (snd (run_audio rq t) <> None
      /\ exists msg, snd (step3 decode rq t status) = inl (failure rq msg)).
Proof.
  unfold step3. destruct (run_audio rq t) as [ev [[e|msg]|]]; simpl.
  - right. split; [discriminate | eauto].
  - right. split; [discriminate | eauto].
  - left. split; [reflexivity|]. now rewrite <- app_assoc.
Qed.

Lemma check_audio_result (rq : request) (t : tools) (status : list string) :
  (missing_or_small (audio_size t) = false /\ check_audio rq t status = inr status)
  \/ (missing_or_small (audio_size t) = true
      /\ check_audio rq t status
         = inl (failure rq ("**Error:** Audio output file missing or too small after conversion."
                 ++ nl ++ "Check system logs for `espeak-ng`, `lame`, or `oggenc` or the status box above for errors."))).
Proof.
  unfold check_audio, missing_or_small.
  destruct (audio_size t) as [n|]; [destruct (n <? 1024)|]; auto.
Qed.


(** The events and the result of the whole run, by the stage that ends it. *)
Lemma convert_cases (rq : request) (t : tools) :
  let run := convert_ebook_to_audio decode rq t in
  (exists res, snd (step2 rq t) = inl res /\ run = ([Run (cmd_convert rq)], res))
  \/ (exists status,
        snd (step2 rq t) = inr status
        /\ fst run = (Run (cmd_convert rq) :: fst (run_audio rq t))
        /\ ((snd (run_audio rq t) <> None /\ exists msg, snd run = failure rq msg)
            \/ (snd (run_audio rq t) = None
                /\ missing_or_small (audio_size t) = true
                /\ snd run
                   = failure rq ("**Error:** Audio output file missing or too small after conversion."
                       ++ nl ++ "Check system logs for `espeak-ng`, `lame`, or `oggenc` or the status box above for errors."))
            \/ (snd (run_audio rq t) = None
                /\ missing_or_small (audio_size t) = false
                /\ audio_output (snd run) = Some (audio_output_path rq)
                /\ download_output (snd run) = Some (audio_output_path rq)))).
Proof.
  intros run. subst run. unfold convert_ebook_to_audio.
  pose proof (step2_events rq t) as Hev2.
  destruct (step2 rq t) as [ev2 [res|status]]; simpl in Hev2; subst ev2.
  - left. eauto.
  - right. exists status. split; [reflexivity|].
    pose proof (step3_events rq t status) as Hev3.
    pose proof (step3_result rq t status) as Hres3.
    destruct (step3 decode rq t status) as [ev3 r3]; simpl in Hev3, Hres3; subst ev3.
    destruct Hres3 as [(Hnone & ->) | (Hsome & msg & ->)].
    + pose proof (check_audio_result rq t
        (status ++ ["Converting text to speech..."; "✅ Text converted to audio."])%list)
        as [(Hsz & ->) | (Hsz & ->)]; simpl.
      * split; [reflexivity|]. right; right. auto.
      * split; [reflexivity|]. right; left. auto.
    + simpl. split; [reflexivity|]. left. eauto.
Qed.



(** What the request returns when an audio command failed. *)
Lemma convert_audio_error (rq : request) (t : tools) (status : list string)
    (e : CalledProcessError) :
  snd (step2 rq t) = inr status ->
  snd (run_audio rq t) = Some (Called e) ->
  snd (convert_ebook_to_audio decode rq t) = failure rq (audio_error_message decode e).
Proof.
  intros H2 H3. unfold convert_ebook_to_audio.
  destruct (step2 rq t) as [ev2 r2]. simpl in H2. subst r2.
  unfold step3. destruct (run_audio rq t) as [ev3 exn]. simpl in H3. subst exn.
  reflexivity.
Qed.

(** C7. In the piped strategy the driver waits for the encoder and for the
    synthesizer, then checks both exit codes: it raises the error of the
    encoder when that exited non-zero, else the error of the synthesizer
    when that did, each carrying the captured error stream of its process;
    nothing is raised exactly when both exited zero; the error raised is
    what the request reports, and no audio is returned while either
    process exited non-zero. *)
Theorem piped_checks_both_exit_codes (rq : request) (t : tools) :
  output_format rq = "mp3" \/ output_format rq = "ogg" ->
  let speak := (cmd_speak rq ++ ["--stdout"])%list in
  let enc := cmd_encoder rq in
  fst (run_audio rq t)
    = [Popen speak; Popen enc; CloseStdout speak; Communicate enc;
       ReadStderr speak; Wait speak]
  /\ (snd (run_audio rq t) = None
      <-> exit_code (encoder t) = 0 /\ exit_code (espeak t) = 0)
  /\ (exit_code (encoder t) <> 0 ->
      snd (run_audio rq t)
      = Some (Called {| returncode := exit_code (encoder t); cmd := enc;
                        output := Some (out_stream (encoder t));
                        stderr := Some (err_stream (encoder t)) |}))
  /\ (exit_code (encoder t) = 0 -> exit_code (espeak t) <> 0 ->
      snd (run_audio rq t)
      = Some (Called {| returncode := exit_code (espeak t); cmd := speak;
                        output := None;
                        stderr := Some (err_stream (espeak t)) |}))
  /\ (exit_code (encoder t) <> 0 \/ exit_code (espeak t) <> 0 ->
      audio_output (snd (convert_ebook_to_audio decode rq t)) = None
      /\ download_output (snd (convert_ebook_to_audio decode rq t)) = None)
  /\ (forall (status : list string) (e : CalledProcessError),
        snd (step2 rq t) = inr status ->
        snd (run_audio rq t) = Some (Called e) ->
        snd (convert_ebook_to_audio decode rq t)
        = failure rq (audio_error_message decode e)).
Proof.
  intros Hfmt speak enc.
  assert (Hrun : run_audio rq t = piped speak enc t).
  { unfold run_audio, enc, cmd_encoder, speak.
    destruct Hfmt as [-> | ->]; reflexivity. }
  assert (Hnone : snd (run_audio rq t) = None
                  <-> exit_code (encoder t) = 0 /\ exit_code (espeak t) = 0).
  { rewrite Hrun. unfold piped. simpl.
    destruct (Z.eqb_spec (exit_code (encoder t)) 0) as [E|E]; simpl;
      [destruct (Z.eqb_spec (exit_code (espeak t)) 0) as [E'|E']; simpl|];
      split; try tauto; intros H; try discriminate; tauto. }
  split; [now rewrite Hrun|]. split; [exact Hnone|]. split; [|split; [|split]];
    [| | |intros status e; apply convert_audio_error].
  - intros E. rewrite Hrun. unfold piped. simpl.
    destruct (Z.eqb_spec (exit_code (encoder t)) 0); [contradiction | reflexivity].
  - intros E E'. rewrite Hrun. unfold piped. simpl.
    rewrite E. simpl.
    destruct (Z.eqb_spec (exit_code (espeak t)) 0); [contradiction | reflexivity].
  - intros Hnz.
    assert (Hsome : snd (run_audio rq t) <> None) by (rewrite Hnone; lia).
    destruct (convert_cases rq t)
      as [(res & H2 & ->) | (status & _ & _ & [(_ & msg & ->) | [(Hn & _) | (Hn & _)]])];
      try contradiction.
    + simpl. now destruct (step2_failure_is_error rq t res H2) as (? & ? & _).
    + split; reflexivity.
Qed.

(** C10. No audio is returned unless the audio file exists and holds at
    least 1024 bytes: when the converter and every audio command exit zero
    on a supported format, the request still ends with an error and no
    audio if the file is missing or smaller, and returns the file
    otherwise. *)
Theorem small_audio_is_an_error (rq : request) (t : tools) :
  let res := snd (convert_ebook_to_audio decode rq t) in
  (forall p, audio_output res = Some p ->
      exists n, audio_size t = Some n /\ 1024 <= n)
  /\ (In (output_format rq) ["wav"; "mp3"; "ogg"] ->
      exit_code (ebook_convert t) = 0 -> missing_or_empty (txt_size t) = false ->
      exit_code (espeak t) = 0 -> exit_code (encoder t) = 0 ->
      if missing_or_small (audio_size t)
      then audio_output res = None /\ download_output res = None
           /\ status_text res
              = "**Error:** Audio output file missing or too small after conversion."
                  ++ nl ++ "Check system logs for `espeak-ng`, `lame`, or `oggenc` or the status box above for errors."
      else audio_output res = Some (audio_output_path rq)
           /\ download_output res = Some (audio_output_path rq)).
Proof.
  intros res. subst res. split.
  - intros p Hp.
    destruct (convert_cases rq t)
      as [(r & H2 & E) | (status & _ & _ & [(_ & msg & E) | [(_ & _ & E) | (_ & Hsz & _)]])].
    + rewrite E in Hp. simpl in Hp.
      destruct (step2_failure_is_error rq t r H2) as (Hnone & _). congruence.
    + rewrite E in Hp. discriminate.
    + rewrite E in Hp. discriminate.
    + unfold missing_or_small in Hsz. destruct (audio_size t) as [n|]; [|discriminate].
      exists n. split; [reflexivity | lia].
  - intros Hfmt Hconv Htxt Hspeak Henc.
    assert (Hrun : snd (run_audio rq t) = None).
    { unfold run_audio, piped. rewrite Hspeak, Henc. simpl in Hfmt.
      destruct Hfmt as [<- | [<- | [<- | []]]]; reflexivity. }
    assert (H2 : forall r, snd (step2 rq t) <> inl r).
    { intros r Hr. assert (Hex : exists res, snd (step2 rq t) = inl res) by eauto.
      apply step2_fails_iff in Hex as [Hex|Hex]; congruence. }
    destruct (convert_cases rq t)
      as [(r & Hr & _) | (status & _ & _ & [(Hne & _) | [(_ & Hsz & E) | (_ & Hsz & E)]])].
    + now apply H2 in Hr.
    + contradiction.
    + rewrite Hsz, E. repeat split.
    + rewrite Hsz. exact E.
Qed.
End AppFacts.


Lemma piped_checks_both_exit_codes_witness :
  let rq := {| App.input_ebook_path := "/tmp/upload/book.epub";
               App.temp_dir := "/tmp/ebook_audio_1";
               App.base_filename := "book";
               App.voice_code := "en";
               App.output_format := "mp3";
               App.cover_image_path_final := None;
               App.status_updates := ["Conversion started..."] |} in
  let ok := {| App.exit_code := 0; App.out_stream := EmptyString;
               App.err_stream := EmptyString |} in
  let broken := {| App.exit_code := 1; App.out_stream := EmptyString;
                   App.err_stream := "espeak-ng: cannot read input" |} in
  let t := {| App.ebook_convert := ok; App.txt_size := Some 5000;
              App.espeak := broken; App.encoder := ok; App.audio_size := Some 2048;
              App.embed_status := [] |} in
  (App.output_format rq = "mp3" \/ App.output_format rq = "ogg")
  /\ App.exit_code (App.encoder t) = 0 /\ App.exit_code (App.espeak t) <> 0
  /\ snd (App.run_audio rq t)
     = Some (App.Called {| App.returncode := 1;
                           App.cmd := (App.cmd_speak rq ++ ["--stdout"])%list;
                           App.output := None;
                           App.stderr := Some "espeak-ng: cannot read input" |})
  /\ App.audio_output (snd (App.convert_ebook_to_audio (fun b => b) rq t)) = None.
Proof.
  intros rq ok broken t.
  assert (Hfmt : App.output_format rq = "mp3" \/ App.output_format rq = "ogg")
    by (left; reflexivity).
  assert (Hspeak : App.exit_code (App.espeak t) <> 0) by (simpl; lia).
  pose proof (piped_checks_both_exit_codes (fun b => b) rq t Hfmt)
    as (_ & _ & _ & H4 & H5 & _).
  split; [exact Hfmt|]. split; [reflexivity|]. split; [exact Hspeak|].
  split; [exact (H4 eq_refl Hspeak) | exact (proj1 (H5 (or_intror Hspeak)))].
Defined.

Lemma small_audio_is_an_error_witness :
  let rq := {| App.input_ebook_path := "/tmp/upload/book.epub";
               App.temp_dir := "/tmp/ebook_audio_1";
               App.base_filename := "book";
               App.voice_code := "en";
               App.output_format := "wav";
               App.cover_image_path_final := None;
               App.status_updates := ["Conversion started..."] |} in
  let ok := {| App.exit_code := 0; App.out_stream := EmptyString;
               App.err_stream := EmptyString |} in
  let t := {| App.ebook_convert := ok; App.txt_size := Some 5000;
              App.espeak := ok; App.encoder := ok; App.audio_size := Some 1023;
              App.embed_status := [] |} in
  In (App.output_format rq) ["wav"; "mp3"; "ogg"]
  /\ App.missing_or_small (App.audio_size t) = true
  /\ App.audio_output (snd (App.convert_ebook_to_audio (fun b => b) rq t)) = None.
Proof.
  intros rq ok t.
  assert (Hfmt : In (App.output_format rq) ["wav"; "mp3"; "ogg"]) by (left; reflexivity).
  split; [exact Hfmt|]. split; [reflexivity|].
  exact (proj1 (proj2 (small_audio_is_an_error (fun b => b) rq t)
                  Hfmt eq_refl eq_refl eq_refl eq_refl)).
Defined.


Example split_ex :
  PyMore.split "chapter_10.txt" "_"%char = ["chapter"; "10.txt"]
  /\ PyMore.split "a_" "_"%char = ["a"; EmptyString]
  /\ PyMore.split EmptyString "_"%char = [EmptyString]
  /\ PyMore.split_ws "  a  bc " = ["a"; "bc"].
Proof. repeat split. Qed.

Example int_ex :
  PyMore.int " 12 " = inr 12 /\ PyMore.int "-1_0" = inr (-10) /\ PyMore.int "1__0" = inl PyMore.ValueError
  /\ PyMore.int "+ 5" = inl PyMore.ValueError /\ PyMore.int EmptyString = inl PyMore.ValueError
  /\ PyMore.int "007" = inr 7 /\ PyMore.int "_1" = inl PyMore.ValueError
  /\ PyMore.int (String "028" "5") = inl PyMore.ValueError
  /\ PyMore.int (String "160" "5" ++ String "133" EmptyString) = inr 5
  /\ Stages.chapter_key ("chapter_" ++ String "028" "5.txt") = inl PyMore.ValueError.
Proof. repeat split. Qed.

Example search_ex :
  PyMore.search [PyMore.Lit "chapter_"; PyMore.Digits; PyMore.AnyChar; PyMore.Lit "txt"]
                "chapter_12txt.txt" = Some (Some "1")
  /\ PyMore.search [PyMore.Lit "chapter_"; PyMore.Digits; PyMore.AnyChar; PyMore.Lit "txt"]
                "xchapter_12.txt" = Some (Some "12")
  /\ PyMore.search [PyMore.Lit "chapter_"; PyMore.Digits; PyMore.Lit ".txt"]
                "chapter_12txt.txt" = None.
Proof. repeat split. Qed.

Example path_ex :
  PyMore.basename "/tmp/up/My.Book.epub" = "My.Book.epub"
  /\ PyMore.splitext_root "My.Book.epub" = "My.Book"
  /\ PyMore.splitext_root ".bashrc" = ".bashrc"
  /\ PyMore.splitext_root "dir.d/name" = "dir.d/name"
  /\ PyMore.basename "dir/" = EmptyString
  /\ PyMore.rsplit1_head "/tmp/a.b/c" "."%char = "/tmp/a"
  /\ PyMore.rsplit1_head "book" "."%char = "book".
Proof. repeat split. Qed.

Example sorted_str_ex :
  PyMore.sorted_str ["chapter_2.txt"; "chapter_10.txt"; "chapter_1.txt"]
  = ["chapter_1.txt"; "chapter_10.txt"; "chapter_2.txt"].
Proof. reflexivity. Qed.

(** * The flat text and the order of assembly, once more *)

Section FlatText.
Import Py PyMore GradioLaunch.

Lemma join_cons2 (sep a b : string) (r : list string) :
  join sep (a :: b :: r) = a ++ sep ++ join sep (b :: r).
Proof. reflexivity. Qed.

Lemma combine_loop_join (read : string -> string) (files : list string) (i n : nat)
    (outfile : string) :
  n = (i + List.length files)%nat ->
  Stages.combine_loop read files i n outfile
  = outfile ++ join (nl ++ CHAPTER_MARK ++ nl) (map read files).
Proof.
  revert i outfile; induction files as [|f rest IH]; intros i outfile Hn.
  - simpl. now rewrite app_empty_r.
  - cbn [Stages.combine_loop]. destruct rest as [|g rest].
    + simpl in Hn. replace (Z.of_nat i <? Z.of_nat n - 1) with false
        by (symmetry; apply Z.ltb_ge; lia).
      reflexivity.
    + replace (Z.of_nat i <? Z.of_nat n - 1) with true
        by (symmetry; apply Z.ltb_lt; simpl in Hn; lia).
      rewrite IH by (simpl in *; lia).
      cbn [map]. rewrite join_cons2, !app_assoc_str. reflexivity.
Qed.

(** X1. The loop of [combine_chapters] writes the chapter files in sorted order
    with the mark between two files only: nothing is written for an empty
    folder, and no mark follows the last file. *)
Theorem combine_chapters_marks_between (read : string -> string) (listing : list string) :
  Stages.combine_chapters read listing
  = join (nl ++ CHAPTER_MARK ++ nl) (map read (Book.sorted_files listing)).
Proof. unfold Stages.combine_chapters. now rewrite combine_loop_join. Qed.

(** X2. A text file whose name has no chapter number gets the key 0, and so is
    written before every chapter with a positive number. *)
Theorem unnumbered_files_come_first (listing : list string) (f : string) (n : Z) :
  Book.search_chapter_txt f = None -> 0 < n ->
  stands_before (Book.sorted_files listing) f (chapter_txt_name n).
Proof.
  intros Hf Hn. unfold Book.sorted_files. apply sorted_stands_before.
  rewrite book_sort_key_chapter by lia. unfold Book.sort_key. now rewrite Hf.
Qed.

Section SortedUnique.
Context {A : Type} (key : A -> Z).

Lemma insert_by_comm (x y : A) (s : list A) :
  key x <> key y ->
  insert_by key x (insert_by key y s) = insert_by key y (insert_by key x s).
Proof.
  intros Hxy. induction s as [|z s IH]; simpl.
  - destruct (Z.leb_spec (key x) (key y)), (Z.leb_spec (key y) (key x)); trivial; lia.
  - destruct (Z.leb_spec (key y) (key z)) as [Hyz|Hyz],
             (Z.leb_spec (key x) (key z)) as [Hxz|Hxz]; simpl;
      repeat match goal with
             | |- context [?a <=? ?b] => destruct (Z.leb_spec a b); try lia
             end; trivial.
    now rewrite IH.
Qed.

Lemma sorted_permutation_invariant (l l' : list A) :
  Permutation l l' -> NoDup (map key l) -> sorted key l = sorted key l'.
Proof.
  induction 1 as [|x l l' Hp IH|x y l|l l' l'' Hp1 IH1 Hp2 IH2]; intros Hnd.
  - reflexivity.
  - simpl. rewrite IH; [reflexivity|]. simpl in Hnd. now apply NoDup_cons_1_2 in Hnd.
  - simpl. apply insert_by_comm. simpl in Hnd.
    apply NoDup_cons_1_1 in Hnd. intros E. apply Hnd. rewrite E. left.
  - rewrite IH1 by trivial. apply IH2.
    eapply NoDup_Permutation_proper; [symmetry; apply Permutation_map; exact Hp1 | exact Hnd].
Qed.

Lemma sorted_of_increasing (l : list A) :
  StronglySorted (fun a b => key a < key b) l -> sorted key l = l.
Proof.
  induction 1 as [|x l Hs IH Hx]; [reflexivity|].
  simpl. rewrite IH. destruct l as [|y l]; [reflexivity|].
  simpl. apply Forall_cons in Hx as [Hxy _].
  destruct (Z.leb_spec (key x) (key y)); [reflexivity | lia].
Qed.

Lemma increasing_keys_nodup (l : list A) :
  StronglySorted (fun a b => key a < key b) l -> NoDup (map key l).
Proof.
  induction 1 as [|x l Hs IH Hx]; simpl; constructor; trivial.
  intros Hin. apply list_elem_of_fmap in Hin as (y & E & Hy).
  rewrite Forall_forall in Hx. specialize (Hx y Hy). lia.
Qed.

(** Sorting any rearrangement of a list with increasing keys gives back
    that list. *)
Lemma sorted_rearranged (l l' : list A) :
  Permutation l l' -> StronglySorted (fun a b => key a < key b) l' -> sorted key l = l'.
Proof.
  intros Hp Hs. rewrite (sorted_permutation_invariant l l' Hp).
  - now apply sorted_of_increasing.
  - eapply NoDup_Permutation_proper; [apply Permutation_map; exact Hp|].
    now apply increasing_keys_nodup.
Qed.
End SortedUnique.

Lemma substring_app_suffix (a p : string) :
  substring (String.length a) (String.length p) (a ++ p) = p.
Proof.
  induction a as [|c a IH]; simpl; [|exact IH].
  induction p as [|c p IHp]; simpl; [reflexivity | now rewrite IHp].
Qed.

Lemma length_app_str (a b : string) :
  String.length (a ++ b) = (String.length a + String.length b)%nat.
Proof. induction a; simpl; congruence. Qed.

Lemma endswith_app (a p : string) : endswith p (a ++ p) = true.
Proof.
  unfold endswith. rewrite length_app_str.
  replace (String.length a + String.length p - String.length p)%nat
    with (String.length a) by lia.
  rewrite substring_app_suffix, String.eqb_refl, andb_true_r.
  apply Nat.leb_le. lia.
Qed.

Lemma filter_all {A : Type} (f : A -> bool) (l : list A) :
  Forall (fun x => f x = true) l -> List.filter f l = l.
Proof. induction 1 as [|x l Hx _ IH]; simpl; [reflexivity | now rewrite Hx, IH]. Qed.

Lemma increasing_map_seq {A : Type} (key : A -> Z) (f : nat -> A) (b n : nat) :
  (forall k, key (f k) = Z.of_nat k) ->
  StronglySorted (fun x y => key x < key y) (map f (seq b n)).
Proof.
  intros Hk. revert b; induction n as [|n IH]; intros b; simpl; constructor.
  - apply IH.
  - apply Forall_forall. intros y Hy.
    apply list_elem_of_fmap in Hy as (k & -> & Hkin).
    apply elem_of_seq in Hkin. rewrite !Hk. lia.
Qed.
End FlatText.

Lemma unnumbered_files_come_first_witness :
  GradioLaunch.Book.search_chapter_txt "notes.txt" = None
  /\ 0 < 2
  /\ Py.stands_before
       (GradioLaunch.Book.sorted_files ["chapter_2.txt"; "notes.txt"])
       "notes.txt" (GradioLaunch.chapter_txt_name 2).
Proof.
  split; [reflexivity|]. split; [lia|].
  exact (unnumbered_files_come_first ["chapter_2.txt"; "notes.txt"] "notes.txt" 2
           eq_refl ltac:(lia)).
Defined.


Section ChapterOrder.
Import Py PyMore GradioLaunch.

Lemma chapter_names_sorted (listing : list string) (n : nat) :
  Permutation listing (Stages.chapter_names n) ->
  Book.sorted_files listing = Stages.chapter_names n.
Proof.
  intros Hp. unfold Book.sorted_files.
  rewrite filter_all.
  - apply sorted_rearranged; [exact Hp|].
    apply increasing_map_seq. intros k. apply book_sort_key_chapter. lia.
  - eapply Permutation_Forall; [symmetry; exact Hp|].
    apply Forall_forall. intros f Hf.
    apply list_elem_of_fmap in Hf as (k & -> & _).
    unfold chapter_txt_name. rewrite <- app_assoc_str. apply endswith_app.
Qed.

Lemma audio_names_sorted (listing : list string) (n : nat) :
  Permutation listing (Stages.audio_names n) ->
  M4b.chapter_files M4b.output_audio_directory listing
  = map (path_join M4b.output_audio_directory) (Stages.audio_names n).
Proof.
  intros Hp. unfold M4b.chapter_files.
  rewrite filter_all.
  - apply sorted_rearranged; [now apply Permutation_map|].
    unfold Stages.audio_names. rewrite map_map.
    apply increasing_map_seq. intros k. apply m4b_sort_key_audio; trivial. lia.
  - eapply Permutation_Forall; [symmetry; exact Hp|].
    apply Forall_forall. intros f Hf.
    apply list_elem_of_fmap in Hf as (k & -> & _).
    unfold audio_chapter_name. rewrite <- app_assoc_str. apply endswith_app.
Qed.

(** X3. After segmentation the flat text holds the chapters of the document in
    document order, with the mark between them, whatever the order in which
    the folder lists its chapter files; the chapters are there as a file
    read in text mode gives them, every carriage return, with the line feed
    after it if any, having become one line feed. *)
Theorem flat_text_is_the_document (directory_there : bool) (fs : gmap string string)
    (items : list item) (listing : list string) :
  let st := segmented directory_there fs items in
  Permutation listing (Stages.chapter_names (chapter_counter st)) ->
  Stages.combine_chapters
    (fun f => universal_newlines
                (default EmptyString (seg_fs st !! path_join temp_ebook_dir f)))
    listing
  = join (nl ++ CHAPTER_MARK ++ nl) (map universal_newlines (chapters_of items)).
Proof.
  intros st Hp. unfold Stages.combine_chapters.
  rewrite combine_loop_join by reflexivity. cbn [String.append].
  rewrite (chapter_names_sorted _ _ Hp). f_equal.
  destruct (save_chapters_refines directory_there fs items) as [Hc _ Hf _ _].
  fold st in Hc, Hf.
  rewrite Hc. unfold Stages.chapter_names. rewrite map_map.
  apply list_eq; intros k. rewrite !list_lookup_fmap.
  destruct (chapters_of items !! k) as [c|] eqn:Ek.
  - rewrite lookup_seq_lt by (now apply lookup_lt_Some in Ek). simpl.
    fold (chapter_path k). now rewrite (Hf _ _ Ek).
  - rewrite lookup_seq_ge; [reflexivity|]. now apply lookup_ge_None in Ek.
Qed.
End ChapterOrder.

Lemma flat_text_is_the_document_witness :
  let doc := fun text => {| GradioLaunch.get_type := GradioLaunch.ITEM_DOCUMENT;
                            GradioLaunch.get_text := text |} in
  let items := [doc ("Title" ++ String "013" Py.nl ++ "Page"); doc "Preface"] in
  let st := GradioLaunch.segmented false ∅ items in
  Permutation ["chapter_0.txt"] (Stages.chapter_names (GradioLaunch.chapter_counter st))
  /\ Stages.combine_chapters
       (fun f => Py.universal_newlines
                   (default EmptyString
                      (GradioLaunch.seg_fs st !! Py.path_join GradioLaunch.temp_ebook_dir f)))
       ["chapter_0.txt"]
     = "Title" ++ Py.nl ++ "Page" ++ Py.nl ++ "Preface".
Proof.
  intros doc items st.
  assert (Hp : Permutation ["chapter_0.txt"]
                 (Stages.chapter_names (GradioLaunch.chapter_counter st)))
    by reflexivity.
  split; [exact Hp|].
  exact (flat_text_is_the_document false ∅ items ["chapter_0.txt"] Hp).
Defined.

(** * Chapter audio, chapter markers and the muxer, once more *)

Section M4bFacts.
Import Py PyMore GradioLaunch.
Variable exit_status : nat -> list string -> Z.
Variable str_exc : list string -> Z -> string.
Variable from_wav : string -> M4b.AudioSegment.
Variable duration_ms : string -> Z.

Lemma total_app (a b : list Z) : M4b.total (a ++ b) = M4b.total a + M4b.total b.
Proof. unfold M4b.total. induction a as [|x a IH]; simpl; lia. Qed.

Lemma metadata_loop_app (files : list string) (f : string) (index : nat)
    (start_time : Z) (file : string) :
  M4b.metadata_loop duration_ms (files ++ [f]) index start_time file
  = M4b.metadata_loop duration_ms files index start_time file
    ++ M4b.marker_entry
         (start_time + M4b.total (map duration_ms files))
         (start_time + M4b.total (map duration_ms files) + duration_ms f)
         (Z.of_nat (index + List.length files) + 1).
Proof.
  revert index start_time file; induction files as [|g files IH];
    intros index start_time file.
  - cbn [app M4b.metadata_loop map M4b.total foldr List.length].
    rewrite two_writes, Z.add_0_r, Nat.add_0_r. reflexivity.
  - cbn [app M4b.metadata_loop]. rewrite IH.
    cbn [map M4b.total foldr List.length]. fold (M4b.total (map duration_ms files)).
    replace (start_time + duration_ms g + M4b.total (map duration_ms files))
      with (start_time + (duration_ms g + M4b.total (map duration_ms files))) by lia.
    replace (Z.of_nat (S index + List.length files))
      with (Z.of_nat (index + S (List.length files))) by lia.
    reflexivity.
Qed.

(** X4. One more chapter adds one marker at the end of the metadata: it starts
    where the chapters before it end, at the sum of their durations, lasts
    the duration of the chapter, and carries the next chapter number. *)
Theorem metadata_grows_by_one_marker (chapter_files : list string) (f : string) :
  M4b.generate_ffmpeg_metadata duration_ms (chapter_files ++ [f])
  = M4b.generate_ffmpeg_metadata duration_ms chapter_files
    ++ M4b.marker_entry
         (M4b.total (map duration_ms chapter_files))
         (M4b.total (map duration_ms chapter_files) + duration_ms f)
         (Z.of_nat (List.length chapter_files) + 1).
Proof. unfold M4b.generate_ffmpeg_metadata. now rewrite metadata_loop_app. Qed.

Lemma combine_fold (files : list string) (acc : M4b.AudioSegment) :
  fold_left (fun (combined_audio : M4b.AudioSegment) chapter_file =>
               (combined_audio ++ from_wav chapter_file)%list) files acc
  = (acc ++ concat (map from_wav files))%list.
Proof.
  revert acc; induction files as [|f files IH]; intros acc; simpl.
  - now rewrite app_nil_r.
  - now rewrite IH, <- app_assoc.
Qed.

(** X5. The combined audio is the audio of the chapter files one after the
    other, in the order given: nothing for no file, and the audio of two
    groups of files is the audio of the first followed by that of the
    second. *)
Theorem combined_audio_in_order (files more : list string) :
  M4b.combine_wav_files from_wav files = concat (map from_wav files)
  /\ M4b.combine_wav_files from_wav (files ++ more)
     = (M4b.combine_wav_files from_wav files ++ M4b.combine_wav_files from_wav more)%list.
Proof.
  unfold M4b.combine_wav_files. rewrite !combine_fold. simpl.
  split; [reflexivity|]. now rewrite map_app, concat_app.
Qed.

Variables (combined_wav metadata_file output_m4b : string) (cover_image : option string).

(** X6. The ffmpeg commands [create_m4b] runs from any point of the program,
    for an output path in a folder: level 1 alone when it exits zero;
    levels 1 and 2 when level 1 fails and level 2 exits zero; else all
    four.  It never stops after three.  For an output path without a
    folder it runs none: making the folder raises. *)
Theorem create_m4b_commands (w : world) :
  let n := List.length (run_log w) in
  let c1 := mux_cmd1 combined_wav metadata_file cover_image output_m4b in
  let c2 := mux_cmd2 combined_wav cover_image in
  let c3 := mux_cmd3 combined_wav in
  let c4 := mux_cmd4 combined_wav output_m4b in
  let run := create_m4b exit_status str_exc combined_wav metadata_file cover_image
               output_m4b w in
  (truthy (dirname output_m4b) = true ->
   fst run = Returns
   /\ run_log (snd run)
      = (run_log w
         ++ if exit_status n c1 =? 0 then [c1]
            else if exit_status (S n) c2 =? 0 then [c1; c2]
            else [c1; c2; c3; c4])%list)
  /\ (truthy (dirname output_m4b) = false -> run = (Raises, w)).
Proof.
  intros n c1 c2 c3 c4 run. subst run. split; [|apply create_m4b_raises].
  intros Hdir. unfold create_m4b, subprocess_run. rewrite Hdir. simpl.
  fold n c1 c2 c3 c4.
  destruct (exit_status n c1 =? 0); [split; reflexivity|].
  assert (E : forall line, List.length (run_log (print line w) ++ [c1])%list = S n)
    by (intros; simpl; rewrite length_app; simpl; subst n; lia).
  destruct (truthy_opt cover_image); simpl; rewrite ?length_app; simpl;
    replace (List.length (run_log w) + 1)%nat with (S n) by (subst n; lia);
    (destruct (exit_status (S n) c2 =? 0); [split; [reflexivity | now rewrite <- app_assoc]|]);
    simpl;
    match goal with |- context [exit_status ?k c3 =? 0] => destruct (exit_status k c3 =? 0) end;
    simpl;
    match goal with |- context [exit_status ?k c4 =? 0] => destruct (exit_status k c4 =? 0) end;
    simpl; (split; [reflexivity | now rewrite <- !app_assoc]).
Qed.

(** X7. Whenever [create_m4b] returns, the last line it printed says that the
    M4B file was created, whatever the four attempts did: when every run
    of ffmpeg fails, the lines printed are those of the three fallbacks and
    of the failed last attempt, and then this one.  Only for an output path
    without a folder is nothing printed, the function being left by an
    exception. *)
Theorem create_m4b_always_reports_success (w : world) :
  let c4 := mux_cmd4 combined_wav output_m4b in
  let run := create_m4b exit_status str_exc combined_wav metadata_file cover_image
               output_m4b w in
  (truthy (dirname output_m4b) = true ->
   fst run = Returns
   /\ last (stdout (snd run)) = Some ("M4B file created successfully at " ++ output_m4b)
   /\ ((forall n cmd, exit_status n cmd <> 0) ->
       stdout (snd run)
       = (stdout w
          ++ ["Metadata adding didn't work trying with only the cover art and no Metadata."]
          ++ (if truthy_opt cover_image then ["Found Cover art"] else [])
          ++ ["Cover art adding didn't work, trying without any metadata or cover art.";
              "Failed to create M4B file. Trying to at least save the audio.";
              ("Final attempt failed: "
               ++ str_exc c4 (exit_status (List.length (run_log w) + 3) c4))%string;
              ("M4B file created successfully at " ++ output_m4b)%string])%list))
  /\ (truthy (dirname output_m4b) = false -> run = (Raises, w)).
Proof.
  intros c4 run. subst run. split; [|apply create_m4b_raises].
  intros Hdir. unfold create_m4b. rewrite Hdir. cbn [negb].
  split; [now destruct (subprocess_run _ _ _) as [rc1 w1]|].
  split; [destruct (subprocess_run _ _ _) as [rc1 w1]; apply last_snoc|].
  intros Hfail. unfold subprocess_run. fold c4.
  assert (Hne : forall n cmd, (exit_status n cmd =? 0) = false)
    by (intros n cmd; apply Z.eqb_neq, Hfail).
  simpl. rewrite !Hne. simpl.
  destruct (truthy_opt cover_image); simpl; rewrite !length_app; simpl;
    replace (List.length (run_log w) + 1 + 1 + 1)%nat
      with (List.length (run_log w) + 3)%nat by lia;
    now rewrite <- !app_assoc.
Qed.

Lemma create_m4b_first (w : world) :
  truthy (dirname output_m4b) = true ->
  exists rest,
    run_log (snd (create_m4b exit_status str_exc combined_wav metadata_file cover_image
                    output_m4b w))
    = (run_log w ++ mux_cmd1 combined_wav metadata_file cover_image output_m4b :: rest)%list.
Proof.
  intros Hdir. unfold create_m4b, subprocess_run. rewrite Hdir. simpl.
  destruct (exit_status _ _ =? 0); [now exists []|].
  destruct (truthy_opt cover_image); simpl;
    (destruct (exit_status _ _ =? 0); [eexists; now rewrite <- app_assoc|]); simpl;
    destruct (exit_status _ (mux_cmd3 _) =? 0); simpl;
    destruct (exit_status _ (mux_cmd4 _ _) =? 0); simpl;
    eexists; now rewrite <- !app_assoc.
Qed.
End M4bFacts.

Lemma create_m4b_commands_witness :
  let exit_status := fun (n : nat) (_ : list string) => if (n =? 1)%nat then 0 else 1 in
  let run := GradioLaunch.create_m4b exit_status (fun _ _ => EmptyString)
               "/tmp/combined.wav" "/tmp/metadata.txt" None "./Audiobooks/book.m4b"
               GradioLaunch.world0 in
  Py.truthy (Py.dirname "./Audiobooks/book.m4b") = true
  /\ GradioLaunch.run_log (snd run)
     = [GradioLaunch.mux_cmd1 "/tmp/combined.wav" "/tmp/metadata.txt" None
          "./Audiobooks/book.m4b";
        GradioLaunch.mux_cmd2 "/tmp/combined.wav" None].
Proof.
  intros exit_status run. split; [reflexivity|].
  exact (proj2 (proj1 (create_m4b_commands exit_status (fun _ _ => EmptyString)
                         "/tmp/combined.wav" "/tmp/metadata.txt" "./Audiobooks/book.m4b"
                         None GradioLaunch.world0) eq_refl)).
Defined.

Lemma create_m4b_always_reports_success_witness :
  let run := GradioLaunch.create_m4b (fun _ _ => 1) (fun _ _ => "exit status 1")
               "/tmp/combined.wav" "/tmp/metadata.txt" None "./Audiobooks/book.m4b"
               GradioLaunch.world0 in
  (Py.truthy (Py.dirname "./Audiobooks/book.m4b") = true
   /\ forall (n : nat) (cmd : list string), (fun _ _ => 1) n cmd <> 0)
  /\ GradioLaunch.stdout (snd run)
     = ["Metadata adding didn't work trying with only the cover art and no Metadata.";
        "Cover art adding didn't work, trying without any metadata or cover art.";
        "Failed to create M4B file. Trying to at least save the audio.";
        "Final attempt failed: exit status 1";
        "M4B file created successfully at ./Audiobooks/book.m4b"].
Proof.
  intros run.
  assert (Hfail : forall (n : nat) (cmd : list string), (fun _ _ => 1) n cmd <> 0)
    by (intros; discriminate).
  split; [split; [reflexivity | exact Hfail]|].
  exact (proj2 (proj2 (proj1 (create_m4b_always_reports_success (fun _ _ => 1)
                                 (fun _ _ => "exit status 1")
                                 "/tmp/combined.wav" "/tmp/metadata.txt"
                                 "./Audiobooks/book.m4b" None GradioLaunch.world0)
                                eq_refl)) Hfail).
Defined.

(** * Sanitizing and synthesis, once more *)

Section SanitizeFacts.
Import Py PyMore GradioLaunch.

Lemma replace_absent (fuel : nat) (s : string) :
  (forall k : nat, ~ occurs_at s "--" k) -> replace_fuel fuel "--" " " s = s.
Proof.
  revert s; induction fuel as [|f IH]; intros s Hno; [reflexivity|].
  destruct s as [|c r]; [reflexivity|]. cbn [replace_fuel].
  destruct (startswith "--" (String c r)) eqn:Hsw.
  - exfalso. apply (Hno 0%nat). now apply occurs_at_head.
  - f_equal. apply IH. intros k Hk. apply (Hno (S k)). now apply occurs_at_tail.
Qed.

(** X8. A sentence with no double hyphen, no double quote and no apostrophe is
    its own sanitized form: the retry then repeats the command that just
    failed. *)
Theorem sanitize_keeps_clean_sentences (sentence speed pitch voice wav : string) :
  find sentence "--" = -1 ->
  has_char quote_char sentence = false ->
  has_char apostrophe_char sentence = false ->
  sanitize_sentence sentence = sentence
  /\ espeak_cmd speed pitch voice wav (sanitize_sentence sentence)
     = espeak_cmd speed pitch voice wav sentence.
Proof.
  intros Hf Hq Ha.
  assert (E : sanitize_sentence sentence = sentence).
  { unfold sanitize_sentence, replace. rewrite replace_absent.
    - now rewrite (remove_absent_char _ _ Hq), (remove_absent_char _ _ Ha).
    - destruct (find_first_match sentence "--") as [[_ Hno] | (Hpos & _)];
        [exact Hno | lia]. }
  now rewrite E.
Qed.
End SanitizeFacts.

Lemma sanitize_keeps_clean_sentences_witness :
  Py.find "Call me Ishmael." "--" = -1
  /\ GradioLaunch.sanitize_sentence "Call me Ishmael." = "Call me Ishmael.".
Proof.
  split; [reflexivity|].
  exact (proj1 (sanitize_keeps_clean_sentences "Call me Ishmael." "170" "50" "en" "t.wav"
                  eq_refl eq_refl eq_refl)).
Defined.

Section SynthesisMore.
Import Py PyMore GradioLaunch.
Variable espeak_ng : nat -> list string -> Z * string.
Variable str_exc : list string -> Z -> string.
Variable temp_name : nat -> string.
Variable from_wav : string -> M4b.AudioSegment.
Variables (speed pitch voice : string).

#[local] Abbreviation step' :=
  (synth_sentence espeak_ng str_exc temp_name from_wav speed pitch voice).

Lemma step_commands (st : synth) (sentence : string) :
  let n := List.length (run_log (syn_world st)) in
  let c1 := espeak_cmd speed pitch voice (temp_name (temp_count st)) sentence in
  let c2 := espeak_cmd speed pitch voice (temp_name (temp_count st))
              (sanitize_sentence sentence) in
  temp_count (step' st sentence) = S (temp_count st)
  /\ if fst (espeak_ng n c1) =? 0
     then run_log (syn_world (step' st sentence)) = (run_log (syn_world st) ++ [c1])%list
     else run_log (syn_world (step' st sentence)) = (run_log (syn_world st) ++ [c1; c2])%list
          /\ ((fst (espeak_ng (S n) c2) =? 0) = false ->
              combined_audio (step' st sentence) = combined_audio st).
Proof.
  intros n c1 c2. unfold synth_sentence, run_espeak. simpl. fold n c1.
  destruct (espeak_ng n c1) as [rc1 wav1]. simpl.
  destruct (rc1 =? 0).
  - simpl. destruct (0 <? Z.of_nat (String.length wav1)); simpl; auto.
  - rewrite length_app. simpl. replace (List.length (run_log (syn_world st)) + 1)%nat
      with (S n) by (subst n; lia). fold c2.
    destruct (espeak_ng (S n) c2) as [rc2 wav2]. simpl.
    destruct (rc2 =? 0); simpl.
    + destruct (0 <? Z.of_nat (String.length wav2)); simpl;
        rewrite <- app_assoc; repeat split; discriminate.
    + rewrite <- app_assoc. repeat split.
Qed.

(** X9. A chapter of n sentences costs between n and 2n runs of espeak-ng. *)
Theorem synthesis_runs_between_n_and_2n (sentences : list string) (w : world) :
  let res := convert_sentences espeak_ng str_exc temp_name from_wav speed pitch voice
               sentences w in
  (List.length (run_log w) + List.length sentences
   <= List.length (run_log (syn_world res))
   <= List.length (run_log w) + 2 * List.length sentences)%nat.
Proof.
  intros res. subst res. unfold convert_sentences.
  change (run_log w) with (run_log (syn_world (synth0 w))).
  generalize (synth0 w) as st.
  induction sentences as [|s rest IH]; intros st; simpl; [lia|].
  specialize (IH (step' st s)).
  destruct (step_commands st s) as [_ H].
  destruct (fst (espeak_ng _ _) =? 0).
  - rewrite H, length_app in IH. simpl in IH. lia.
  - destruct H as [H _]. rewrite H, length_app in IH. simpl in IH. lia.
Qed.

(** X10. When espeak-ng fails on every run, each sentence is tried twice, no
    audio is kept, and the chapter audio is empty: the chapter is exported
    all the same. *)
Theorem all_failures_give_empty_chapter (sentences : list string) (w : world) :
  (forall n cmd, fst (espeak_ng n cmd) <> 0) ->
  let res := convert_sentences espeak_ng str_exc temp_name from_wav speed pitch voice
               sentences w in
  combined_audio res = []
  /\ List.length (run_log (syn_world res))
     = (List.length (run_log w) + 2 * List.length sentences)%nat.
Proof.
  intros Hfail res. subst res. unfold convert_sentences.
  change (run_log w) with (run_log (syn_world (synth0 w))).
  assert (H0 : combined_audio (synth0 w) = []) by reflexivity. revert H0.
  generalize (synth0 w) as st.
  induction sentences as [|s rest IH]; intros st H0; simpl; [split; [exact H0 | lia]|].
  destruct (step_commands st s) as [_ H].
  destruct (Z.eqb_spec (fst (espeak_ng (List.length (run_log (syn_world st)))
                               (espeak_cmd speed pitch voice (temp_name (temp_count st)) s))) 0)
    as [E|_]; [now apply Hfail in E|].
  destruct H as [Hlog Haudio].
  specialize (IH (step' st s)). rewrite Hlog, length_app in IH. simpl in IH.
  destruct IH as [IH1 IH2].
  - rewrite Haudio; [exact H0|]. apply Z.eqb_neq, Hfail.
  - split; [exact IH1 | lia].
Qed.
End SynthesisMore.

Lemma all_failures_give_empty_chapter_witness :
  let espeak := fun (_ : nat) (_ : list string) => (1, EmptyString) in
  (forall n cmd, fst (espeak n cmd) <> 0)
  /\ GradioLaunch.combined_audio
       (GradioLaunch.convert_sentences espeak (fun _ _ => EmptyString)
          (fun _ => "t.wav") (fun _ => [1; 2]) "170" "50" "en" ["Hi."; "Bye."]
          GradioLaunch.world0) = [].
Proof.
  intros espeak.
  assert (H : forall n cmd, fst (espeak n cmd) <> 0) by (intros; simpl; lia).
  split; [exact H|].
  exact (proj1 (all_failures_give_empty_chapter espeak (fun _ _ => EmptyString)
                  (fun _ => "t.wav") (fun _ => [1; 2]) "170" "50" "en" ["Hi."; "Bye."]
                  GradioLaunch.world0 H)).
Defined.

Section SynthesisVerbatim.
Import Py PyMore GradioLaunch.
Variable espeak_ng : nat -> list string -> Z * string.
Variable str_exc : list string -> Z -> string.
Variable temp_name : nat -> string.
Variable from_wav : string -> M4b.AudioSegment.
Variables (speed pitch voice : string).

Lemma fold_verbatim (sentences : list string) (st : synth) :
  (forall n cmd, fst (espeak_ng n cmd) = 0) ->
  run_log (syn_world (fold_left
                        (synth_sentence espeak_ng str_exc temp_name from_wav speed pitch voice)
                        sentences st))
  = (run_log (syn_world st)
     ++ imap (fun k s => espeak_cmd speed pitch voice (temp_name (temp_count st + k)) s)
             sentences)%list.
Proof.
  intros Hok. revert st; induction sentences as [|s rest IH]; intros st.
  - simpl. now rewrite app_nil_r.
  - cbn [fold_left imap]. rewrite IH.
    destruct (step_commands espeak_ng str_exc temp_name from_wav speed pitch voice st s)
      as [Ht H].
    rewrite Hok in H. simpl in H. rewrite H, Ht, <- app_assoc, Nat.add_0_r. simpl.
    do 2 f_equal. apply imap_ext. intros k x _. simpl. do 2 f_equal. lia.
Qed.

(** X11. When espeak-ng never fails, it is run once per sentence, in order, on
    the sentence as the tokenizer gave it: the sanitized text is never
    used. *)
Theorem no_failure_no_sanitizing (sentences : list string) (w : world) :
  (forall n cmd, fst (espeak_ng n cmd) = 0) ->
  run_log (syn_world (convert_sentences espeak_ng str_exc temp_name from_wav
                        speed pitch voice sentences w))
  = (run_log w
     ++ imap (fun k s => espeak_cmd speed pitch voice (temp_name k) s) sentences)%list.
Proof. intros Hok. unfold convert_sentences. now rewrite fold_verbatim. Qed.
End SynthesisVerbatim.

Lemma no_failure_no_sanitizing_witness :
  let espeak := fun (_ : nat) (_ : list string) => (0, "RIFF") in
  (forall n cmd, fst (espeak n cmd) = 0)
  /\ GradioLaunch.run_log
       (GradioLaunch.syn_world
          (GradioLaunch.convert_sentences espeak (fun _ _ => EmptyString)
             (fun k => "t" ++ Py.str_int (Z.of_nat k)) (fun _ => [1; 2]) "170" "50" "en"
             ["It's."; "Bye."] GradioLaunch.world0))
     = [["espeak-ng"; "-v"; "en"; "-w"; "t0"; "-s170"; "-p50"; "It's."];
        ["espeak-ng"; "-v"; "en"; "-w"; "t1"; "-s170"; "-p50"; "Bye."]].
Proof.
  intros espeak.
  assert (H : forall n cmd, fst (espeak n cmd) = 0) by reflexivity.
  split; [exact H|].
  exact (no_failure_no_sanitizing espeak (fun _ _ => EmptyString)
           (fun k => "t" ++ Py.str_int (Z.of_nat k)) (fun _ => [1; 2]) "170" "50" "en"
           ["It's."; "Bye."] GradioLaunch.world0 H).
Defined.

(** * The file-name patterns *)

Section Patterns.
Import Py PyMore GradioLaunch.

Lemma span_digits_spec (s : string) :
  s = fst (span_digits s) ++ snd (span_digits s)
  /\ all_digits (fst (span_digits s)) = true
  /\ digit_free_head (snd (span_digits s)) = true.
Proof.
  induction s as [|c r IH]; simpl; [auto|].
  destruct (is_digit c) eqn:Hc.
  - destruct (span_digits r) as [d rest]. simpl in *.
    destruct IH as (E & Hd & Hr). rewrite Hc, Hd, <- E. auto.
  - simpl. rewrite Hc. auto.
Qed.

Lemma drop_app_length (a b : string) : drop (String.length a) (a ++ b) = b.
Proof. induction a; simpl; trivial. Qed.

Lemma substring_all (s : string) : substring 0 (String.length s) s = s.
Proof. induction s; simpl; congruence. Qed.

(** Inside a run of digits, what is left starts with a digit. *)
Lemma drop_in_digits (d rest : string) (j : nat) :
  all_digits d = true -> (j < String.length d)%nat ->
  exists c r, drop j (d ++ rest) = String c r /\ is_digit c = true.
Proof.
  revert j; induction d as [|c d IH]; intros j Hd Hj; simpl in *; [lia|].
  apply andb_prop in Hd as [Hc Hd].
  destruct j as [|j]; [eauto|]. apply IH; [exact Hd | lia].
Qed.
End Patterns.

Section PatternFacts.
Import Py PyMore GradioLaunch.

Lemma longest_first_none {R : Type} (try : nat -> option R) (n : nat) :
  (forall j, (1 <= j <= n)%nat -> try j = None) -> longest_first try n = None.
Proof.
  induction n as [|n IH]; intros H; [reflexivity|].
  cbn [longest_first]. rewrite (H (S n)) by lia. apply IH. intros j Hj. apply H. lia.
Qed.

Lemma longest_first_top {R : Type} (try : nat -> option R) (n : nat) :
  (forall j, (1 <= j < n)%nat -> try j = None) ->
  longest_first try n = match n with O => None | S _ => try n end.
Proof.
  intros H. destruct n as [|n]; [reflexivity|]. cbn [longest_first].
  destruct (try (S n)); [reflexivity|]. apply longest_first_none. intros j Hj. apply H. lia.
Qed.

(** At a given start the escaped pattern matches by the whole digit run or
    not at all. *)
Lemma escaped_pattern_at (s : string) :
  match_here [Lit "chapter_"; Digits; Lit ".txt"] s None
  = Some <$> Book.match_chapter_txt_at s.
Proof.
  unfold Book.match_chapter_txt_at. cbn [match_here].
  destruct (startswith "chapter_" s); [|reflexivity].
  change (String.length "chapter_") with 8%nat.
  destruct (span_digits_spec (drop 8 s)) as (E & Hd & Hr).
  destruct (span_digits (drop 8 s)) as [d rest]. cbn [fst snd] in *.
  rewrite longest_first_top.
  - destruct d as [|c d]; [reflexivity|].
    cbv beta iota. rewrite E, drop_app_length, substring_all.
    cbn [match_here truthy andb]. destruct (startswith ".txt" rest); reflexivity.
  - intros j Hj. rewrite E.
    destruct (drop_in_digits d rest j Hd) as (c & r & -> & Hc); [lia|].
    cbn [startswith].
    destruct (Ascii.eqb_spec "."%char c) as [<-|]; [discriminate Hc | reflexivity].
Qed.

(** X12. [re.search(r'chapter_(\d+)\.txt', name)] never gives back a digit: under
    the backtracking rules of the matcher, the number it captures is, at the
    leftmost start that matches, the whole run of digits after [chapter_]. *)
Theorem escaped_pattern_takes_whole_number (filename : string) :
  search [Lit "chapter_"; Digits; Lit ".txt"] filename
  = Some <$> Book.search_chapter_txt filename.
Proof.
  induction filename as [|c r IH].
  - reflexivity.
  - cbn [search Book.search_chapter_txt]. rewrite escaped_pattern_at.
    destruct (Book.match_chapter_txt_at (String c r)); [reflexivity | exact IH].
Qed.

Lemma search_found (p : list atom) (s : string) (g : option string) :
  match_here p s None = Some g -> search p s = Some g.
Proof. intros H. destruct s; simpl; now rewrite H. Qed.

(** The unescaped pattern of the synthesis loop reads the number of a
    chapter file. *)
Lemma chapter_num_name (n : Z) :
  0 <= n -> Stages.chapter_num (chapter_txt_name n) = Some n.
Proof.
  intros Hn. unfold Stages.chapter_num, chapter_txt_name, Stages.chapter_pattern.
  assert (E : match_here [Lit "chapter_"; Digits; AnyChar; Lit "txt"]
                ("chapter_" ++ str_int n ++ ".txt") None = Some (Some (str_int n))).
  { cbn [match_here]. change (startswith "chapter_" _) with true. cbv iota.
    change (drop (String.length "chapter_") ("chapter_" ++ str_int n ++ ".txt"))
      with (str_int n ++ ".txt").
    rewrite (span_digits_app (str_int n) ".txt") by auto using str_int_digits.
    cbn [fst]. pose proof (str_int_truthy n) as Ht.
    destruct (str_int n) as [|c d] eqn:Es; [discriminate|].
    cbn [String.length longest_first]. rewrite <- Es.
    replace (S (String.length d)) with (String.length (str_int n)) by (now rewrite Es).
    rewrite drop_app_length, substring_all. reflexivity. }
  rewrite (search_found _ _ _ E). f_equal. now apply int_of_str_int.
Qed.
Lemma match_at_digit_head (c : ascii) (r : string) :
  is_digit c = true -> Book.match_chapter_txt_at (String c r) = None.
Proof.
  intros Hc. unfold Book.match_chapter_txt_at. cbn [startswith].
  destruct (Ascii.eqb_spec "c"%char c) as [<-|]; [discriminate Hc | reflexivity].
Qed.

Lemma search_no_match_here (a : ascii) (r : string) :
  Book.match_chapter_txt_at (String a r) = None ->
  Book.search_chapter_txt (String a r) = Book.search_chapter_txt r.
Proof. intros H. cbn [Book.search_chapter_txt]. now rewrite H. Qed.

Lemma search_other_head (a : ascii) (r : string) :
  Ascii.eqb "c"%char a = false ->
  Book.search_chapter_txt (String a r) = Book.search_chapter_txt r.
Proof.
  intros H. cbn [Book.search_chapter_txt]. unfold Book.match_chapter_txt_at at 1.
  cbn [startswith]. now rewrite H.
Qed.

Lemma search_skip_digits (d s : string) :
  all_digits d = true -> Book.search_chapter_txt (d ++ s) = Book.search_chapter_txt s.
Proof.
  induction d as [|c d IH]; intros Hd; [reflexivity|].
  simpl in Hd. apply andb_prop in Hd as [Hc Hd].
  cbn [String.append Book.search_chapter_txt]. rewrite match_at_digit_head by trivial.
  now apply IH.
Qed.

(** X13. The two patterns of the program disagree.  The pattern of the synthesis
    loop has an unescaped dot, so a name with any other character between
    the number and txt is synthesized as the chapter of that number, while
    the pattern that orders the flat text finds no number in it and gives
    it the key 0. *)
Theorem patterns_disagree_on_the_dot (d output_audio_dir : string) (c : ascii) :
  all_digits d = true -> truthy d = true ->
  is_digit c = false -> c <> "010"%char -> c <> "."%char ->
  let name := "chapter_" ++ d ++ String c "txt.txt" in
  Stages.exported_path output_audio_dir name
  = Some (path_join output_audio_dir (audio_chapter_name (int_of_digits d)))
  /\ Book.sort_key name = 0.
Proof.
  intros Hd Ht Hc Hnl Hdot name. subst name.
  assert (Hspan : span_digits (d ++ String c "txt.txt") = (d, String c "txt.txt")).
  { apply span_digits_app; [exact Hd|]. unfold digit_free_head. now rewrite Hc. }
  split.
  - unfold Stages.exported_path.
    replace (endswith ".txt" ("chapter_" ++ d ++ String c "txt.txt")) with true.
    2:{ symmetry.
        replace ("chapter_" ++ d ++ String c "txt.txt")
          with (("chapter_" ++ d ++ String c "txt") ++ ".txt")
          by (now rewrite !app_assoc_str).
        apply endswith_app. }
    unfold Stages.chapter_num, Stages.chapter_pattern.
    assert (E : match_here [Lit "chapter_"; Digits; AnyChar; Lit "txt"]
                  ("chapter_" ++ d ++ String c "txt.txt") None = Some (Some d)).
    { cbn [match_here]. change (startswith "chapter_" _) with true. cbv iota.
      change (drop (String.length "chapter_") ("chapter_" ++ d ++ String c "txt.txt"))
        with (d ++ String c "txt.txt").
      rewrite Hspan. cbn [fst].
      destruct d as [|x d'] eqn:Ed; [discriminate|].
      cbn [String.length longest_first]. rewrite <- Ed.
      replace (S (String.length d')) with (String.length d) by (now rewrite Ed).
      rewrite drop_app_length, substring_all.
      destruct (Ascii.eqb_spec c "010"%char) as [->|_]; [contradiction | reflexivity]. }
    now rewrite (search_found _ _ _ E).
  - unfold Book.sort_key.
    assert (E0 : Book.match_chapter_txt_at ("chapter_" ++ d ++ String c "txt.txt") = None).
    { unfold Book.match_chapter_txt_at. change (startswith "chapter_" _) with true. cbv iota.
      change (drop 8 ("chapter_" ++ d ++ String c "txt.txt")) with (d ++ String c "txt.txt").
      rewrite Hspan. cbn [startswith].
      destruct (Ascii.eqb_spec "."%char c) as [<-|_]; [contradiction|].
      now rewrite andb_false_r. }
    assert (E1 : Book.search_chapter_txt (String c "txt.txt") = None).
    { cbn [Book.search_chapter_txt]. unfold Book.match_chapter_txt_at at 1.
      cbn [startswith]. destruct (Ascii.eqb "c"%char c); reflexivity. }
    replace (Book.search_chapter_txt ("chapter_" ++ d ++ String c "txt.txt")) with (@None string);
      [reflexivity|].
    symmetry. rewrite <- E1, <- (search_skip_digits d (String c "txt.txt") Hd).
    set (s := d ++ String c "txt.txt") in *.
    change ("chapter_" ++ s) with
      (String "c" (String "h" (String "a" (String "p" (String "t" (String "e"
         (String "r" (String "_" s)))))))) in *.
    rewrite (search_no_match_here _ _ E0).
    do 7 (rewrite search_other_head by reflexivity). reflexivity.
Qed.
End PatternFacts.

Lemma patterns_disagree_on_the_dot_witness :
  (Py.all_digits "7" = true /\ Py.truthy "7" = true /\ Py.is_digit "_" = false
   /\ "_"%char <> "010"%char /\ "_"%char <> "."%char)
  /\ Stages.exported_path "out" "chapter_7_txt.txt" = Some "out/audio_chapter_7.wav"
  /\ GradioLaunch.Book.sort_key "chapter_7_txt.txt" = 0.
Proof.
  assert (H1 : "_"%char <> "010"%char) by discriminate.
  assert (H2 : "_"%char <> "."%char) by discriminate.
  split; [repeat split; assumption|].
  exact (patterns_disagree_on_the_dot "7" "out" "_" eq_refl eq_refl eq_refl H1 H2).
Defined.


(** * The sentence table over a folder *)

Section TableFacts.
Import Py PyMore GradioLaunch.

Lemma split_aux_plain (sep : ascii) (a cur : string) :
  has_char sep a = false -> split_aux sep a cur = [cur ++ a].
Proof.
  revert cur; induction a as [|c a IH]; intros cur H; simpl in *.
  - now rewrite app_empty_r.
  - apply orb_false_elim in H as [Hc Ha]. rewrite Hc, IH by trivial.
    now rewrite app_assoc_str.
Qed.

Lemma split_aux_sep (sep : ascii) (a b cur : string) :
  has_char sep a = false ->
  split_aux sep (a ++ String sep b) cur = (cur ++ a) :: split_aux sep b EmptyString.
Proof.
  revert cur; induction a as [|c a IH]; intros cur H; simpl in *.
  - now rewrite Ascii.eqb_refl, app_empty_r.
  - apply orb_false_elim in H as [Hc Ha]. rewrite Hc, IH by trivial.
    now rewrite app_assoc_str.
Qed.

Lemma digits_lack (c : ascii) (d : string) :
  is_digit c = false -> all_digits d = true -> has_char c d = false.
Proof.
  intros Hc. induction d as [|a d IH]; simpl; trivial. intros H.
  apply andb_prop in H as [Ha Hd]. rewrite IH by trivial.
  destruct (Ascii.eqb_spec a c) as [->|]; [congruence | reflexivity].
Qed.

Lemma has_char_app (c : ascii) (a b : string) :
  has_char c (a ++ b) = has_char c a || has_char c b.
Proof. induction a as [|x a IH]; simpl; trivial. now rewrite IH, orb_assoc. Qed.

Lemma digit_not_int_space (c : ascii) : is_digit c = true -> int_space c = false.
Proof.
  unfold is_digit, int_space. intros H. apply andb_prop in H as [H1 H2].
  apply Nat.leb_le in H1, H2.
  repeat match goal with
         | |- context [(?a <=? ?b)%nat] => destruct (Nat.leb_spec a b); try lia
         | |- context [(?a =? ?b)%nat] => destruct (Nat.eqb_spec a b); try lia
         end; reflexivity.
Qed.

Lemma int_rstrip_digits (d : string) : all_digits d = true -> int_rstrip d = d.
Proof.
  induction d as [|c d IH]; simpl; trivial. intros H.
  apply andb_prop in H as [Hc Hd]. rewrite IH by trivial.
  destruct d; [now rewrite (digit_not_int_space _ Hc) | reflexivity].
Qed.

Lemma int_strip_digits (d : string) :
  all_digits d = true -> int_rstrip (int_lstrip d) = d.
Proof.
  intros H.
  replace (int_lstrip d) with d; [now apply int_rstrip_digits|].
  destruct d as [|c d]; [reflexivity|]. simpl in *.
  apply andb_prop in H as [Hc _]. now rewrite (digit_not_int_space _ Hc).
Qed.

Lemma int_digits_all (d : string) (acc : Z) (after_digit : bool) :
  all_digits d = true -> truthy d || after_digit = true ->
  int_digits d acc after_digit = Some (int_acc d acc).
Proof.
  revert acc after_digit; induction d as [|c d IH]; intros acc b Hd Hb; simpl in *.
  - now rewrite Hb.
  - apply andb_prop in Hd as [Hc Hd]. rewrite Hc. apply IH; trivial.
    now rewrite orb_true_r.
Qed.

(** [int(str(n)) = n], read by the general [int]. *)
Lemma int_str_int (n : Z) : 0 <= n -> int (str_int n) = inr n.
Proof.
  intros Hn. unfold int. rewrite int_strip_digits by auto using str_int_digits.
  pose proof (str_int_digits n Hn) as Hd. pose proof (str_int_truthy n) as Ht.
  pose proof (int_of_str_int n Hn) as Hv. unfold int_of_digits in Hv.
  destruct (str_int n) as [|c d]; [discriminate|].
  assert (Hc : is_digit c = true) by (simpl in Hd; now apply andb_prop in Hd as [? _]).
  destruct (Ascii.eqb_spec c "+"%char) as [->|_]; [discriminate Hc|].
  destruct (Ascii.eqb_spec c "-"%char) as [->|_]; [discriminate Hc|].
  rewrite int_digits_all by trivial. now rewrite Hv.
Qed.

Lemma chapter_key_name (n : Z) : 0 <= n -> Stages.chapter_key (chapter_txt_name n) = inr n.
Proof.
  intros Hn. unfold Stages.chapter_key, chapter_txt_name, split.
  pose proof (str_int_digits n Hn) as Hd.
  change ("chapter_" ++ str_int n ++ ".txt")
    with ("chapter" ++ String "_" (str_int n ++ ".txt")).
  rewrite split_aux_sep by reflexivity.
  rewrite split_aux_plain
    by (rewrite has_char_app, (digits_lack "_"%char _ eq_refl Hd); reflexivity).
  cbn [String.append].
  change (str_int n ++ ".txt") with (str_int n ++ String "." "txt").
  rewrite split_aux_sep by (now apply digits_lack).
  cbn [String.append]. now apply int_str_int.
Qed.

(** An entry without an underscore has no second field. *)
Lemma chapter_key_no_underscore (x : string) :
  has_char "_"%char x = false -> Stages.chapter_key x = inl IndexError.
Proof. intros H. unfold Stages.chapter_key, split. now rewrite split_aux_plain. Qed.

Lemma keyed_spec (l : list string) :
  match Stages.keyed l with
  | inr pairs =>
      map fst pairs = l
      /\ Forall (fun p => Stages.chapter_key (fst p) = inr (snd p)) pairs
  | inl e => Exists (fun x => Stages.chapter_key x = inl e) l
  end.
Proof.
  induction l as [|x l IH]; simpl; [auto|].
  destruct (Stages.chapter_key x) as [e|k] eqn:Ex.
  - now left.
  - destruct (Stages.keyed l) as [e|pairs].
    + now right.
    + destruct IH as [IH1 IH2]. simpl. rewrite IH1. split; [reflexivity|].
      constructor; trivial.
Qed.

Section WithTable.
Variable sent_tokenize : string -> list string.
Variable read : string -> string.

Lemma table_rows_total (files : list string) :
  Forall (fun x => exists k, Stages.chapter_key x = inr k) files ->
  exists rows, Stages.table_rows sent_tokenize read files = inr rows.
Proof.
  induction 1 as [|x files [k Hk] _ [rows IH]]; simpl; [eauto|].
  rewrite Hk, IH. destruct (_ && _); eauto.
Qed.

(** X14. The sentence table is written exactly when every entry of the folder,
    chapter file or not, has a number as the second of its fields between
    underscores, up to the first dot: any other entry ends the function with
    an exception before a row is written.  An entry without an underscore is
    such an entry. *)
Theorem table_needs_numbered_entries (listing : list string) :
  ((exists rows, Stages.process_chapter_files sent_tokenize read listing = inr rows)
   <-> Forall (fun x => exists k, Stages.chapter_key x = inr k) listing)
  /\ forall x, has_char "_"%char x = false -> Stages.chapter_key x = inl IndexError.
Proof.
  split; [|exact chapter_key_no_underscore].
  unfold Stages.process_chapter_files. pose proof (keyed_spec listing) as Hk.
  destruct (Stages.keyed listing) as [e|pairs].
  - split.
    + intros [rows H]. discriminate.
    + intros Hall. apply Exists_exists in Hk as (x & Hx & He).
      rewrite Forall_forall in Hall. destruct (Hall x Hx) as [k Hk]. congruence.
  - destruct Hk as [Hfst Hkeys]. split.
    + intros _. rewrite <- Hfst. apply Forall_fmap.
      eapply Forall_impl; [exact Hkeys|]. simpl. eauto.
    + intros _. apply table_rows_total. apply Forall_fmap.
      eapply Permutation_Forall; [symmetry; apply sorted_perm|].
      eapply Forall_impl; [exact Hkeys|]. simpl. eauto.
Qed.
End WithTable.
End TableFacts.

Lemma table_needs_numbered_entries_witness :
  Forall (fun x => exists k, Stages.chapter_key x = inr k) ["chapter_0.txt"; "part_7"]
  /\ exists rows,
       Stages.process_chapter_files GradioLaunch.split_sentences (fun _ => "Hi.")
         ["chapter_0.txt"; "part_7"] = inr rows.
Proof.
  assert (H : Forall (fun x => exists k, Stages.chapter_key x = inr k)
                ["chapter_0.txt"; "part_7"]).
  { repeat constructor; eexists; reflexivity. }
  split; [exact H|].
  exact (proj2 (proj1 (table_needs_numbered_entries GradioLaunch.split_sentences
                         (fun _ => "Hi.") ["chapter_0.txt"; "part_7"])) H).
Defined.


Section TableOrder.
Import Py PyMore GradioLaunch.
Variable sent_tokenize : string -> list string.
Variable read : string -> string.

Lemma keyed_decorated (f : string -> Z) (l : list string) :
  Forall (fun x => Stages.chapter_key x = inr (f x)) l ->
  Stages.keyed l = inr (map (fun x => (x, f x)) l).
Proof.
  induction 1 as [|x l Hx _ IH]; simpl; [reflexivity|]. now rewrite Hx, IH.
Qed.

Lemma insert_decorated (f : string -> Z) (x : string) (s : list string) :
  insert_by snd (x, f x) (map (fun y => (y, f y)) s)
  = map (fun y => (y, f y)) (insert_by f x s).
Proof.
  induction s as [|y s IH]; simpl; [reflexivity|].
  destruct (f x <=? f y); simpl; [reflexivity | now rewrite IH].
Qed.

Lemma sorted_decorated (f : string -> Z) (l : list string) :
  map fst (sorted snd (map (fun x => (x, f x)) l)) = sorted f l.
Proof.
  assert (E : sorted snd (map (fun x => (x, f x)) l)
              = map (fun x => (x, f x)) (sorted f l)).
  { induction l as [|x l IH]; simpl; [reflexivity|]. now rewrite IH, insert_decorated. }
  rewrite E, map_map. simpl. apply map_id.
Qed.

Lemma table_rows_chapters (b n : nat) :
  Stages.table_rows sent_tokenize read
    (map (fun k => chapter_txt_name (Z.of_nat k)) (seq b n))
  = inr (concat (map (fun k => chapter_rows sent_tokenize
                                 (read (chapter_txt_name (Z.of_nat k))) (Z.of_nat k))
                     (seq b n))).
Proof.
  revert b; induction n as [|n IH]; intros b; [reflexivity|].
  cbn [seq map Stages.table_rows concat].
  replace (startswith "chapter_" (chapter_txt_name (Z.of_nat b))) with true by reflexivity.
  replace (endswith ".txt" (chapter_txt_name (Z.of_nat b))) with true
    by (symmetry; unfold chapter_txt_name; rewrite <- app_assoc_str; apply endswith_app).
  cbn [andb]. rewrite chapter_key_name by lia. now rewrite IH.
Qed.

(** X15. When the folder holds the chapter files of the segmenter and nothing
    else, the table holds the rows of chapter 0, then those of chapter 1,
    and so on, each row with the number of its chapter, whatever the order
    of the listing. *)
Theorem table_rows_in_chapter_order (listing : list string) (n : nat) :
  Permutation listing (Stages.chapter_names n) ->
  Stages.process_chapter_files sent_tokenize read listing
  = inr (concat (map (fun k => chapter_rows sent_tokenize
                                 (read (chapter_txt_name (Z.of_nat k))) (Z.of_nat k))
                     (seq 0 n))).
Proof.
  intros Hp. unfold Stages.process_chapter_files.
  rewrite (keyed_decorated Book.sort_key).
  - rewrite sorted_decorated.
    rewrite (sorted_rearranged Book.sort_key listing (Stages.chapter_names n) Hp).
    + apply table_rows_chapters.
    + apply increasing_map_seq. intros k. apply book_sort_key_chapter. lia.
  - eapply Permutation_Forall; [symmetry; exact Hp|].
    apply Forall_forall. intros f Hf.
    apply list_elem_of_fmap in Hf as (k & -> & _).
    rewrite chapter_key_name, book_sort_key_chapter by lia. reflexivity.
Qed.
End TableOrder.

Lemma table_rows_in_chapter_order_witness :
  let read := fun f => if String.eqb f "chapter_0.txt" then "Hi there." else "Bye now." in
  Permutation ["chapter_1.txt"; "chapter_0.txt"] (Stages.chapter_names 2)
  /\ sum_map id (map GradioLaunch.row_chapter)
       (Stages.process_chapter_files GradioLaunch.split_sentences read
          ["chapter_1.txt"; "chapter_0.txt"])
     = inr [0; 1].
Proof.
  intros read.
  assert (Hp : Permutation ["chapter_1.txt"; "chapter_0.txt"] (Stages.chapter_names 2))
    by apply perm_swap.
  split; [exact Hp|].
  rewrite (table_rows_in_chapter_order GradioLaunch.split_sentences read _ 2 Hp).
  reflexivity.
Defined.

(** * From chapter texts to chapter audio *)

Section ConversionFacts.
Import Py PyMore GradioLaunch.
Variable espeak_ng : nat -> list string -> Z * string.
Variable str_exc : list string -> Z -> string.
Variable temp_name : nat -> string.
Variable from_wav : string -> M4b.AudioSegment.
Variables (speed pitch voice : string).
Variable sent_tokenize : string -> list string.
Variable read : string -> string.
Variables (chapters_dir output_audio_dir : string).

#[local] Abbreviation convert_file :=
  (Stages.convert_chapter_file espeak_ng str_exc temp_name from_wav speed pitch voice
     sent_tokenize read chapters_dir output_audio_dir).

Lemma insert_str_perm (x : string) (l : list string) : Permutation (insert_str x l) (x :: l).
Proof.
  induction l as [|y l IH]; simpl; [reflexivity|].
  destruct (String.leb x y); [reflexivity|]. rewrite IH. apply perm_swap.
Qed.

Lemma sorted_str_perm (l : list string) : Permutation (sorted_str l) l.
Proof.
  induction l as [|x l IH]; simpl; [reflexivity|].
  rewrite insert_str_perm. now constructor.
Qed.

Lemma exported_step (st : Stages.conv) (f : string) :
  dom (Stages.cv_exported (convert_file st f))
  = dom (Stages.cv_exported st)
    ∪ match Stages.exported_path output_audio_dir f with
      | Some p => {[p]}
      | None => ∅
      end.
Proof.
  unfold Stages.convert_chapter_file, Stages.exported_path.
  destruct (endswith ".txt" f); [|set_solver].
  destruct (Stages.chapter_num f) as [n|]; simpl; [|set_solver].
  rewrite dom_insert_L. set_solver.
Qed.

Lemma exported_after (files : list string) (st : Stages.conv) :
  dom (Stages.cv_exported (fold_left convert_file files st))
  = dom (Stages.cv_exported st)
    ∪ list_to_set (omap (Stages.exported_path output_audio_dir) files).
Proof.
  revert st; induction files as [|f files IH]; intros st.
  - simpl. set_solver.
  - cbn [fold_left]. rewrite IH, exported_step. simpl omap.
    destruct (Stages.exported_path output_audio_dir f); simpl; set_solver.
Qed.

Lemma exported_chapter_name (k : nat) :
  Stages.exported_path output_audio_dir (chapter_txt_name (Z.of_nat k))
  = Some (path_join output_audio_dir (audio_chapter_name (Z.of_nat k))).
Proof.
  unfold Stages.exported_path.
  replace (endswith ".txt" (chapter_txt_name (Z.of_nat k))) with true
    by (symmetry; unfold chapter_txt_name; rewrite <- app_assoc_str; apply endswith_app).
  now rewrite chapter_num_name by lia.
Qed.

Lemma exported_chapter_names (b n : nat) :
  omap (Stages.exported_path output_audio_dir)
       (map (fun k => chapter_txt_name (Z.of_nat k)) (seq b n))
  = map (fun k => path_join output_audio_dir (audio_chapter_name (Z.of_nat k))) (seq b n).
Proof.
  revert b; induction n as [|n IH]; intros b; [reflexivity|].
  cbn [seq map]. change (omap ?f (?x :: ?l)) with
    (match f x with Some y => y :: omap f l | None => omap f l end).
  now rewrite exported_chapter_name, IH.
Qed.

(** X16. The synthesis loop exports one audio file per text file of the chapter
    folder whose name matches the pattern, named after the number read from
    that name, and nothing else; for the chapter files of the segmenter
    these are audio_chapter_0.wav to audio_chapter_(n-1).wav. *)
Theorem exported_audio_files (listing : list string) (w : world) (n : nat) :
  let res := Stages.convert_chapters_to_audio_espeak espeak_ng str_exc temp_name from_wav
               speed pitch voice sent_tokenize read chapters_dir output_audio_dir
               listing w in
  dom (Stages.cv_exported res)
  = list_to_set (omap (Stages.exported_path output_audio_dir) listing)
  /\ (Permutation listing (Stages.chapter_names n) ->
      dom (Stages.cv_exported res)
      = list_to_set (map (path_join output_audio_dir) (Stages.audio_names n))).
Proof.
  intros res.
  assert (E : dom (Stages.cv_exported res)
              = list_to_set (omap (Stages.exported_path output_audio_dir) listing)).
  { subst res. unfold Stages.convert_chapters_to_audio_espeak.
    rewrite exported_after. simpl. rewrite dom_empty_L, (left_id_L ∅ (∪)).
    apply set_eq. intros p. rewrite !elem_of_list_to_set.
    now rewrite (omap_Permutation _ _ _ (sorted_str_perm listing)). }
  split; [exact E|].
  intros Hp. rewrite E. apply set_eq. intros p. rewrite !elem_of_list_to_set.
  rewrite (omap_Permutation _ _ _ Hp). unfold Stages.chapter_names, Stages.audio_names.
  now rewrite exported_chapter_names, map_map.
Qed.
End ConversionFacts.

Lemma exported_audio_files_witness :
  let res := Stages.convert_chapters_to_audio_espeak
               (fun _ _ => (0, EmptyString)) (fun _ _ => EmptyString)
               (fun _ => "t.wav") (fun _ => [1]) "170" "50" "en"
               GradioLaunch.split_sentences (fun _ => "Hi there.") "in" "out"
               ["chapter_1.txt"; "chapter_0.txt"] GradioLaunch.world0 in
  Permutation ["chapter_1.txt"; "chapter_0.txt"] (Stages.chapter_names 2)
  /\ dom (Stages.cv_exported res)
     = list_to_set (map (Py.path_join "out") (Stages.audio_names 2)).
Proof.
  intros res.
  assert (Hp : Permutation ["chapter_1.txt"; "chapter_0.txt"] (Stages.chapter_names 2))
    by apply perm_swap.
  split; [exact Hp|].
  exact (proj2 (exported_audio_files
                  (fun _ _ => (0, EmptyString)) (fun _ _ => EmptyString)
                  (fun _ => "t.wav") (fun _ => [1]) "170" "50" "en"
                  GradioLaunch.split_sentences (fun _ => "Hi there.") "in" "out"
                  ["chapter_1.txt"; "chapter_0.txt"] GradioLaunch.world0 2) Hp).
Defined.

(** * The audiobook from the exported chapters *)

Section M4bRun.
Import Py PyMore GradioLaunch.
Variable exit_status : nat -> list string -> Z.
Variable str_exc : list string -> Z -> string.
Variable cover_there : bool.
Variable from_wav : string -> M4b.AudioSegment.
Variable duration_ms : string -> Z.
Variable temp_dir : string.

Lemma extract_cover_cases (ebook_path : string) (w : world) :
  let cmd := ["ebook-meta"; ebook_path; "--get-cover"; Stages.cover_path_of ebook_path] in
  let r := Stages.extract_metadata_and_cover exit_status str_exc cover_there ebook_path w in
  run_log (snd r) = (run_log w ++ [cmd])%list
  /\ fst r = if (exit_status (List.length (run_log w)) cmd =? 0) && cover_there
             then Some (Stages.cover_path_of ebook_path) else None.
Proof.
  intros cmd r. subst r. unfold Stages.extract_metadata_and_cover, subprocess_run.
  fold cmd. cbv zeta.
  destruct (exit_status (List.length (run_log w)) cmd =? 0); simpl;
    [destruct cover_there|]; split; reflexivity.
Qed.

(** X17. From the audio files of chapters 0 to n-1, listed in any order, the
    audiobook is built from these files in chapter order: the combined
    audio is their audio one after the other; ebook-meta runs first, and
    the cover is kept exactly when ebook-meta exited zero and left the
    cover file.  When the path of the audiobook lies in a folder, the first
    ffmpeg command follows, with this cover, and the last line printed
    names the M4B file; when it does not, as with an empty output folder,
    the function is left by an exception after ebook-meta, no ffmpeg having
    run, the last line printed being that of the combined audio. *)
Theorem audiobook_from_exported_chapters (listing : list string) (n : nat)
    (ebook_file output_dir : string) (w : world) :
  Permutation listing (Stages.audio_names n) ->
  let r := Stages.create_m4b_from_chapters exit_status str_exc cover_there from_wav
             duration_ms temp_dir listing M4b.output_audio_directory ebook_file
             output_dir w in
  let meta_cmd :=
    ["ebook-meta"; ebook_file; "--get-cover"; Stages.cover_path_of ebook_file] in
  let output_m4b := Stages.m4b_path output_dir ebook_file in
  Stages.mr_chapter_files r
  = map (path_join M4b.output_audio_directory) (Stages.audio_names n)
  /\ Stages.mr_combined r
     = concat (map (fun k => from_wav (path_join M4b.output_audio_directory
                                         (audio_chapter_name (Z.of_nat k))))
                   (seq 0 n))
  /\ Stages.mr_cover r
     = (if (exit_status (List.length (run_log w)) meta_cmd =? 0) && cover_there
        then Some (Stages.cover_path_of ebook_file) else None)
  /\ (truthy (dirname output_m4b) = true ->
      Stages.mr_ending r = Returns
      /\ (exists rest,
            run_log (Stages.mr_world r)
            = (run_log w
               ++ meta_cmd
                  :: mux_cmd1 (path_join temp_dir "combined.wav")
                       (path_join temp_dir "metadata.txt") (Stages.mr_cover r) output_m4b
                  :: rest)%list)
      /\ last (stdout (Stages.mr_world r))
         = Some ("M4B file created successfully at " ++ output_m4b))
  /\ (truthy (dirname output_m4b) = false ->
      Stages.mr_ending r = Raises
      /\ run_log (Stages.mr_world r) = (run_log w ++ [meta_cmd])%list
      /\ last (stdout (Stages.mr_world r))
         = Some ("Combined audio saved to " ++ path_join temp_dir "combined.wav")).
Proof.
  intros Hp r meta_cmd output_m4b. subst r. unfold Stages.create_m4b_from_chapters.
  pose proof (extract_cover_cases ebook_file w) as [Hlog Hcover].
  cbv zeta in Hlog, Hcover. fold meta_cmd in Hlog, Hcover.
  destruct (Stages.extract_metadata_and_cover exit_status str_exc cover_there ebook_file w)
    as [cover_image w1].
  cbn [fst snd] in Hlog, Hcover. cbv zeta. fold output_m4b.
  set (w2 := print ("Combined audio saved to " ++ path_join temp_dir "combined.wav") w1).
  destruct (truthy (dirname output_m4b)) eqn:Hdir.
  - pose proof (create_m4b_first exit_status str_exc (path_join temp_dir "combined.wav")
                  (path_join temp_dir "metadata.txt") output_m4b cover_image w2 Hdir)
      as [rest Hrest].
    assert (Hret : fst (create_m4b exit_status str_exc (path_join temp_dir "combined.wav")
                          (path_join temp_dir "metadata.txt") cover_image output_m4b w2)
                   = Returns
                   /\ last (stdout (snd (create_m4b exit_status str_exc
                                           (path_join temp_dir "combined.wav")
                                           (path_join temp_dir "metadata.txt") cover_image
                                           output_m4b w2)))
                      = Some ("M4B file created successfully at " ++ output_m4b)).
    { unfold create_m4b. rewrite Hdir. cbn [negb].
      destruct (subprocess_run _ _ _) as [rc1 w3]. split; [reflexivity | apply last_snoc]. }
    destruct (create_m4b exit_status str_exc _ _ cover_image output_m4b w2) as [e w3].
    cbn [fst snd] in Hrest, Hret. destruct Hret as [-> Hlast].
    cbn [Stages.mr_chapter_files Stages.mr_combined Stages.mr_cover Stages.mr_world
         Stages.mr_ending].
    rewrite (audio_names_sorted _ _ Hp).
    split; [reflexivity|]. split.
    { unfold M4b.combine_wav_files. rewrite combine_fold. simpl.
      unfold Stages.audio_names. now rewrite !map_map. }
    split; [exact Hcover|]. split; [|discriminate].
    intros _. split; [reflexivity|]. split; [|exact Hlast].
    exists rest. rewrite Hrest. subst w2. cbn [print run_log]. rewrite Hlog.
    now rewrite <- app_assoc.
  - rewrite (create_m4b_raises exit_status str_exc _ _ output_m4b cover_image w2 Hdir).
    cbn [Stages.mr_chapter_files Stages.mr_combined Stages.mr_cover Stages.mr_world
         Stages.mr_ending].
    rewrite (audio_names_sorted _ _ Hp).
    split; [reflexivity|]. split.
    { unfold M4b.combine_wav_files. rewrite combine_fold. simpl.
      unfold Stages.audio_names. now rewrite !map_map. }
    split; [exact Hcover|]. split; [discriminate|].
    intros _. split; [reflexivity|]. split; [exact Hlog|].
    subst w2. cbn [print stdout]. apply last_snoc.
Qed.
End M4bRun.

Lemma audiobook_from_exported_chapters_witness :
  let r := Stages.create_m4b_from_chapters (fun _ _ => 0) (fun _ _ => EmptyString) true
             (fun f => [Z.of_nat (String.length f)]) (fun _ => 1000) "/tmp"
             ["audio_chapter_1.wav"; "audio_chapter_0.wav"]
             GradioLaunch.M4b.output_audio_directory "book.epub" "./Audiobooks"
             GradioLaunch.world0 in
  (Permutation ["audio_chapter_1.wav"; "audio_chapter_0.wav"] (Stages.audio_names 2)
   /\ Py.truthy (Py.dirname (Stages.m4b_path "./Audiobooks" "book.epub")) = true)
  /\ Stages.mr_chapter_files r
     = ["./Chapter_wav_files/audio_chapter_0.wav"; "./Chapter_wav_files/audio_chapter_1.wav"]
  /\ Stages.mr_ending r = GradioLaunch.Returns.
Proof.
  intros r.
  assert (Hp : Permutation ["audio_chapter_1.wav"; "audio_chapter_0.wav"]
                 (Stages.audio_names 2)) by apply perm_swap.
  pose proof (audiobook_from_exported_chapters (fun _ _ => 0) (fun _ _ => EmptyString)
                true (fun f => [Z.of_nat (String.length f)]) (fun _ => 1000) "/tmp"
                ["audio_chapter_1.wav"; "audio_chapter_0.wav"] 2 "book.epub"
                "./Audiobooks" GradioLaunch.world0 Hp) as H.
  cbv zeta in H. destruct H as (H1 & _ & _ & H4 & _).
  split; [split; [exact Hp | reflexivity]|].
  split; [exact H1 | exact (proj1 (H4 eq_refl))].
Defined.

(** * The voices of the form *)

Section Voices.
Import Py PyMore.

Lemma truthy_app_r (a b : string) : truthy b = true -> truthy (a ++ b) = true.
Proof. destruct a; [trivial | reflexivity]. Qed.

Lemma truthy_snoc (a : string) (c : ascii) : truthy (a ++ String c EmptyString) = true.
Proof. now apply truthy_app_r. Qed.

Lemma no_space_app (a b : string) :
  no_space (a ++ b) = no_space a && no_space b.
Proof. induction a as [|c a IH]; simpl; [reflexivity|]. now rewrite IH, andb_assoc. Qed.

(** Every field of [s.split()] is non-empty and free of whitespace. *)
Lemma split_ws_fields (s cur : string) :
  no_space cur = true ->
  Forall (fun f => truthy f = true /\ no_space f = true) (split_ws_aux s cur).
Proof.
  revert cur; induction s as [|c s IH]; intros cur Hcur; simpl.
  - destruct (truthy cur) eqn:E; auto.
  - destruct (is_space c) eqn:Ec.
    + destruct (truthy cur) eqn:E; [constructor; auto|]; now apply IH.
    + apply IH. rewrite no_space_app, Hcur. simpl. now rewrite Ec.
Qed.

(** A field followed by a space is the first field of the whole. *)
Lemma split_ws_first (f rest cur : string) :
  no_space f = true -> truthy (cur ++ f) = true ->
  split_ws_aux (f ++ String " " rest) cur = (cur ++ f) :: split_ws_aux rest EmptyString.
Proof.
  revert cur; induction f as [|c f IH]; intros cur Hf Ht.
  - rewrite app_empty_r in *. simpl. now rewrite Ht.
  - simpl in Hf. apply andb_true_iff in Hf as [Hc Hf].
    apply negb_true_iff in Hc. cbn [String.append split_ws_aux]. rewrite Hc.
    rewrite IH; trivial.
    + now rewrite app_assoc_str.
    + rewrite app_assoc_str. exact Ht.
Qed.

Lemma voice_of_line_name (line : string) (v : string * string) :
  Stages.voice_of_line line = Some v -> truthy (fst v) = true /\ no_space (fst v) = true.
Proof.
  unfold Stages.voice_of_line, split_ws.
  pose proof (split_ws_fields line EmptyString eq_refl) as H.
  destruct (split_ws_aux line EmptyString) as [|a [|b rest]]; try discriminate.
  intros [= <-]. simpl. inversion H as [|? ? _ H2]. now inversion H2.
Qed.

(** X18. The entry of the dropdown leads back to the voice it was built from:
    what the conversion passes to espeak-ng for an entry is the name of
    that voice, so the split never comes out empty. *)
Theorem voice_of_dropdown_entry (stdout_lines : list string) (v : string * string) :
  v ∈ Stages.get_available_voices stdout_lines ->
  Stages.voice_code (Stages.voice_choice v) = Some (fst v).
Proof.
  unfold Stages.get_available_voices. intros Hv.
  apply list_elem_of_omap in Hv as (line & _ & Hline).
  apply voice_of_line_name in Hline as [Ht Hs].
  unfold Stages.voice_code, Stages.voice_choice, split_ws.
  change (fst v ++ " (" ++ snd v ++ ")") with (fst v ++ String " " ("(" ++ snd v ++ ")")).
  rewrite split_ws_first; trivial.
Qed.
End Voices.

Lemma voice_of_dropdown_entry_witness :
  let lines := ["Pty Language       Age/Gender VoiceName          File";
                " 5  af              --/M      Afrikaans          gmw/af"] in
  ("af", "--/M Afrikaans gmw/af") ∈ Stages.get_available_voices lines
  /\ Stages.voice_code "af (--/M Afrikaans gmw/af)" = Some "af".
Proof.
  intros lines.
  assert (H : ("af", "--/M Afrikaans gmw/af") ∈ Stages.get_available_voices lines)
    by (vm_compute; left).
  split; [exact H|].
  exact (voice_of_dropdown_entry lines ("af", "--/M Afrikaans gmw/af") H).
Defined.

(** * The paths of the audiobook and of the cover *)

Section Paths.
Import Py PyMore.

Lemma rfind_aux_absent (c : ascii) (s : string) (i best : Z) :
  has_char c s = false -> rfind_aux c s i best = best.
Proof.
  revert i best; induction s as [|a s IH]; intros i best H; simpl in *; trivial.
  apply orb_false_elim in H as [Ha Hs]. rewrite Ha. now apply IH.
Qed.

Lemma rfind_aux_last (c : ascii) (a b : string) (i best : Z) :
  has_char c b = false ->
  rfind_aux c (a ++ String c b) i best = i + Z.of_nat (String.length a).
Proof.
  revert i best; induction a as [|x a IH]; intros i best H.
  - cbn [String.append rfind_aux String.length]. rewrite Ascii.eqb_refl.
    rewrite rfind_aux_absent by trivial. lia.
  - cbn [String.append rfind_aux String.length]. rewrite IH by trivial. lia.
Qed.

Lemma rfind_last (c : ascii) (a b : string) :
  has_char c b = false -> rfind (a ++ String c b) c = Z.of_nat (String.length a).
Proof. intros H. unfold rfind. now rewrite rfind_aux_last. Qed.

Lemma rfind_absent (c : ascii) (s : string) : has_char c s = false -> rfind s c = -1.
Proof. apply rfind_aux_absent. Qed.

Lemma substring_app_prefix (a b : string) : substring 0 (String.length a) (a ++ b) = a.
Proof.
  induction a as [|c a IH]; simpl; [now destruct b | now rewrite IH].
Qed.

Lemma basename_last (dir name : string) :
  has_char "/" name = false -> basename (dir ++ String "/" name) = name.
Proof.
  intros H. unfold basename. rewrite rfind_last by trivial.
  replace (Z.to_nat (Z.of_nat (String.length dir) + 1))
    with (String.length (dir ++ "/")) by (rewrite length_app_str; simpl; lia).
  change (String "/" name) with ("/" ++ name). rewrite <- app_assoc_str.
  apply drop_app_length.
Qed.

Lemma splitext_root_last (name ext : string) :
  has_char "/" name = false -> has_char "/" ext = false -> has_char "." ext = false ->
  truthy (remove_char "." name) = true ->
  splitext_root (name ++ String "." ext) = name.
Proof.
  intros Hn He Hd Ht. unfold splitext_root.
  rewrite (rfind_absent "/") by (rewrite has_char_app; simpl; now rewrite Hn, He).
  rewrite rfind_last by trivial.
  replace (-1 <? Z.of_nat (String.length name)) with true by (symmetry; apply Z.ltb_lt; lia).
  replace (Z.to_nat (-1 + 1)) with 0%nat by lia.
  replace (Z.to_nat (Z.of_nat (String.length name) - -1 - 1)) with (String.length name) by lia.
  rewrite Nat2Z.id, !substring_app_prefix. now rewrite Ht.
Qed.

(** X19. For an ebook at dir/name.ext the audiobook is name.m4b in the output
    folder, and the cover is looked for at dir/name.jpg, next to the ebook:
    only the last extension is replaced, and the folders of the ebook play
    no part in the name of the audiobook. *)
Theorem audiobook_paths (dir name ext output_dir : string) :
  has_char "/" name = false -> has_char "/" ext = false -> has_char "." ext = false ->
  truthy (remove_char "." name) = true ->
  let ebook_file := dir ++ "/" ++ name ++ "." ++ ext in
  Stages.m4b_path output_dir ebook_file = path_join output_dir (name ++ ".m4b")
  /\ Stages.cover_path_of ebook_file = dir ++ "/" ++ name ++ ".jpg".
Proof.
  intros Hn He Hd Ht ebook_file. subst ebook_file. split.
  - unfold Stages.m4b_path.
    change (dir ++ "/" ++ name ++ "." ++ ext) with (dir ++ String "/" (name ++ String "." ext)).
    rewrite basename_last by (rewrite has_char_app; simpl; now rewrite Hn, He).
    now rewrite splitext_root_last.
  - unfold Stages.cover_path_of, rsplit1_head.
    replace (dir ++ "/" ++ name ++ "." ++ ext) with ((dir ++ "/" ++ name) ++ String "." ext)
      by (now rewrite !app_assoc_str).
    rewrite rfind_last by trivial.
    replace (Z.of_nat (String.length (dir ++ "/" ++ name)) <? 0) with false
      by (symmetry; apply Z.ltb_ge; lia).
    rewrite Nat2Z.id, substring_app_prefix. now rewrite !app_assoc_str.
Qed.

(** X20. Once the audiobook of an ebook is in the audiobook folder, the download
    button offers it under the path the conversion reported. *)
Theorem created_audiobook_is_listed (ebook_file : string) (listing : list string) :
  (splitext_root (basename ebook_file) ++ ".m4b") ∈ listing ->
  Stages.m4b_path Stages.audiobook_output_path ebook_file
    ∈ Stages.download_audiobooks listing.
Proof.
  intros H. unfold Stages.download_audiobooks, Stages.list_audiobook_files, Stages.m4b_path.
  apply list_elem_of_fmap. eexists; split; [reflexivity|].
  apply list_elem_of_In, filter_In. split; [now apply list_elem_of_In|].
  apply endswith_app.
Qed.
End Paths.

Lemma audiobook_paths_witness :
  Py.has_char "/" "my.book" = false /\ Py.has_char "/" "epub" = false
  /\ Py.has_char "." "epub" = false /\ Py.truthy (Py.remove_char "." "my.book") = true
  /\ Stages.m4b_path "./Audiobooks" "/tmp/up.load/my.book.epub" = "./Audiobooks/my.book.m4b"
  /\ Stages.cover_path_of "/tmp/up.load/my.book.epub" = "/tmp/up.load/my.book.jpg".
Proof.
  do 4 (split; [reflexivity|]).
  exact (audiobook_paths "/tmp/up.load" "my.book" "epub" "./Audiobooks"
           eq_refl eq_refl eq_refl eq_refl).
Defined.

Lemma created_audiobook_is_listed_witness :
  "book.m4b" ∈ ["notes.txt"; "book.m4b"]
  /\ "./Audiobooks/book.m4b" ∈ Stages.download_audiobooks ["notes.txt"; "book.m4b"].
Proof.
  assert (H : "book.m4b" ∈ ["notes.txt"; "book.m4b"]) by (right; left).
  split; [exact H|].
  exact (created_audiobook_is_listed "/tmp/book.epub" ["notes.txt"; "book.m4b"] H).
Defined.

(** * app.py: the request as a whole *)

Section ChecksFacts.
Import Py PyMore App AppRequest.
Variable found : string -> bool.

Lemma checked_eq (embed_cover : bool) (output_format : string) :
  checked (run_checks found embed_cover output_format)
  = (["ebook-convert"] ++ (if embed_cover then ["ebook-meta"] else [])
     ++ ["espeak-ng"] ++ (if String.eqb output_format "mp3" then ["lame"] else [])
     ++ (if String.eqb output_format "ogg" then ["oggenc"] else []))%list.
Proof.
  unfold run_checks, check_command.
  now destruct embed_cover, (String.eqb output_format "mp3"),
    (String.eqb output_format "ogg").
Qed.

Lemma missing_count (embed_cover : bool) (output_format : string) :
  let c := run_checks found embed_cover output_format in
  List.length (missing c embed_cover output_format)
  = List.length (List.filter (fun tool => negb (found tool)) (checked c)).
Proof.
  intros c. subst c. unfold run_checks, check_command, missing.
  destruct embed_cover, (String.eqb output_format "mp3"), (String.eqb output_format "ogg");
    cbn;
    repeat match goal with
           | |- context [found ?x] =>
               let E := fresh "E" in destruct (found x) eqn:E; cbn
           end;
    reflexivity.
Qed.

Lemma missing_nil (embed_cover : bool) (output_format : string) :
  let c := run_checks found embed_cover output_format in
  missing c embed_cover output_format = []
  <-> Forall (fun tool => found tool = true) (checked c).
Proof.
  intros c. pose proof (missing_count embed_cover output_format) as Hc.
  cbv zeta in Hc. fold c in Hc. split.
  - intros Hm. rewrite Hm in Hc. simpl in Hc. symmetry in Hc.
    apply length_zero_iff_nil in Hc.
    apply Forall_forall. intros tool Ht.
    destruct (found tool) eqn:E; [reflexivity|]. exfalso.
    assert (Hin : In tool (List.filter (fun tool => negb (found tool)) (checked c)))
      by (apply filter_In; split; [now apply list_elem_of_In | now rewrite E]).
    rewrite Hc in Hin. destruct Hin.
  - intros Hall. apply length_zero_iff_nil. rewrite Hc.
    apply length_zero_iff_nil.
    clear Hc. induction Hall as [|tool l Ht _ IH]; [reflexivity|]. cbn [List.filter].
    rewrite Ht. exact IH.
Qed.

Lemma meta_ok_when_passed (embed_cover : bool) (output_format : string) :
  let c := run_checks found embed_cover output_format in
  missing c embed_cover output_format = [] -> calibre_meta_ok c = true.
Proof.
  intros c. subst c. unfold run_checks, check_command, missing.
  destruct embed_cover, (String.eqb output_format "mp3"), (String.eqb output_format "ogg");
    cbn; try reflexivity;
    destruct (found "ebook-convert"), (found "ebook-meta"); cbn; try reflexivity;
    repeat match goal with
           | |- context [found ?x] => destruct (found x); cbn
           end; discriminate.
Qed.

(** X21. The tools a request needs are those it looks for: ebook-convert and
    espeak-ng always, ebook-meta only for the cover, lame only for MP3,
    oggenc only for OGG; the message names one entry for each of these that
    is not found, and none for a tool the request does not need. *)
Theorem missing_tools_are_the_needed_ones (embed_cover : bool) (output_format : string) :
  let c := run_checks found embed_cover output_format in
  checked c
  = (["ebook-convert"] ++ (if embed_cover then ["ebook-meta"] else [])
     ++ ["espeak-ng"] ++ (if String.eqb output_format "mp3" then ["lame"] else [])
     ++ (if String.eqb output_format "ogg" then ["oggenc"] else []))%list
  /\ List.length (missing c embed_cover output_format)
     = List.length (List.filter (fun tool => negb (found tool)) (checked c))
  /\ (missing c embed_cover output_format = []
      <-> Forall (fun tool => found tool = true) (checked c)).
Proof.
  intros c. split; [apply checked_eq|]. split; [apply missing_count | apply missing_nil].
Qed.
End ChecksFacts.

Section StepsFacts.
Import Py PyMore App AppRequest.
Variable decode : string -> string.

Lemma audio_error_is_error (e : CalledProcessError) :
  startswith "**Error:**" (audio_error_message decode e) = true.
Proof. reflexivity. Qed.

(** Steps 2 to 5: the player and the download get the same path, the
    cover is the one Step 1 left, and without audio the status text is an
    error message. *)
Lemma steps_result (rq : request) (t : tools) :
  let res := snd (App.convert_ebook_to_audio decode rq t) in
  audio_output res = download_output res
  /\ cover_output res = cover_image_path_final rq
  /\ (audio_output res = None -> startswith "**Error:**" (status_text res) = true).
Proof.
  intros res. subst res. unfold App.convert_ebook_to_audio, step2.
  destruct (exit_code (ebook_convert t) =? 0);
    [destruct (txt_size t) as [n|]; [destruct (n =? 0)|]
    |destruct (truthy (err_stream (ebook_convert t)))];
    cbn [snd failure audio_output download_output cover_output status_text];
    try (repeat split; fail).
  unfold step3.
  destruct (run_audio rq t) as [ev3 [[e|msg]|]]; cbn [snd].
  - repeat split.
  - repeat split.
  - unfold check_audio.
    destruct (audio_size t) as [m|]; [destruct (m <? 1024)|]; cbn [snd];
      repeat split; try discriminate.
Qed.
Lemma run_audio_tools (rq : request) (t : tools) (e : proc_event) :
  e ∈ fst (run_audio rq t) ->
  exists rest,
    command_of e = "espeak-ng" :: rest
    \/ (output_format rq = "mp3" /\ command_of e = "lame" :: rest)
    \/ (output_format rq = "ogg" /\ command_of e = "oggenc" :: rest).
Proof.
  unfold run_audio, piped.
  destruct (String.eqb_spec (output_format rq) "wav") as [Ew|Ew];
    [|destruct (String.eqb_spec (output_format rq) "mp3") as [Em|Em];
      [|destruct (String.eqb_spec (output_format rq) "ogg") as [Eo|Eo]]];
    cbn [fst]; intros H;
    repeat (apply elem_of_cons in H as [->|H]);
    try (apply elem_of_nil in H; destruct H);
    cbn [command_of cmd_speak app]; eauto 6.
Qed.

Lemma run_audio_none (rq : request) (t : tools) :
  snd (run_audio rq t) = None ->
  exit_code (espeak t) = 0
  /\ (output_format rq = "wav"
      \/ ((output_format rq = "mp3" \/ output_format rq = "ogg")
          /\ exit_code (encoder t) = 0)).
Proof.
  unfold run_audio, piped.
  destruct (String.eqb_spec (output_format rq) "wav") as [Ew|Ew];
    [|destruct (String.eqb_spec (output_format rq) "mp3") as [Em|Em];
      [|destruct (String.eqb_spec (output_format rq) "ogg") as [Eo|Eo]]];
    cbn [snd]; try discriminate;
    destruct (Z.eqb_spec (exit_code (encoder t)) 0);
    destruct (Z.eqb_spec (exit_code (espeak t)) 0); cbn [negb]; try discriminate; auto.
Qed.

(** With audio in the result, every stage before it went well: the
    converter exited zero and left text, the synthesis exited zero, for a
    piped format the encoder too, and the audio file holds 1024 bytes or
    more; the path returned is that of the audio file. *)
Lemma steps_success (rq : request) (t : tools) :
  audio_output (snd (App.convert_ebook_to_audio decode rq t)) <> None ->
  exit_code (ebook_convert t) = 0 /\ missing_or_empty (txt_size t) = false
  /\ exit_code (espeak t) = 0
  /\ (output_format rq = "wav"
      \/ ((output_format rq = "mp3" \/ output_format rq = "ogg")
          /\ exit_code (encoder t) = 0))
  /\ missing_or_small (audio_size t) = false
  /\ audio_output (snd (App.convert_ebook_to_audio decode rq t))
     = Some (audio_output_path rq).
Proof.
  intros Hout.
  destruct (convert_cases decode rq t)
    as [(res & H2 & Hrun) | (status & H2 & _ & [(_ & msg & Hres) | [(_ & _ & Hres)
                                                   | (Hnone & Hsz & Ha & _)]])].
  - exfalso. apply Hout. rewrite Hrun. cbn [snd].
    now destruct (step2_failure_is_error rq t res H2).
  - exfalso. apply Hout. now rewrite Hres.
  - exfalso. apply Hout. now rewrite Hres.
  - destruct (run_audio_none rq t Hnone) as [Hs Hfmt].
    assert (Hok : ~ (exit_code (ebook_convert t) <> 0
                     \/ missing_or_empty (txt_size t) = true)).
    { intros Hbad. apply (proj2 (step2_fails_iff rq t)) in Hbad as [res Hres]. congruence. }
    split; [lia|]. split; [destruct (missing_or_empty (txt_size t)); tauto|]. auto.
Qed.

(** X22. For WAV the encoder plays no part: whatever an encoder would do, the
    processes run and the result are the same. *)
Theorem wav_ignores_the_encoder (rq : request) (t : tools) (enc : completed) :
  output_format rq = "wav" ->
  App.convert_ebook_to_audio decode rq
    {| ebook_convert := ebook_convert t; txt_size := txt_size t; espeak := espeak t;
       encoder := enc; audio_size := audio_size t; embed_status := embed_status t |}
  = App.convert_ebook_to_audio decode rq t.
Proof.
  intros Hw. unfold App.convert_ebook_to_audio, step2, step3, run_audio, check_audio.
  rewrite Hw. reflexivity.
Qed.

(** X23. A format other than wav, mp3 and ogg starts no synthesis: after the
    converter nothing is run, and the request ends with the message of the
    unsupported format, whatever the tools would do. *)
Theorem unsupported_format_starts_no_synthesis (rq : request) (t : tools) :
  output_format rq <> "wav" -> output_format rq <> "mp3" -> output_format rq <> "ogg" ->
  exit_code (ebook_convert t) = 0 -> missing_or_empty (txt_size t) = false ->
  App.convert_ebook_to_audio decode rq t
  = ([Run (cmd_convert rq)],
     failure rq ("**Error:** An unexpected error occurred during audio generation:"
                 ++ nl ++ "Unsupported output format: " ++ output_format rq)).
Proof.
  intros Hw Hm Ho Hrc Htxt.
  unfold App.convert_ebook_to_audio, step2, step3, run_audio.
  rewrite Hrc. cbn [Z.eqb].
  apply String.eqb_neq in Hw, Hm, Ho. rewrite Hw, Hm, Ho.
  unfold missing_or_empty in Htxt.
  destruct (txt_size t) as [n|]; [|discriminate]. now rewrite Htxt.
Qed.
End StepsFacts.

Section CoverFacts.
Import Py PyMore App AppRequest.

Lemma extract_cover_events (embed_cover meta_ok : bool) (p temp_dir : string)
    (ct : cover_tools) (status : list string) :
  fst (extract_cover embed_cover meta_ok p temp_dir ct status)
  = if embed_cover && meta_ok then [Run (cmd_meta p temp_dir)] else [].
Proof.
  unfold extract_cover. destruct (embed_cover && meta_ok); [reflexivity|].
  now destruct (embed_cover && negb meta_ok).
Qed.

(** X24. Step 1 is left by an exception exactly when ebook-meta was run, exited
    non-zero and wrote to its standard error: the handler of this failure
    then fails itself, although the cover is optional.  In every other case
    Step 1 ends normally, whatever the image library does. *)
Theorem cover_step_raises_iff (embed_cover meta_ok : bool) (p temp_dir : string)
    (ct : cover_tools) (status : list string) :
  (exists msg, snd (extract_cover embed_cover meta_ok p temp_dir ct status) = Raised msg)
  <-> (embed_cover = true /\ meta_ok = true /\ exit_code (ebook_meta ct) <> 0
       /\ truthy (err_stream (ebook_meta ct)) = true).
Proof.
  unfold extract_cover.
  destruct embed_cover, meta_ok; cbn [andb negb snd];
    try (split; [intros [msg H]; discriminate | intros (? & ? & _); discriminate]).
  destruct (Z.eqb_spec (exit_code (ebook_meta ct)) 0) as [E|E].
  - split; [|intros (_ & _ & H & _); contradiction].
    intros [msg H]. exfalso.
    destruct (there_and_not_empty (cover_size ct)); [|discriminate].
    destruct (cover_image ct) as [| |format]; try discriminate.
    destruct (negb _); [|discriminate].
    destruct (converted ct) as [|size]; [discriminate|].
    destruct (there_and_not_empty size); discriminate.
  - destruct (truthy (err_stream (ebook_meta ct))).
    + split; [auto | eauto].
    + split; [intros [msg H]; discriminate | intros (_ & _ & _ & H); discriminate].
Qed.

Lemma extract_cover_final (embed_cover meta_ok : bool) (p temp_dir : string)
    (ct : cover_tools) (status : list string)
    (cover_extracted : bool) (final : option string) (status' : list string) :
  snd (extract_cover embed_cover meta_ok p temp_dir ct status)
  = Extracted cover_extracted final status' ->
  final = None \/ final = Some (path_join temp_dir "cover.jpg")
  \/ final = Some (path_join temp_dir "cover_converted.jpg").
Proof.
  unfold extract_cover.
  destruct (embed_cover && meta_ok); cbn [snd].
  - destruct (exit_code (ebook_meta ct) =? 0).
    + destruct (there_and_not_empty (cover_size ct)); [|intros [= _ <- _]; now left].
      destruct (cover_image ct) as [| |format]; try (intros [= _ <- _]; now left).
      destruct (negb _); [|intros [= _ <- _]; now right; left].
      destruct (converted ct) as [|size]; [intros [= _ <- _]; now left|].
      destruct (there_and_not_empty size); intros [= _ <- _]; [now right; right | now left].
    + destruct (truthy (err_stream (ebook_meta ct))); [discriminate|].
      intros [= _ <- _]; now left.
  - destruct (embed_cover && negb meta_ok); cbn [snd]; intros [= _ <- _]; now left.
Qed.

(** X25. When Step 1 ends normally, a cover counts as extracted exactly when a
    cover path is set; the path is cover.jpg or cover_converted.jpg in the
    temporary folder, and is set only after ebook-meta exited zero, left a
    file that is not empty, and the image library opened it. *)
Theorem cover_path_only_when_extracted (embed_cover meta_ok : bool) (p temp_dir : string)
    (ct : cover_tools) (status : list string)
    (cover_extracted : bool) (final : option string) (status' : list string) :
  snd (extract_cover embed_cover meta_ok p temp_dir ct status)
  = Extracted cover_extracted final status' ->
  (cover_extracted = true <-> final <> None)
  /\ (final = None \/ final = Some (path_join temp_dir "cover.jpg")
      \/ final = Some (path_join temp_dir "cover_converted.jpg"))
  /\ (final <> None ->
      embed_cover = true /\ exit_code (ebook_meta ct) = 0
      /\ there_and_not_empty (cover_size ct) = true
      /\ exists format, cover_image ct = Opened format).
Proof.
  unfold extract_cover.
  assert (Hno : forall st, Extracted false None st = Extracted cover_extracted final status' ->
                (cover_extracted = true <-> final <> None)
                /\ (final = None \/ final = Some (path_join temp_dir "cover.jpg")
                    \/ final = Some (path_join temp_dir "cover_converted.jpg"))
                /\ (final <> None ->
                    embed_cover = true /\ exit_code (ebook_meta ct) = 0
                    /\ there_and_not_empty (cover_size ct) = true
                    /\ exists format, cover_image ct = Opened format)).
  { intros st [= <- <- _]. split; [split; [discriminate | congruence]|].
    split; [now left | congruence]. }
  destruct embed_cover, meta_ok; cbn [andb negb snd]; try apply Hno.
  destruct (Z.eqb_spec (exit_code (ebook_meta ct)) 0) as [E|E].
  - destruct (there_and_not_empty (cover_size ct)) eqn:Es; [|apply Hno].
    destruct (cover_image ct) as [| |format] eqn:Ei; try apply Hno.
    destruct (negb _).
    + destruct (converted ct) as [|size]; [apply Hno|].
      destruct (there_and_not_empty size); [|apply Hno].
      intros [= <- <- _]. split; [split; [discriminate | reflexivity]|].
      split; [now right; right | intros _; eauto 6].
    + intros [= <- <- _]. split; [split; [discriminate | reflexivity]|].
      split; [now right; left | intros _; eauto 6].
  - destruct (truthy (err_stream (ebook_meta ct))); [discriminate | apply Hno].
Qed.
End CoverFacts.

Lemma cover_step_raises_iff_witness :
  let ct := {| AppRequest.ebook_meta :=
                 {| App.exit_code := 1; App.out_stream := EmptyString;
                    App.err_stream := "No such file" |};
               AppRequest.cover_size := None;
               AppRequest.cover_image := AppRequest.NotAnImage;
               AppRequest.converted := AppRequest.Saved None |} in
  (true = true /\ true = true /\ App.exit_code (AppRequest.ebook_meta ct) <> 0
   /\ Py.truthy (App.err_stream (AppRequest.ebook_meta ct)) = true)
  /\ exists msg,
       snd (AppRequest.extract_cover true true "book.epub" "/tmp/e" ct ["Conversion started..."])
       = AppRequest.Raised msg.
Proof.
  intros ct.
  assert (H : true = true /\ true = true /\ App.exit_code (AppRequest.ebook_meta ct) <> 0
              /\ Py.truthy (App.err_stream (AppRequest.ebook_meta ct)) = true).
  { repeat split. simpl. lia. }
  split; [exact H|].
  exact (proj2 (cover_step_raises_iff true true "book.epub" "/tmp/e" ct
                  ["Conversion started..."]) H).
Defined.

Lemma cover_path_only_when_extracted_witness :
  let ct := {| AppRequest.ebook_meta :=
                 {| App.exit_code := 0; App.out_stream := EmptyString;
                    App.err_stream := EmptyString |};
               AppRequest.cover_size := Some 2048;
               AppRequest.cover_image := AppRequest.Opened (Some "GIF");
               AppRequest.converted := AppRequest.Saved (Some 4096) |} in
  snd (AppRequest.extract_cover true true "book.epub" "/tmp/e" ct ["Conversion started..."])
  = AppRequest.Extracted true (Some "/tmp/e/cover_converted.jpg")
      ["Conversion started..."; "Attempting to extract cover art...";
       "✅ Cover art extracted and converted to JPG."]
  /\ (true = true <-> Some "/tmp/e/cover_converted.jpg" <> None).
Proof.
  intros ct.
  assert (H : snd (AppRequest.extract_cover true true "book.epub" "/tmp/e" ct
                     ["Conversion started..."])
              = AppRequest.Extracted true (Some "/tmp/e/cover_converted.jpg")
                  ["Conversion started..."; "Attempting to extract cover art...";
                   "✅ Cover art extracted and converted to JPG."])
    by reflexivity.
  split; [exact H|].
  exact (proj1 (cover_path_only_when_extracted true true "book.epub" "/tmp/e" ct
                  ["Conversion started..."] true (Some "/tmp/e/cover_converted.jpg") _ H)).
Defined.

Section RequestFacts.
Import Py PyMore App AppRequest.
Variable found : string -> bool.
Variable decode : string -> string.
Variable available_voices : gmap string string.
Variable temp_dir : string.
Variable stem : string -> string.

#[local] Abbreviation handle :=
  (AppRequest.convert_ebook_to_audio found decode available_voices temp_dir stem).
#[local] Abbreviation rq_of := (request_of available_voices temp_dir stem).

(** The ways a request ends. *)
Lemma request_cases (ebook_file : option string) (language_display output_format : string)
    (embed_cover : bool) (ct : cover_tools) (t : tools) :
  let c := run_checks found embed_cover output_format in
  let run := handle ebook_file language_display output_format embed_cover ct t in
  (ebook_file = None /\ run = ([], [], error None "Error: No ebook file provided."))
  \/ (exists p, ebook_file = Some p
      /\ ((missing c embed_cover output_format <> []
           /\ run = (checked c, [],
                     error None (missing_message (missing c embed_cover output_format))))
          \/ (missing c embed_cover output_format = []
              /\ let s1 := extract_cover embed_cover (calibre_meta_ok c) p temp_dir ct
                             ["Conversion started..."] in
                 (exists msg, snd s1 = Raised msg
                              /\ run = (checked c, fst s1, error None (critical_message msg)))
                 \/ (exists ce final st,
                       snd s1 = Extracted ce final st
                       /\ run = (checked c,
                                 (fst s1
                                  ++ fst (App.convert_ebook_to_audio decode
                                            (rq_of p language_display output_format final st)
                                            t))%list,
                                 snd (App.convert_ebook_to_audio decode
                                        (rq_of p language_display output_format final st)
                                        t)))))).
Proof.
  intros c run. subst run. unfold AppRequest.convert_ebook_to_audio.
  destruct ebook_file as [p|]; [right; exists p; split; [reflexivity|] | now left].
  fold c. destruct (missing c embed_cover output_format) as [|m ms] eqn:Em.
  - right. split; [reflexivity|]. cbn [List.length Nat.eqb negb]. cbv zeta.
    destruct (extract_cover embed_cover (calibre_meta_ok c) p temp_dir ct
                ["Conversion started..."]) as [ev1 [msg|ce final st]]; cbn [fst snd].
    + left. eauto.
    + right. exists ce, final, st. split; [reflexivity|].
      now destruct (App.convert_ebook_to_audio decode _ t).
  - left. split; [discriminate | reflexivity].
Qed.

(** X26. Although the cover is optional, a failure of ebook-meta that writes to
    its standard error ends the request: ebook-convert is never run, and
    the status shows the failure of the handler, not that of ebook-meta. *)
Theorem cover_failure_ends_request (p language_display output_format : string)
    (ct : cover_tools) (t : tools) :
  Forall (fun tool => found tool = true) (checked (run_checks found true output_format)) ->
  exit_code (ebook_meta ct) <> 0 ->
  truthy (err_stream (ebook_meta ct)) = true ->
  handle (Some p) language_display output_format true ct t
  = (checked (run_checks found true output_format),
     [Run (cmd_meta p temp_dir)],
     error None (critical_message "'str' object has no attribute 'decode'")).
Proof.
  intros Hall Hrc Herr.
  assert (Hm : missing (run_checks found true output_format) true output_format = [])
    by (now apply missing_nil).
  pose proof (meta_ok_when_passed found true output_format Hm) as Hok.
  unfold AppRequest.convert_ebook_to_audio. rewrite Hm. cbn [List.length Nat.eqb negb].
  cbv zeta. rewrite Hok. unfold extract_cover. cbn [andb].
  destruct (Z.eqb_spec (exit_code (ebook_meta ct)) 0) as [E|E]; [contradiction|].
  now rewrite Herr.
Qed.

(** X27. Whatever the tools do, the player and the download get the same path;
    the cover shown is none or one of the two cover files of the temporary
    folder; and a request that returns no audio returns an error message. *)
Theorem request_result_shape (ebook_file : option string)
    (language_display output_format : string) (embed_cover : bool)
    (ct : cover_tools) (t : tools) :
  let res := snd (handle ebook_file language_display output_format embed_cover ct t) in
  audio_output res = download_output res
  /\ (cover_output res = None
      \/ cover_output res = Some (path_join temp_dir "cover.jpg")
      \/ cover_output res = Some (path_join temp_dir "cover_converted.jpg"))
  /\ (audio_output res = None ->
      status_text res = "Error: No ebook file provided."
      \/ startswith "**Error:**" (status_text res) = true).
Proof.
  intros res. subst res.
  destruct (request_cases ebook_file language_display output_format embed_cover ct t)
    as [[_ ->] | (p & _ & [[_ ->] | [_ [(msg & _ & ->) | (ce & final & st & Hs & ->)]]])];
    cbn [snd error audio_output download_output cover_output status_text].
  - repeat split; auto.
  - repeat split; auto.
  - repeat split; auto.
  - destruct (steps_result decode (rq_of p language_display output_format final st) t)
      as (Ha & Hc & He).
    pose proof (extract_cover_final _ _ _ _ _ _ _ _ _ Hs) as Hp.
    split; [exact Ha|]. split; [rewrite Hc; exact Hp | auto].
Qed.
(** X28. A request returns audio only after every stage went well: an upload,
    every needed tool found, the converter and the synthesis exiting zero,
    text and audio files of sufficient size, and a supported format. *)
Theorem audio_needs_every_stage (ebook_file : option string)
    (language_display output_format : string) (embed_cover : bool)
    (ct : cover_tools) (t : tools) :
  let res := snd (handle ebook_file language_display output_format embed_cover ct t) in
  audio_output res <> None ->
  (exists p, ebook_file = Some p
             /\ audio_output res
                = Some (path_join temp_dir (stem p ++ "." ++ output_format)))
  /\ Forall (fun tool => found tool = true)
        (checked (run_checks found embed_cover output_format))
  /\ exit_code (ebook_convert t) = 0 /\ missing_or_empty (txt_size t) = false
  /\ exit_code (espeak t) = 0
  /\ (output_format = "wav"
      \/ ((output_format = "mp3" \/ output_format = "ogg") /\ exit_code (encoder t) = 0))
  /\ missing_or_small (audio_size t) = false.
Proof.
  intros res. subst res.
  destruct (request_cases ebook_file language_display output_format embed_cover ct t)
    as [[_ ->] | (p & -> & [[_ ->] | [Hm [(msg & _ & ->) | (ce & final & st & Hs & ->)]]])];
    cbn [snd error audio_output]; try congruence.
  intros Hout.
  destruct (steps_success decode _ t Hout) as (H1 & H2 & H3 & H4 & H5 & H6).
  split; [exists p; split; [reflexivity | exact H6]|].
  split; [now apply missing_nil|]. auto.
Qed.

(** X29. Every process of a request runs a tool the request looked for before:
    nothing is run unchecked. *)
Theorem only_checked_tools_are_run (ebook_file : option string)
    (language_display output_format : string) (embed_cover : bool)
    (ct : cover_tools) (t : tools) (e : proc_event) :
  let run := handle ebook_file language_display output_format embed_cover ct t in
  e ∈ snd (fst run) ->
  exists tool rest, command_of e = tool :: rest /\ tool ∈ fst (fst run).
Proof.
  intros run. subst run.
  destruct (request_cases ebook_file language_display output_format embed_cover ct t)
    as [[_ ->] | (p & -> & [[_ ->] | [Hm [(msg & _ & ->) | (ce & final & st & Hs & ->)]]])];
    cbn [fst snd]; try (intros H; apply elem_of_nil in H; destruct H).
  - rewrite extract_cover_events, checked_eq. intros H.
    destruct embed_cover; cbn [andb] in H; [|apply elem_of_nil in H; destruct H].
    destruct (calibre_meta_ok _); [|apply elem_of_nil in H; destruct H].
    apply list_elem_of_singleton in H as ->.
    exists "ebook-meta". eexists. split; [reflexivity|]. set_solver.
  - rewrite extract_cover_events, checked_eq. intros H.
    apply elem_of_app in H as [H|H].
    + destruct embed_cover; cbn [andb] in H; [|apply elem_of_nil in H; destruct H].
      destruct (calibre_meta_ok _); [|apply elem_of_nil in H; destruct H].
      apply list_elem_of_singleton in H as ->.
      exists "ebook-meta". eexists. split; [reflexivity|]. set_solver.
    + destruct (convert_cases decode (rq_of p language_display output_format final st) t)
        as [(res & _ & Hrun) | (status & _ & Hev & _)].
      * rewrite Hrun in H. cbn [fst] in H. apply list_elem_of_singleton in H as ->.
        exists "ebook-convert". eexists. split; [reflexivity|]. set_solver.
      * rewrite Hev in H. apply elem_of_cons in H as [->|H].
        { exists "ebook-convert". eexists. split; [reflexivity|]. set_solver. }
        apply run_audio_tools in H as [rest [H | [[Hf H] | [Hf H]]]];
          cbn [App.output_format request_of] in *.
        { exists "espeak-ng", rest. split; [exact H|]. set_solver. }
        { exists "lame", rest. split; [exact H|]. subst output_format. set_solver. }
        { exists "oggenc", rest. split; [exact H|]. subst output_format. set_solver. }
Qed.
End RequestFacts.

Lemma cover_failure_ends_request_witness :
  let ct := {| AppRequest.ebook_meta :=
                 {| App.exit_code := 1; App.out_stream := EmptyString;
                    App.err_stream := "No such file" |};
               AppRequest.cover_size := None;
               AppRequest.cover_image := AppRequest.NotAnImage;
               AppRequest.converted := AppRequest.Saved None |} in
  let t := {| App.ebook_convert := {| App.exit_code := 0; App.out_stream := EmptyString;
                                      App.err_stream := EmptyString |};
              App.txt_size := Some 10;
              App.espeak := {| App.exit_code := 0; App.out_stream := EmptyString;
                               App.err_stream := EmptyString |};
              App.encoder := {| App.exit_code := 0; App.out_stream := EmptyString;
                                App.err_stream := EmptyString |};
              App.audio_size := Some 4096;
              App.embed_status := [] |} in
  Forall (fun tool => (fun _ : string => true) tool = true)
    (AppRequest.checked (AppRequest.run_checks (fun _ => true) true "mp3"))
  /\ App.exit_code (AppRequest.ebook_meta ct) <> 0
  /\ Py.truthy (App.err_stream (AppRequest.ebook_meta ct)) = true
  /\ App.audio_output
       (snd (AppRequest.convert_ebook_to_audio (fun _ => true) (fun s => s) ∅ "/tmp/e"
               (fun _ => "book") (Some "book.epub") "English (en)" "mp3" true ct t))
     = None.
Proof.
  intros ct t.
  assert (H1 : Forall (fun tool => (fun _ : string => true) tool = true)
                 (AppRequest.checked (AppRequest.run_checks (fun _ => true) true "mp3")))
    by (apply Forall_forall; reflexivity).
  assert (H2 : App.exit_code (AppRequest.ebook_meta ct) <> 0) by (simpl; lia).
  assert (H3 : Py.truthy (App.err_stream (AppRequest.ebook_meta ct)) = true) by reflexivity.
  split; [exact H1|]. split; [exact H2|]. split; [exact H3|].
  rewrite (cover_failure_ends_request (fun _ => true) (fun s => s) ∅ "/tmp/e"
             (fun _ => "book") "book.epub" "English (en)" "mp3" ct t H1 H2 H3).
  reflexivity.
Defined.

Lemma wav_ignores_the_encoder_witness :
  let rq := {| App.input_ebook_path := "book.epub"; App.temp_dir := "/tmp/e";
               App.base_filename := "book"; App.voice_code := "en";
               App.output_format := "wav"; App.cover_image_path_final := None;
               App.status_updates := ["Conversion started..."] |} in
  let ok := {| App.exit_code := 0; App.out_stream := EmptyString;
               App.err_stream := EmptyString |} in
  let bad := {| App.exit_code := 1; App.out_stream := EmptyString;
                App.err_stream := "broken pipe" |} in
  let t := {| App.ebook_convert := ok; App.txt_size := Some 10; App.espeak := ok;
              App.encoder := ok; App.audio_size := Some 4096; App.embed_status := [] |} in
  App.output_format rq = "wav"
  /\ App.audio_output
       (snd (App.convert_ebook_to_audio (fun s => s) rq
               {| App.ebook_convert := ok; App.txt_size := Some 10; App.espeak := ok;
                  App.encoder := bad; App.audio_size := Some 4096;
                  App.embed_status := [] |}))
     = Some "/tmp/e/book.wav".
Proof.
  intros rq ok bad t. split; [reflexivity|].
  change (App.audio_output
            (snd (App.convert_ebook_to_audio (fun s => s) rq
                    {| App.ebook_convert := App.ebook_convert t;
                       App.txt_size := App.txt_size t; App.espeak := App.espeak t;
                       App.encoder := bad; App.audio_size := App.audio_size t;
                       App.embed_status := App.embed_status t |}))
          = Some "/tmp/e/book.wav").
  rewrite (wav_ignores_the_encoder (fun s => s) rq t bad eq_refl).
  reflexivity.
Defined.

Lemma unsupported_format_starts_no_synthesis_witness :
  let rq := {| App.input_ebook_path := "book.epub"; App.temp_dir := "/tmp/e";
               App.base_filename := "book"; App.voice_code := "en";
               App.output_format := "flac"; App.cover_image_path_final := None;
               App.status_updates := ["Conversion started..."] |} in
  let ok := {| App.exit_code := 0; App.out_stream := EmptyString;
               App.err_stream := EmptyString |} in
  let t := {| App.ebook_convert := ok; App.txt_size := Some 10; App.espeak := ok;
              App.encoder := ok; App.audio_size := Some 4096; App.embed_status := [] |} in
  (App.output_format rq <> "wav" /\ App.output_format rq <> "mp3"
   /\ App.output_format rq <> "ogg" /\ App.exit_code (App.ebook_convert t) = 0
   /\ App.missing_or_empty (App.txt_size t) = false)
  /\ fst (App.convert_ebook_to_audio (fun s => s) rq t) = [App.Run (App.cmd_convert rq)].
Proof.
  intros rq ok t.
  assert (H1 : App.output_format rq <> "wav") by discriminate.
  assert (H2 : App.output_format rq <> "mp3") by discriminate.
  assert (H3 : App.output_format rq <> "ogg") by discriminate.
  split; [repeat split; assumption|].
  rewrite (unsupported_format_starts_no_synthesis (fun s => s) rq t H1 H2 H3 eq_refl eq_refl).
  reflexivity.
Defined.

Lemma audio_needs_every_stage_witness :
  let ok := {| App.exit_code := 0; App.out_stream := EmptyString;
               App.err_stream := EmptyString |} in
  let ct := {| AppRequest.ebook_meta := ok; AppRequest.cover_size := None;
               AppRequest.cover_image := AppRequest.NotAnImage;
               AppRequest.converted := AppRequest.Saved None |} in
  let t := {| App.ebook_convert := ok; App.txt_size := Some 10; App.espeak := ok;
              App.encoder := ok; App.audio_size := Some 4096; App.embed_status := [] |} in
  let res := snd (AppRequest.convert_ebook_to_audio (fun _ => true) (fun s => s) ∅ "/tmp/e"
                    (fun _ => "book") (Some "book.epub") "English (en)" "mp3" false ct t) in
  App.audio_output res <> None
  /\ App.exit_code (App.ebook_convert t) = 0.
Proof.
  intros ok ct t res.
  assert (H : App.audio_output res <> None) by (vm_compute; discriminate).
  split; [exact H|].
  exact (proj1 (proj2 (proj2
    (audio_needs_every_stage (fun _ => true) (fun s => s) ∅ "/tmp/e" (fun _ => "book")
       (Some "book.epub") "English (en)" "mp3" false ct t H)))).
Defined.

Lemma only_checked_tools_are_run_witness :
  let ok := {| App.exit_code := 0; App.out_stream := EmptyString;
               App.err_stream := EmptyString |} in
  let ct := {| AppRequest.ebook_meta := ok; AppRequest.cover_size := None;
               AppRequest.cover_image := AppRequest.NotAnImage;
               AppRequest.converted := AppRequest.Saved None |} in
  let t := {| App.ebook_convert := ok; App.txt_size := Some 10; App.espeak := ok;
              App.encoder := ok; App.audio_size := Some 4096; App.embed_status := [] |} in
  let run := AppRequest.convert_ebook_to_audio (fun _ => true) (fun s => s) ∅ "/tmp/e"
               (fun _ => "book") (Some "book.epub") "English (en)" "mp3" false ct t in
  let e := App.Popen ["lame"; "-"; "/tmp/e/book.mp3"] in
  e ∈ snd (fst run)
  /\ exists tool rest, AppRequest.command_of e = tool :: rest /\ tool ∈ fst (fst run).
Proof.
  intros ok ct t run e.
  assert (H : e ∈ snd (fst run)) by (vm_compute; do 2 right; left).
  split; [exact H|].
  exact (only_checked_tools_are_run (fun _ => true) (fun s => s) ∅ "/tmp/e" (fun _ => "book")
           (Some "book.epub") "English (en)" "mp3" false ct t e H).
Defined.

(** * The default of the language dropdown *)

Section DefaultVoice.
Import Py PyMore AppRequest.

Lemma str_in_spec (x : string) (l : list string) : str_in x l = true -> x ∈ l.
Proof.
  unfold str_in. intros H. apply existsb_exists in H as (y & Hy & E).
  apply String.eqb_eq in E as <-. now apply list_elem_of_In.
Qed.

(** X30. The default of the language dropdown is one of its choices whenever
    there is a choice; without any it is en. *)
Theorem default_voice_is_a_choice (voice_choices : list string) :
  (voice_choices <> [] -> default_voice voice_choices ∈ voice_choices)
  /\ default_voice [] = "en".
Proof.
  split; [|reflexivity]. intros Hne. unfold default_voice.
  destruct (str_in "English (en-US) (en-us)" voice_choices) eqn:E1;
    [now apply str_in_spec|].
  destruct (str_in "English (en)" voice_choices) eqn:E2; [now apply str_in_spec|].
  destruct voice_choices; [contradiction | left].
Qed.
End DefaultVoice.

Lemma default_voice_is_a_choice_witness :
  ["Afrikaans (af)"; "English (en)"] <> []
  /\ AppRequest.default_voice ["Afrikaans (af)"; "English (en)"]
       ∈ ["Afrikaans (af)"; "English (en)"].
Proof.
  assert (H : ["Afrikaans (af)"; "English (en)"] <> []) by discriminate.
  split; [exact H|].
  exact (proj1 (default_voice_is_a_choice ["Afrikaans (af)"; "English (en)"]) H).
Defined.
